(** * OpenNebula cloud driver ([salt/cloud/clouds/opennebula.py])

    A shallow embedding of the driver's XML flattener, resource listers,
    bounded-retry lookups, update dispatchers and of the VM create / destroy
    flows, together with the properties its specification states about them.

    Python dictionaries with string keys are [gmap string pyval]; a pool
    (a dictionary keyed by the text of a [NAME] element, which lxml reports
    as [None] for an element without text) is [gmap (option string) pyval].
    Calls into the salt host and into the XML-RPC server are recorded as
    events; what they answer is decided by a [host] record. *)

From stdpp Require Import gmap strings list fin_maps pretty.
From Stdlib Require Import Ascii QArith.
From Equations Require Import Equations.

#[local] Set Warnings "-register-all,-clear-no-such-hyp".
#[local] Open Scope string_scope.
#[local] Open Scope Z_scope.
#[local] Open Scope list_scope.

(** ** Python values *)

(** The values the driver handles: [None], booleans, integers, strings,
    lists and string-keyed dictionaries. *)
Inductive pyval :=
| PNone
| PBool (b : bool)
| PInt (z : Z)
| PStr (s : string)
| PList (l : list pyval)
| PDict (d : gmap string pyval).

(** One lxml element: its tag, its [.text] ([None] when the element has no
    text) and its child elements in document order. *)
Inductive element :=
| Element (tag : string) (text : option string) (children : list element).

Definition tag (e : element) : string :=
  match e with Element t _ _ => t end.

Definition text (e : element) : option string :=
  match e with Element _ t _ => t end.

Definition children (e : element) : list element :=
  match e with Element _ _ c => c end.

(** ** The XML flattener *)

Module Flatten.

(** [str.lower()] on an ASCII tag. *)
Definition lower_ascii (c : ascii) : ascii :=
  let n := nat_of_ascii c in
  if (65 <=? n)%nat && (n <=? 90)%nat then ascii_of_nat (n + 32) else c.

Fixpoint lower (s : string) : string :=
  match s with
  | EmptyString => EmptyString
  | String c rest => String (lower_ascii c) (lower rest)
  end.

(** The inner loop of [_xml_to_dict]:
<<
    while key in dicts:
        key += str(idx)
        idx += 1
>>
    Every round makes [key] longer, so the loop leaves after at most
    [size dicts] rounds; [fuel] counts the rounds that remain. *)
Fixpoint unique_key (fuel : nat) (dicts : gmap string pyval)
    (key : string) (idx : nat) : string :=
  match fuel with
  | O => key
  | S fuel' =>
      match dicts !! key with
      | Some _ => unique_key fuel' dicts (key +:+ pretty idx) (S idx)
      | None => key
      end
  end.

(** One round of the [for item in xml] loop. *)
Definition add_item (flat : element -> gmap string pyval)
    (dicts : gmap string pyval) (item : element) : gmap string pyval :=
  let key := unique_key (S (size dicts)) dicts (lower (tag item)) 1 in
  match text item with
  | None => <[key := PDict (flat item)]> dicts
  | Some s => <[key := PStr s]> dicts
  end.

Fixpoint _xml_to_dict (xml : element) : gmap string pyval :=
  match xml with
  | Element _ _ items => fold_left (add_item _xml_to_dict) items ∅
  end.

(** What one child is stored as: its text, or its own flattening. *)
Definition item_value (item : element) : pyval :=
  match text item with
  | None => PDict (_xml_to_dict item)
  | Some s => PStr s
  end.

(** The key each item is stored under, in sibling order, when the loop
    starts from [dicts]. *)
Fixpoint item_keys (dicts : gmap string pyval) (items : list element)
    : list string :=
  match items with
  | [] => []
  | item :: rest =>
      unique_key (S (size dicts)) dicts (lower (tag item)) 1
      :: item_keys (add_item _xml_to_dict dicts item) rest
  end.

Definition sibling_keys (xml : element) : list string :=
  item_keys ∅ (children xml).

(** The keys of [dicts] that are at least [n] characters long: what is left
    for the inner loop to collide with. *)
Definition long_keys (n : nat) (dicts : gmap string pyval) : gset string :=
  filter (λ k, (n ≤ String.length k)%nat) (dom dicts).

(** The suffix the inner loop has appended after [n] rounds:
    [str(1) + str(2) + ... + str(n)]. *)
Fixpoint suffix_chain (n : nat) : string :=
  match n with
  | O => ""
  | S n' => suffix_chain n' +:+ pretty n
  end.

End Flatten.

Export Flatten.

(** ** Exceptions, results and the call trace *)

(** The exception classes the driver raises or catches.  [OtherError] stands
    for whatever else a host service raises (an XML-RPC fault, an I/O error,
    a parse error). *)
Inductive exn :=
| SaltCloudSystemExit (msg : string)
| SaltCloudConfigError (msg : string)
| SaltCloudException (msg : string)
| SaltCloudNotFound (msg : string)
| SaltCloudExecutionTimeout (msg : string)
| SaltCloudExecutionFailure (msg : string)
| KeyError (key : pyval)
| IndexError
| TypeError
| ValueError
| AttributeError
| OtherError (msg : string).

Inductive result (A : Type) :=
| Ok (a : A)
| Raise (e : exn).

Arguments Ok {A} a.
Arguments Raise {A} e.

(** What the driver does to the outside world, in the order it does it.
    Logging is not recorded. *)
Inductive event :=
| Rpc (server method : string) (args : list pyval)
| Sleep (seconds : Q)
| FireEvent (description tag : string) (data : pyval)
| CacheNode (node : pyval)
| DeleteMinionCachedir (name : pyval) (provider : string)
| ReadFile (path : pyval)
| Bootstrap (vm_ : gmap string pyval).

(** A computation reads the events so far and yields a result together
    with the events it adds. *)
Definition M (A : Type) : Type := list event -> result A * list event.

Definition ret {A} (a : A) : M A := fun _ => (Ok a, []).

Definition raise {A} (e : exn) : M A := fun _ => (Raise e, []).

Definition lift {A} (r : result A) : M A := fun _ => (r, []).

Definition emit (ev : event) : M unit := fun _ => (Ok tt, [ev]).

Definition bind {A B} (c : M A) (k : A -> M B) : M B :=
  fun t =>
    match c t with
    | (Ok a, e1) => let '(r, e2) := k a (t ++ e1) in (r, e1 ++ e2)
    | (Raise e, e1) => (Raise e, e1)
    end.

(** [try: c  except <the classes h answers for>: h e]. *)
Definition try_except {A} (c : M A) (h : exn -> option (M A)) : M A :=
  fun t =>
    match c t with
    | (Ok a, e1) => (Ok a, e1)
    | (Raise e, e1) =>
        match h e with
        | Some k => let '(r, e2) := k (t ++ e1) in (r, e1 ++ e2)
        | None => (Raise e, e1)
        end
    end.

(** [try: c  finally: f]: [f] runs whatever [c] did, and what [f] raises
    replaces the outcome of [c]. *)
Definition try_finally {A} (c : M A) (f : M unit) : M A :=
  fun t =>
    let '(r, e1) := c t in
    match f (t ++ e1) with
    | (Ok _, e2) => (r, e1 ++ e2)
    | (Raise e, e2) => (Raise e, e1 ++ e2)
    end.

Declare Scope driver_scope.
Delimit Scope driver_scope with driver.

Notation "'let*' x ':=' c 'in' k" := (bind c (fun x => k))
  (at level 10, x pattern, c at level 100, k at level 200) : driver_scope.
Notation "c '>>' k" := (bind c (fun _ => k))
  (at level 100, k at level 200, right associativity) : driver_scope.

#[local] Open Scope driver_scope.

(** ** Python built-ins *)

Module Py.

(** [bool(v)], as [if v] and [not v] use it. *)
Definition truthy (v : pyval) : bool :=
  match v with
  | PNone => false
  | PBool b => b
  | PInt z => negb (z =? 0)
  | PStr s => negb (String.eqb s "")
  | PList l => match l with [] => false | _ => true end
  | PDict d => negb (bool_decide (d = ∅))
  end.

(** [v == s] for a string literal [s]. *)
Definition str_eq (v : pyval) (s : string) : bool :=
  match v with
  | PStr s' => String.eqb s' s
  | _ => false
  end.

(** [call == s] for the call-context tag. *)
Definition call_is (call : option string) (s : string) : bool :=
  match call with
  | Some c => String.eqb c s
  | None => false
  end.

(** [v[k]] for a string key. *)
Definition getitem (v : pyval) (k : string) : result pyval :=
  match v with
  | PDict d =>
      match d !! k with
      | Some x => Ok x
      | None => Raise (KeyError (PStr k))
      end
  | _ => Raise TypeError
  end.

Fixpoint string_get (s : string) (i : nat) : option ascii :=
  match s, i with
  | EmptyString, _ => None
  | String c _, O => Some c
  | String _ rest, S i' => string_get rest i'
  end.

(** [v[i]] for an integer literal [i]. *)
Definition getindex (v : pyval) (i : nat) : result pyval :=
  match v with
  | PList l =>
      match l !! i with
      | Some x => Ok x
      | None => Raise IndexError
      end
  | PStr s =>
      match string_get s i with
      | Some c => Ok (PStr (String c EmptyString))
      | None => Raise IndexError
      end
  | PDict _ => Raise (KeyError (PInt (Z.of_nat i)))
  | _ => Raise TypeError
  end.

(** [d[k] = x] on a value expected to be a dictionary. *)
Definition setitem (v : pyval) (k : string) (x : pyval) : result pyval :=
  match v with
  | PDict d => Ok (PDict (<[k := x]> d))
  | _ => Raise TypeError
  end.

(** [d.get(k, None)] on keyword arguments. *)
Definition kwget (kwargs : gmap string pyval) (k : string) : pyval :=
  default PNone (kwargs !! k).

(** [vm_[k]]. *)
Definition vmget (vm_ : gmap string pyval) (k : string) : result pyval :=
  match vm_ !! k with
  | Some x => Ok x
  | None => Raise (KeyError (PStr k))
  end.

Definition is_space (c : ascii) : bool :=
  let n := nat_of_ascii c in
  (n =? 32)%nat || ((9 <=? n)%nat && (n <=? 13)%nat).

Fixpoint lstrip (s : string) : string :=
  match s with
  | String c rest => if is_space c then lstrip rest else s
  | EmptyString => EmptyString
  end.

Definition strip (s : string) : string :=
  String.rev (lstrip (String.rev (lstrip s))).

Definition digit_of (c : ascii) : option Z :=
  let n := nat_of_ascii c in
  if (48 <=? n)%nat && (n <=? 57)%nat then Some (Z.of_nat n - 48) else None.

Fixpoint digits (acc : Z) (s : string) : option Z :=
  match s with
  | EmptyString => Some acc
  | String c rest =>
      match digit_of c with
      | Some d => digits (10 * acc + d) rest
      | None => None
      end
  end.

Definition unsigned (s : string) : option Z :=
  match s with
  | EmptyString => None
  | _ => digits 0 s
  end.

(** [int(s)] on a string: a decimal literal with an optional sign, white
    space allowed around it. *)
Definition int_of_string (s : string) : option Z :=
  match strip s with
  | String "-" rest => Z.opp <$> unsigned rest
  | String "+" rest => unsigned rest
  | s' => unsigned s'
  end.

(** [int(v)]. *)
Definition int (v : pyval) : result Z :=
  match v with
  | PInt z => Ok z
  | PBool b => Ok (if b then 1 else 0)
  | PStr s =>
      match int_of_string s with
      | Some z => Ok z
      | None => Raise ValueError
      end
  | _ => Raise TypeError
  end.

(** [':'.join([user, password])]. *)
Definition join_colon (user password : pyval) : result string :=
  match user, password with
  | PStr u, PStr p => Ok (u +:+ ":" +:+ p)
  | _, _ => Raise TypeError
  end.

(** [s.split(':')[0]]. *)
Fixpoint before_colon (s : string) : string :=
  match s with
  | EmptyString => EmptyString
  | String c rest =>
      if Ascii.eqb c ":" then EmptyString else String c (before_colon rest)
  end.

(** [a or b] on strings. *)
Definition str_or (a b : string) : string :=
  if String.eqb a "" then b else a.

End Py.

(** Sequencing in [result], for the parts of the driver that only compute. *)
Definition and_then {A B} (r : result A) (k : A -> result B) : result B :=
  match r with
  | Ok a => k a
  | Raise e => Raise e
  end.

Notation "'let?' x ':=' r 'in' k" := (and_then r (fun x => k))
  (at level 10, x pattern, r at level 100, k at level 200) : driver_scope.

(** ** lxml element access *)

Module Lxml.

(** [e.find(t)]: the first child with that tag, if any. *)
Definition find (e : element) (t : string) : option element :=
  List.find (fun c => String.eqb (tag c) t) (children e).

(** [e.findall(t)]. *)
Definition findall (e : element) (t : string) : list element :=
  List.filter (fun c => String.eqb (tag c) t) (children e).

(** [e.find(t)] when an attribute of the result is read next: reading an
    attribute of [None] raises. *)
Definition find_elem (e : element) (t : string) : result element :=
  match find e t with
  | Some c => Ok c
  | None => Raise AttributeError
  end.

Definition text_value (e : element) : pyval :=
  match text e with
  | Some s => PStr s
  | None => PNone
  end.

(** [e.find(t).text]. *)
Definition find_text (e : element) (t : string) : result pyval :=
  let? c := find_elem e t in Ok (text_value c).

End Lxml.

(** ** The host *)

(** What the salt host, the Python libraries and the OpenNebula server answer.
    [xmlrpc], [fopen_read] and [bootstrap] see the events so far, so that a
    server may answer the same request differently on a later call. *)
Record host := {
  (** [__active_provider_name__] *)
  active_provider_name : string;
  (** [__opts__] *)
  opts : gmap string pyval;
  (** [repr(v)], as [{0!r}] and the formatting of containers use it *)
  py_repr : pyval -> string;
  (** [config.is_provider_configured(__opts__, name, ('xml_rpc', 'user',
      'password'))]: the provider's configuration or [False] *)
  is_provider_configured : string -> pyval;
  (** [config.is_profile_configured(__opts__, name, profile)] *)
  is_profile_configured : string -> pyval -> result pyval;
  (** [config.get_cloud_config_value(name, vm_, __opts__, default=...,
      search_global=...)] *)
  get_cloud_config_value : string -> pyval -> pyval -> bool -> pyval;
  (** [xmlrpc_client.ServerProxy(uri)]; a proxy is named by its URI *)
  ServerProxy : pyval -> result string;
  (** one XML-RPC request: server, method name, arguments *)
  xmlrpc : list event -> string -> string -> list pyval -> result pyval;
  (** [etree.XML(document)] *)
  etree_XML : pyval -> result element;
  (** [salt.utils.fopen(path, mode='r').read()] *)
  fopen_read : list event -> pyval -> result pyval;
  (** [os.path.isfile(path)] on a string *)
  isfile : string -> bool;
  (** [salt.utils.cloud.wait_for_ip(update_callback, update_args=...,
      timeout=..., interval=...)] *)
  wait_for_ip :
    (list pyval -> M pyval) -> list pyval -> pyval -> pyval -> M pyval;
  (** [salt.utils.cloud.bootstrap(vm_, __opts__)] *)
  bootstrap : list event -> gmap string pyval -> result pyval
}.

(** A pool: resource records keyed by the text of their [NAME] element. *)
Abbreviation pool := (gmap (option string) pyval).

Module Pool.

(** [pool[name]]. *)
Definition getitem (p : pool) (name : pyval) : result pyval :=
  match name with
  | PNone =>
      match p !! None with
      | Some x => Ok x
      | None => Raise (KeyError name)
      end
  | PStr s =>
      match p !! Some s with
      | Some x => Ok x
      | None => Raise (KeyError name)
      end
  | PBool _ | PInt _ => Raise (KeyError name)
  | PList _ | PDict _ => Raise TypeError
  end.

(** The loop shared by the listers:
<<
    for item in etree.XML(pool):
        items[item.find('NAME').text] = _xml_to_dict(item)
>> *)
Fixpoint collect (items : list element) (acc : pool) : result pool :=
  match items with
  | [] => Ok acc
  | item :: rest =>
      let? name := Lxml.find_elem item "NAME" in
      collect rest (<[text name := PDict (_xml_to_dict item)]> acc)
  end.

End Pool.

(** ** The driver *)

Section Driver.

Variable H : host.

(** [str(v)]. *)
Definition str (v : pyval) : string :=
  match v with
  | PNone => "None"
  | PBool true => "True"
  | PBool false => "False"
  | PInt z => pretty z
  | PStr s => s
  | _ => py_repr H v
  end.

(** [__opts__[k]]. *)
Definition opts_getitem (k : string) : result pyval :=
  match opts H !! k with
  | Some x => Ok x
  | None => Raise (KeyError (PStr k))
  end.

(** [salt.utils.cloud.fire_event('event', description, tag, data)]. *)
Definition fire_event (description tag : string) (data : pyval) : M unit :=
  emit (FireEvent description tag data).

(** One request to the server; the request is recorded whatever the
    answer. *)
Definition rpc (server method : string) (args : list pyval) : M pyval :=
  fun t => (xmlrpc H t server method args, [Rpc server method args]).

(** [time.sleep(seconds)]. *)
Definition sleep (seconds : Q) : M unit := emit (Sleep seconds).

Definition get_configured_provider : pyval :=
  is_provider_configured H (Py.str_or (active_provider_name H) "opennebula").

(** [_get_xml_rpc]: the server proxy with the configured user and
    password. *)
Definition _get_xml_rpc : result (string * pyval * pyval) :=
  let vm_ := get_configured_provider in
  let xml_rpc := get_cloud_config_value H "xml_rpc" vm_ PNone false in
  let user := get_cloud_config_value H "user" vm_ PNone false in
  let password := get_cloud_config_value H "password" vm_ PNone false in
  let? server := ServerProxy H xml_rpc in
  Ok (server, user, password).

(** The opening of the [_list_*] helpers:
<<
    if not server or not user or not password:
        server, user, password = _get_xml_rpc()
>> *)
Definition or_get_xml_rpc (server : option string) (user password : pyval)
    : result (string * pyval * pyval) :=
  match server with
  | Some s =>
      if negb (Py.truthy user) || negb (Py.truthy password)
      then _get_xml_rpc
      else Ok (s, user, password)
  | None => _get_xml_rpc
  end.

(** [for item in etree.XML(response[1]): ...] of the flattening listers. *)
Definition pool_of_response (response : pyval) : result pool :=
  let? document := Py.getindex response 1 in
  let? root := etree_XML H document in
  Pool.collect (children root) ∅.

Definition wildcard : list pyval := [PInt (-1); PInt (-1); PInt (-1)].

Definition avail_images (call : option string) : M pool :=
  if Py.call_is call "action" then
    raise (SaltCloudSystemExit
      ("The avail_images function must be called with " +:+
       "-f or --function, or with the --list-images option"))
  else
    let* (server, user, password) := lift _get_xml_rpc in
    let* auth := lift (Py.join_colon user password) in
    let* response := rpc server "one.imagepool.info" (PStr auth :: wildcard) in
    lift (pool_of_response response).

Definition avail_locations (call : option string) : M pool :=
  if Py.call_is call "action" then
    raise (SaltCloudSystemExit
      ("The avail_locations function must be called with " +:+
       "-f or --function, or with the --list-locations option"))
  else
    let* (server, user, password) := lift _get_xml_rpc in
    let* auth := lift (Py.join_colon user password) in
    let* response := rpc server "one.hostpool.info" [PStr auth] in
    lift (pool_of_response response).

Definition _list_images (server : option string) (user password : pyval)
    : M pool :=
  let* (server, user, password) :=
    lift (or_get_xml_rpc server user password) in
  let* auth := lift (Py.join_colon user password) in
  let* response := rpc server "one.imagepool.info" (PStr auth :: wildcard) in
  lift (pool_of_response response).

Definition _list_security_groups (server : option string)
    (user password : pyval) : M pool :=
  let* (server, user, password) :=
    lift (or_get_xml_rpc server user password) in
  let* auth := lift (Py.join_colon user password) in
  let* response :=
    rpc server "one.secgrouppool.info" (PStr auth :: wildcard) in
  lift (pool_of_response response).

Definition _list_templates (server : option string) (user password : pyval)
    : M pool :=
  let* (server, user, password) :=
    lift (or_get_xml_rpc server user password) in
  let* auth := lift (Py.join_colon user password) in
  let* response :=
    rpc server "one.templatepool.info" (PStr auth :: wildcard) in
  lift (pool_of_response response).

Definition _list_vms (server : option string) (user password : pyval)
    : M pool :=
  let* (server, user, password) :=
    lift (or_get_xml_rpc server user password) in
  let* auth := lift (Py.join_colon user password) in
  let* response :=
    rpc server "one.vmpool.info" (PStr auth :: wildcard ++ [PInt 3]) in
  lift (pool_of_response response).

Definition _list_vns (server : option string) (user password : pyval)
    : M pool :=
  let* (server, user, password) :=
    lift (or_get_xml_rpc server user password) in
  let* auth := lift (Py.join_colon user password) in
  let* response := rpc server "one.vnpool.info" (PStr auth :: wildcard) in
  lift (pool_of_response response).

(** [[nic.find('IP').text for nic in nics]]. *)
Fixpoint nic_ips (nics : list element) : result (list pyval) :=
  match nics with
  | [] => Ok []
  | nic :: rest =>
      let? ip := Lxml.find_text nic "IP" in
      let? ips := nic_ips rest in
      Ok (ip :: ips)
  end.

(** One round of the loop of [_list_nodes]. *)
Definition _list_nodes_item (full : bool) (vms : pool) (vm : element)
    : result pool :=
  let? name_elem := Lxml.find_elem vm "NAME" in
  let name := text name_elem in
  let? template := Lxml.find_elem vm "TEMPLATE" in
  let? cpu_size := Lxml.find_text template "CPU" in
  let? memory_size := Lxml.find_text template "MEMORY" in
  let? private_ips := nic_ips (Lxml.findall template "NIC") in
  let? id := Lxml.find_text vm "ID" in
  let? image := Lxml.find_text template "TEMPLATE_ID" in
  let? state := Lxml.find_text vm "STATE" in
  let summary : gmap string pyval :=
    <["id" := id]>
    (<["image" := image]>
    (<["name" := Lxml.text_value name_elem]>
    (<["size" := PDict (<["cpu" := cpu_size]>
                        (<["memory" := memory_size]> ∅))]>
    (<["state" := state]>
    (<["private_ips" := PList private_ips]>
    (<["public_ips" := PList []]> ∅)))))) in
  if full
  then Ok (<[name := PDict (_xml_to_dict vm)]> vms)
  else Ok (<[name := PDict summary]> vms).

Fixpoint _list_nodes_loop (full : bool) (items : list element) (vms : pool)
    : result pool :=
  match items with
  | [] => Ok vms
  | vm :: rest =>
      let? vms' := _list_nodes_item full vms vm in
      _list_nodes_loop full rest vms'
  end.

Definition _list_nodes (full : bool) : M pool :=
  let* (server, user, password) := lift _get_xml_rpc in
  let* auth := lift (Py.join_colon user password) in
  let* response :=
    rpc server "one.vmpool.info" (PStr auth :: wildcard ++ [PInt (-1)]) in
  lift (let? vm_pool := Py.getindex response 1 in
        let? root := etree_XML H vm_pool in
        _list_nodes_loop full (children root) ∅).

Definition list_nodes (call : option string) : M pool :=
  if Py.call_is call "action" then
    raise (SaltCloudException
      "The list_nodes function must be called with -f or --function.")
  else _list_nodes false.

Definition list_nodes_full (call : option string) : M pool :=
  if Py.call_is call "action" then
    raise (SaltCloudSystemExit
      "The list_nodes_full function must be called with -f or --function.")
  else _list_nodes true.

(** The loop of [_get_node]:
<<
    while attempts >= 0:
        try:
            return list_nodes_full()[name]
        except KeyError:
            attempts -= 1
            time.sleep(0.5)
    return {}
>> *)
Equations? _get_node_loop (name : pyval) (attempts : Z) : M pyval
    by wf (Z.to_nat (attempts + 1)) lt :=
  _get_node_loop name attempts with decide (attempts >= 0) := {
    | left _ =>
        try_except
          (let* nodes := list_nodes_full None in
           lift (Pool.getitem nodes name))
          (fun exc =>
             match exc with
             | KeyError _ =>
                 Some (sleep (1 # 2) >> _get_node_loop name (attempts - 1))
             | _ => None
             end)
    | right _ => ret (PDict ∅) }.
Proof. lia. Qed.

Definition _get_node (name : pyval) : M pyval :=
  let attempts := 10 in
  _get_node_loop name attempts.

(** The loop of [_get_template], the same with the template lister. *)
Equations? _get_template_loop (name : pyval) (server : option string)
    (user password : pyval) (attempts : Z) : M pyval
    by wf (Z.to_nat (attempts + 1)) lt :=
  _get_template_loop name server user password attempts
    with decide (attempts >= 0) := {
    | left _ =>
        try_except
          (let* templates := _list_templates server user password in
           lift (Pool.getitem templates name))
          (fun exc =>
             match exc with
             | KeyError _ =>
                 Some (sleep (1 # 2) >>
                       _get_template_loop name server user password
                         (attempts - 1))
             | _ => None
             end)
    | right _ => ret (PDict ∅) }.
Proof. lia. Qed.

Definition _get_template (name : pyval) (server : option string)
    (user password : pyval) : M pyval :=
  let attempts := 10 in
  _get_template_loop name server user password attempts.

Definition show_instance (name : pyval) (call : option string) : M pyval :=
  if negb (Py.call_is call "action") then
    raise (SaltCloudSystemExit
      "The show_instance action must be called with -a or --action.")
  else
    let* node := _get_node name in
    emit (CacheNode node) >>
    ret node.

(** The record every mutating operation returns. *)
Definition action_result (action flag_key id_key : string)
    (response : pyval) : result pyval :=
  let? flag := Py.getindex response 0 in
  let? id := Py.getindex response 1 in
  let? error_code := Py.getindex response 2 in
  Ok (PDict (<["action" := PStr action]>
            (<[flag_key := flag]>
            (<[id_key := id]>
            (<["error_code" := error_code]> ∅))))).

Definition destroy (name : pyval) (call : option string) : M pyval :=
  if Py.call_is call "function" then
    raise (SaltCloudSystemExit
      ("The destroy action must be called with -d, --destroy, " +:+
       "-a or --action."))
  else
    fire_event "destroying instance"
      ("salt/cloud/" +:+ str name +:+ "/destroying")
      (PDict {["name" := name]}) >>
    let* (server, user, password) := lift _get_xml_rpc in
    let* auth := lift (Py.join_colon user password) in
    let* data := show_instance name (Some "action") in
    let* id := lift (let? id := Py.getitem data "id" in Py.int id) in
    let* node :=
      rpc server "one.vm.action" [PStr auth; PStr "delete"; PInt id] in
    fire_event "destroyed instance"
      ("salt/cloud/" +:+ str name +:+ "/destroyed")
      (PDict {["name" := name]}) >>
    (match opts H !! "update_cachedir" with
     | Some (PBool true) =>
         emit (DeleteMinionCachedir name
                 (Py.before_colon (active_provider_name H)))
     | _ => ret tt
     end) >>
    lift (action_result "vm.delete" "deleted" "node_id" node).

(** *** Name to identifier *)

Definition kwargs_or_empty (kwargs : option (gmap string pyval))
    : gmap string pyval :=
  default ∅ kwargs.

Definition get_image_id (kwargs : option (gmap string pyval))
    (call : option string) : M pyval :=
  if Py.call_is call "action" then
    raise (SaltCloudSystemExit
      "The get_image_id function must be called with -f or --function.")
  else
    let kwargs := kwargs_or_empty kwargs in
    let name := Py.kwget kwargs "name" in
    match name with
    | PNone =>
        raise (SaltCloudSystemExit
          "The get_image_id function requires a name.")
    | _ =>
        let* images := _list_images None PNone PNone in
        lift (let? image := Pool.getitem images name in
              Py.getitem image "id")
    end.

Definition get_secgroup_id (kwargs : option (gmap string pyval))
    (call : option string) : M pyval :=
  if Py.call_is call "action" then
    raise (SaltCloudSystemExit
      "The get_secgroup_id function must be called with -f or --function.")
  else
    let kwargs := kwargs_or_empty kwargs in
    let name := Py.kwget kwargs "name" in
    let* groups := _list_security_groups None PNone PNone in
    lift (let? group := Pool.getitem groups name in
          Py.getitem group "id").

Definition get_template_id (kwargs : option (gmap string pyval))
    (call : option string) : M pyval :=
  if Py.call_is call "action" then
    raise (SaltCloudSystemExit
      "The list_nodes_full function must be called with -f or --function.")
  else
    let kwargs := kwargs_or_empty kwargs in
    let name := Py.kwget kwargs "name" in
    match name with
    | PNone =>
        raise (SaltCloudSystemExit
          "The get_template_id function requires a name.")
    | _ =>
        let* template := _get_template name None PNone PNone in
        lift (Py.getitem template "id")
    end.

Definition get_vm_id (kwargs : option (gmap string pyval))
    (call : option string) : M pyval :=
  if Py.call_is call "action" then
    raise (SaltCloudSystemExit
      "The get_vm_id function must be called with -f or --function.")
  else
    let kwargs := kwargs_or_empty kwargs in
    let name := Py.kwget kwargs "name" in
    match name with
    | PNone =>
        raise (SaltCloudSystemExit
          "The get_vm_id function requires a name.")
    | _ =>
        let* vms := _list_vms None PNone PNone in
        lift (let? vm := Pool.getitem vms name in
              Py.getitem vm "id")
    end.

Definition get_vn_id (kwargs : option (gmap string pyval))
    (call : option string) : M pyval :=
  if Py.call_is call "action" then
    raise (SaltCloudSystemExit
      "The get_vn_id function must be called with -f or --function.")
  else
    let kwargs := kwargs_or_empty kwargs in
    let name := Py.kwget kwargs "name" in
    match name with
    | PNone =>
        raise (SaltCloudSystemExit
          "The get_vn_id function requires a name.")
    | _ =>
        let* vns := _list_vns None PNone PNone in
        lift (let? vn := Pool.getitem vns name in
              Py.getitem vn "id")
    end.

(** *** Update operations *)

(** [salt.utils.fopen(path, mode='r').read()]. *)
Definition read_file (path : pyval) : M pyval :=
  fun t => (fopen_read H t path, [ReadFile path]).

(** The chain
<<
    if update_type == update_args[0]:
        update_number = 0
    elif update_type == update_args[1]:
        update_number = 1
    else:
        raise SaltCloudSystemExit(...)
>>
    with [update_args = ['replace', 'merge']]. *)
Definition update_number_of (update_type : pyval) : result Z :=
  let update_args := ("replace", "merge") in
  if Py.str_eq update_type update_args.1 then Ok 0
  else if Py.str_eq update_type update_args.2 then Ok 1
  else Raise (SaltCloudSystemExit
    ("The update_type argument must be either " +:+ update_args.1 +:+
     " or " +:+ update_args.2 +:+ ".")).

Definition image_update (call : option string)
    (kwargs : option (gmap string pyval)) : M pyval :=
  if negb (Py.call_is call "function") then
    raise (SaltCloudSystemExit
      "The image_allocate function must be called with -f or --function.")
  else
    let kwargs := kwargs_or_empty kwargs in
    let image_id := Py.kwget kwargs "image_id" in
    let path := Py.kwget kwargs "path" in
    let update_type := Py.kwget kwargs "update_type" in
    if negb (Py.truthy image_id) || negb (Py.truthy path)
       || negb (Py.truthy update_type) then
      raise (SaltCloudSystemExit
        ("The image_update function requires an 'image_id', a file 'path', "
         +:+ "and an 'update_type' to be provided."))
    else
      let* update_number := lift (update_number_of update_type) in
      let* (server, user, password) := lift _get_xml_rpc in
      let* auth := lift (Py.join_colon user password) in
      let* file_data := read_file path in
      let* id := lift (Py.int image_id) in
      let* response :=
        rpc server "one.image.update"
          [PStr auth; PInt id; file_data; PInt update_number] in
      lift (action_result "image.update" "updated" "image_id" response).

Definition secgroup_update (call : option string)
    (kwargs : option (gmap string pyval)) : M pyval :=
  if negb (Py.call_is call "function") then
    raise (SaltCloudSystemExit
      "The secgroup_allocate function must be called with -f or --function.")
  else
    let kwargs := kwargs_or_empty kwargs in
    let secgroup_id := Py.kwget kwargs "secgroup_id" in
    let path := Py.kwget kwargs "path" in
    let update_type := Py.kwget kwargs "update_type" in
    if negb (Py.truthy secgroup_id) || negb (Py.truthy path)
       || negb (Py.truthy update_type) then
      raise (SaltCloudSystemExit
        ("The secgroup_update function requires a 'secgroup_id', a file 'path', "
         +:+ "and an 'update_type' to be provided."))
    else
      let* update_number := lift (update_number_of update_type) in
      let* (server, user, password) := lift _get_xml_rpc in
      let* auth := lift (Py.join_colon user password) in
      let* file_data := read_file path in
      let* id := lift (Py.int secgroup_id) in
      let* response :=
        rpc server "one.secgroup.update"
          [PStr auth; PInt id; file_data; PInt update_number] in
      lift (action_result "secgroup.update" "updated" "secgroup_id" response).

Definition template_update (call : option string)
    (kwargs : option (gmap string pyval)) : M pyval :=
  if negb (Py.call_is call "function") then
    raise (SaltCloudSystemExit
      "The template_update function must be called with -f or --function.")
  else
    let kwargs := kwargs_or_empty kwargs in
    let template_id := Py.kwget kwargs "template_id" in
    let path := Py.kwget kwargs "path" in
    let update_type := Py.kwget kwargs "update_type" in
    if negb (Py.truthy template_id) || negb (Py.truthy path)
       || negb (Py.truthy update_type) then
      raise (SaltCloudSystemExit
        ("The template_update function requires a 'template_id', a file 'path', "
         +:+ "and an 'update_type' to be provided."))
    else
      let* update_number := lift (update_number_of update_type) in
      let* path_data := read_file path in
      let* (server, user, password) := lift _get_xml_rpc in
      let* auth := lift (Py.join_colon user password) in
      let* id := lift (Py.int template_id) in
      let* response :=
        rpc server "one.template.update"
          [PStr auth; PInt id; path_data; PInt update_number] in
      lift (action_result "template.update" "updated" "template_id" response).

(** *** Image and location of a VM *)

(** [vm_image in (record['name'], record['id'])], then [record['id']]. *)
Definition matches (wanted : string) (record : pyval) : result (option pyval) :=
  let? name := Py.getitem record "name" in
  let? id := Py.getitem record "id" in
  if Py.str_eq name wanted || Py.str_eq id wanted then
    let? found := Py.getitem record "id" in Ok (Some found)
  else Ok None.

(** [for key in records: if ...: return records[key]['id']], over the
    records in the order the dictionary yields them. *)
Fixpoint first_match (wanted : string) (records : list (option string * pyval))
    : result (option pyval) :=
  match records with
  | [] => Ok None
  | (_, record) :: rest =>
      let? hit := matches wanted record in
      match hit with
      | Some id => Ok (Some id)
      | None => first_match wanted rest
      end
  end.

Definition get_image (vm_ : gmap string pyval) : M pyval :=
  let* images := avail_images None in
  let vm_image :=
    str (get_cloud_config_value H "image" (PDict vm_) PNone false) in
  let* hit := lift (first_match vm_image (map_to_list images)) in
  match hit with
  | Some id => ret id
  | None =>
      raise (SaltCloudNotFound
        ("The specified image, " +:+ py_repr H (PStr vm_image) +:+
         ", could not be found."))
  end.

Definition get_location (vm_ : gmap string pyval) : M pyval :=
  let* locations := avail_locations None in
  let vm_location :=
    str (get_cloud_config_value H "location" (PDict vm_) PNone false) in
  if String.eqb vm_location "None" then ret PNone
  else
    let* hit := lift (first_match vm_location (map_to_list locations)) in
    match hit with
    | Some id => ret id
    | None =>
        raise (SaltCloudNotFound
          ("The specified location, " +:+ py_repr H (PStr vm_location) +:+
           ", could not be found."))
    end.

(** *** Creating a VM *)

(** The double quote character. *)
Definition dquote : string := String "034"%char EmptyString.

(** Lines 477-479 of [create]: the scheduler requirement. *)
Definition region_of (region_id : pyval) : string :=
  match region_id with
  | PNone => ""
  | _ => "SCHED_REQUIREMENTS=" +:+ dquote +:+ "ID=" +:+ str region_id
         +:+ dquote
  end.

(** The opening of [create]:
<<
    try:
        if config.is_profile_configured(...) is False:
            return False
    except AttributeError:
        pass
>>
    [false] stands for the early [return False]. *)
Definition create_profile_check (vm_ : gmap string pyval) : M bool :=
  try_except
    (let* profile := lift (Py.vmget vm_ "profile") in
     let* configured :=
       lift (is_profile_configured H
               (Py.str_or (active_provider_name H) "opennebula") profile) in
     match configured with
     | PBool false => ret false
     | _ => ret true
     end)
    (fun exc =>
       match exc with
       | AttributeError => Some (ret true)
       | _ => None
       end).

(** [if 'provider' in vm_: vm_['driver'] = vm_.pop('provider')]. *)
Definition alias_provider (vm_ : gmap string pyval) : gmap string pyval :=
  match vm_ !! "provider" with
  | Some provider => <["driver" := provider]> (delete "provider" vm_)
  | None => vm_
  end.

(** [create] from the first event to the instantiate request; [false]
    stands for the [return False] of the [except Exception] clause. *)
Definition create_instantiate (vm_ : gmap string pyval) : M bool :=
  let* name := lift (Py.vmget vm_ "name") in
  let* profile := lift (Py.vmget vm_ "profile") in
  let* driver := lift (Py.vmget vm_ "driver") in
  let* _ := lift (opts_getitem "transport") in
  fire_event "starting create"
    ("salt/cloud/" +:+ str name +:+ "/creating")
    (PDict (<["name" := name]>
           (<["profile" := profile]>
           (<["provider" := driver]> ∅)))) >>
  let* image_id := get_image vm_ in
  let* region_id := get_location vm_ in
  let private_networking :=
    get_cloud_config_value H "private_networking" (PDict vm_) PNone false in
  let kwargs : gmap string pyval :=
    <["private_networking" :=
        PStr (if Py.truthy private_networking then "true" else "false")]>
    (<["name" := name]>
    (<["image_id" := image_id]>
    (<["region_id" := region_id]> ∅))) in
  fire_event "requesting instance"
    ("salt/cloud/" +:+ str name +:+ "/requesting")
    (PDict {["kwargs" := PDict kwargs]}) >>
  let region := region_of region_id in
  try_except
    (let* (server, user, password) := lift _get_xml_rpc in
     let* auth := lift (Py.join_colon user password) in
     let* image := lift (Py.int image_id) in
     rpc server "one.template.instantiate"
       [PStr auth; PInt image; name; PBool false; PStr region] >>
     ret true)
    (fun _ => Some (ret false)).

(** The nested function [__query_node_data] of [create]. *)
Definition __query_node_data (vm_name : pyval) : M pyval :=
  let* node_data := show_instance vm_name (Some "action") in
  if negb (Py.truthy node_data) then ret (PBool false)
  else
    let* state := lift (Py.getitem node_data "state") in
    if Py.str_eq state "7" then ret (PBool false)
    else
      let* lcm_state := lift (Py.getitem node_data "lcm_state") in
      if Py.str_eq lcm_state "3" then ret node_data
      else ret PNone.

(** How [wait_for_ip] calls [__query_node_data]: with [update_args]. *)
Definition update_callback (update_args : list pyval) : M pyval :=
  match update_args with
  | [vm_name] => __query_node_data vm_name
  | _ => raise TypeError
  end.

(** The cleanup of the [except] clause of the poll:
<<
    try:
        destroy(vm_['name'])
    except SaltCloudSystemExit:
        pass
    finally:
        raise SaltCloudSystemExit(str(exc))
>> *)
Definition create_cleanup (vm_ : gmap string pyval) (message : string)
    : M pyval :=
  try_finally
    (try_except
       (let* name := lift (Py.vmget vm_ "name") in
        destroy name None >>
        ret PNone)
       (fun exc =>
          match exc with
          | SaltCloudSystemExit _ => Some (ret PNone)
          | _ => None
          end))
    (raise (SaltCloudSystemExit message)).

(** The readiness poll of [create] with its [except] clause. *)
Definition create_wait_for_ip (vm_ : gmap string pyval) : M pyval :=
  try_except
    (let* name := lift (Py.vmget vm_ "name") in
     let timeout :=
       get_cloud_config_value H "wait_for_ip_timeout" (PDict vm_)
         (PInt (10 * 60)) true in
     let interval :=
       get_cloud_config_value H "wait_for_ip_interval" (PDict vm_)
         (PInt 2) true in
     wait_for_ip H update_callback [name] timeout interval)
    (fun exc =>
       match exc with
       | SaltCloudExecutionTimeout message
       | SaltCloudExecutionFailure message =>
           Some (create_cleanup vm_ message)
       | _ => None
       end).

(** [os.path.isfile(key_filename)]. *)
Definition os_path_isfile (path : pyval) : result bool :=
  match path with
  | PStr s => Ok (isfile H s)
  | _ => Raise TypeError
  end.

(** [data['private_ips'][0]], or on [KeyError]
    [data['template']['nic']['ip']]. *)
Definition private_ip_of (data : pyval) : result pyval :=
  match (let? ips := Py.getitem data "private_ips" in Py.getindex ips 0) with
  | Raise (KeyError _) =>
      let? template := Py.getitem data "template" in
      let? nic := Py.getitem template "nic" in
      Py.getitem nic "ip"
  | r => r
  end.

(** [create] after the poll: the key file check, the bootstrap and the
    returned record. *)
Definition create_bootstrap (vm_ : gmap string pyval) (data : pyval)
    : M pyval :=
  let key_filename :=
    get_cloud_config_value H "private_key" (PDict vm_) PNone false in
  let* missing :=
    match key_filename with
    | PNone => ret false
    | _ => let* found := lift (os_path_isfile key_filename) in
           ret (negb found)
    end in
  if missing then
    raise (SaltCloudConfigError
      ("The defined key_filename " +:+ py_repr H key_filename +:+
       " does not exist"))
  else
    let* private_ip := lift (private_ip_of data) in
    let ssh_username :=
      get_cloud_config_value H "ssh_username" (PDict vm_) (PStr "root")
        true in
    let vm_ := <["ssh_host" := private_ip]>
               (<["key_filename" := key_filename]>
               (<["username" := ssh_username]> vm_)) in
    let* ret0 := fun t => (bootstrap H t vm_, [Bootstrap vm_]) in
    let* ret1 := lift (let? id := Py.getitem data "id" in
                       Py.setitem ret0 "id" id) in
    let* ret2 := lift (let? image := Py.vmget vm_ "image" in
                       Py.setitem ret1 "image" image) in
    let* ret3 := lift (let? name := Py.vmget vm_ "name" in
                       Py.setitem ret2 "name" name) in
    let* ret4 := lift (let? template := Py.getitem data "template" in
                       let? memory := Py.getitem template "memory" in
                       Py.setitem ret3 "size" memory) in
    let* ret5 := lift (let? state := Py.getitem data "state" in
                       Py.setitem ret4 "state" state) in
    let* ret6 := lift (Py.setitem ret5 "private_ips" private_ip) in
    let* ret7 := lift (Py.setitem ret6 "public_ips" (PList [])) in
    let* name := lift (Py.vmget vm_ "name") in
    let* profile := lift (Py.vmget vm_ "profile") in
    let* driver := lift (Py.vmget vm_ "driver") in
    fire_event "created instance"
      ("salt/cloud/" +:+ str name +:+ "/created")
      (PDict (<["name" := name]>
             (<["profile" := profile]>
             (<["provider" := driver]> ∅)))) >>
    ret ret7.

Definition create (vm_ : gmap string pyval) : M pyval :=
  let* configured := create_profile_check vm_ in
  if negb configured then ret (PBool false)
  else
    let vm_ := alias_provider vm_ in
    let* requested := create_instantiate vm_ in
    if negb requested then ret (PBool false)
    else
      let* data := create_wait_for_ip vm_ in
      create_bootstrap vm_ data.

End Driver.

(** ** Vocabulary of the properties *)

(** The pool document of a response holds no element. *)
Definition empty_pool_response (H : host) (response : pyval) : Prop :=
  ∃ document root,
    Py.getindex response 1 = Ok document
    ∧ etree_XML H document = Ok root
    ∧ children root = [].

(** After the events [t], the server answers the request with a pool that
    holds no element. *)
Definition answers_empty_pool (H : host) (t : list event)
    (server method : string) (args : list pyval) : Prop :=
  ∃ response,
    xmlrpc H t server method args = Ok response
    ∧ empty_pool_response H response.

(** The provider is configured: the connection and the credential string
    every request starts with. *)
Definition connected (H : host) (server auth : string) : Prop :=
  ∃ user password,
    _get_xml_rpc H = Ok (server, user, password)
    ∧ Py.join_colon user password = Ok auth.

Definition is_rpc (method : string) (ev : event) : bool :=
  match ev with
  | Rpc _ m _ => String.eqb m method
  | _ => false
  end.

Definition is_sleep (ev : event) : bool :=
  match ev with
  | Sleep _ => true
  | _ => false
  end.

(** How many requests for [method] a run has sent. *)
Definition count_rpc (method : string) (evs : list event) : nat :=
  length (List.filter (is_rpc method) evs).

Definition count_sleep (evs : list event) : nat :=
  length (List.filter is_sleep evs).

(** An update operation checks its update mode: any value but the two
    literals is refused before anything is done, and a request that is sent
    carries 0 for [replace] and 1 for [merge]. *)
Definition checks_update_type (H : host)
    (update : host → option string → option (gmap string pyval) → M pyval)
    : Prop :=
  ∀ call kwargs t,
    let update_type := Py.kwget (kwargs_or_empty kwargs) "update_type" in
    (update_type ≠ PStr "replace" →
     update_type ≠ PStr "merge" →
     ∃ msg, update H call kwargs t = (Raise (SaltCloudSystemExit msg), []))
    ∧ (∀ server method args,
         Rpc server method args ∈ (update H call kwargs t).2 →
         ∃ auth id data,
           (update_type = PStr "replace" ∧ args = [auth; id; data; PInt 0])
           ∨ (update_type = PStr "merge" ∧ args = [auth; id; data; PInt 1])).

(** An update operation maps its update mode: called in the [function] call
    context with an identifier under [id_key] that reads as the integer
    [n], a readable file and the provider configured, it reads the file and
    sends exactly one request, [method], which carries the credentials,
    [n], the content of the file and the integer 0 for the mode [replace],
    1 for the mode [merge]. *)
Definition maps_update_type (H : host) (method id_key : string)
    (update : host → option string → option (gmap string pyval) → M pyval)
    : Prop :=
  ∀ (kwargs : gmap string pyval) (t : list event) (server auth : string)
    (id path data : pyval) (n : Z) (update_type : string) (number : Z),
    connected H server auth →
    kwargs !! id_key = Some id →
    Py.truthy id = true →
    Py.int id = Ok n →
    kwargs !! "path" = Some path →
    Py.truthy path = true →
    fopen_read H t path = Ok data →
    kwargs !! "update_type" = Some (PStr update_type) →
    (update_type = "replace" ∧ number = 0)
    ∨ (update_type = "merge" ∧ number = 1) →
    (update H (Some "function") (Some kwargs) t).2
    = [ReadFile path;
       Rpc server method [PStr auth; PInt n; data; PInt number]].


(** One attempt of [_get_node]: [list_nodes_full()[name]]. *)
Definition node_attempt (H : host) (name : pyval) : M pyval :=
  let* nodes := list_nodes_full H None in
  lift (Pool.getitem nodes name).

(** The name is absent from the VM pool on every attempt. *)
Definition always_absent (H : host) (name : pyval) : Prop :=
  ∀ t, ∃ nodes evs,
    list_nodes_full H None t = (Ok nodes, evs)
    ∧ Pool.getitem nodes name = Raise (KeyError name).

(** The events [destroy] adds after its request when the host keeps a
    cache directory per node. *)
Definition cachedir_events (H : host) (name : pyval) : list event :=
  match opts H !! "update_cachedir" with
  | Some (PBool true) =>
      [DeleteMinionCachedir name (Py.before_colon (active_provider_name H))]
  | _ => []
  end.

(** The record [destroy] returns for the provider's answer. *)
Definition destroy_result (flag node_id error_code : pyval) : pyval :=
  PDict (<["action" := PStr "vm.delete"]>
        (<["deleted" := flag]>
        (<["node_id" := node_id]>
        (<["error_code" := error_code]> ∅)))).

(** The first event of [create]. *)
Definition starting_create (H : host) (name profile driver : pyval) : event :=
  FireEvent "starting create"
    ("salt/cloud/" +:+ str H name +:+ "/creating")
    (PDict (<["name" := name]>
           (<["profile" := profile]>
           (<["provider" := driver]> ∅)))).

(** The event [create] fires before it sends the instantiate request. *)
Definition requesting_instance (H : host) (vm_ : gmap string pyval)
    (name image_id region_id : pyval) : event :=
  FireEvent "requesting instance"
    ("salt/cloud/" +:+ str H name +:+ "/requesting")
    (PDict {["kwargs" :=
      PDict (<["private_networking" :=
                PStr (if Py.truthy
                           (get_cloud_config_value H "private_networking"
                              (PDict vm_) PNone false)
                      then "true" else "false")]>
            (<["name" := name]>
            (<["image_id" := image_id]>
            (<["region_id" := region_id]> ∅))))]}).

(** The first event of [destroy]. *)
Definition destroying_instance (H : host) (name : pyval) : event :=
  FireEvent "destroying instance"
    ("salt/cloud/" +:+ str H name +:+ "/destroying")
    (PDict {["name" := name]}).

(** The timeout and the interval [create] polls with. *)
Definition poll_timeout (H : host) (vm_ : gmap string pyval) : pyval :=
  get_cloud_config_value H "wait_for_ip_timeout" (PDict vm_)
    (PInt (10 * 60)) true.

Definition poll_interval (H : host) (vm_ : gmap string pyval) : pyval :=
  get_cloud_config_value H "wait_for_ip_interval" (PDict vm_) (PInt 2) true.

Definition is_bootstrap (ev : event) : bool :=
  match ev with
  | Bootstrap _ => true
  | _ => false
  end.

(** Every event a computation adds satisfies [P], whatever came before. *)
Definition emits_only {A} (P : event → Prop) (c : M A) : Prop :=
  ∀ t, Forall P (c t).2.

(** ** Sample inputs *)

Module Samples.

(** A template with three network interfaces. *)
Definition three_nics : element :=
  Element "TEMPLATE" None
    [Element "NIC" None [Element "IP" (Some "10.0.0.1") []];
     Element "NIC" None [Element "IP" (Some "10.0.0.2") []];
     Element "NIC" None [Element "IP" (Some "10.0.0.3") []]].

(** [repr] of a string without quotes or escapes in it; other values are
    not printed by the runs below. *)
Definition repr (v : pyval) : string :=
  match v with
  | PStr s => "'" +:+ s +:+ "'"
  | _ => "<object>"
  end.

(** Configuration lookup in [vm_] alone. *)
Definition config_value (name : string) (vm_ fallback : pyval)
    (search_global : bool) : pyval :=
  match vm_ with
  | PDict d => default fallback (d !! name)
  | _ => fallback
  end.

Definition provider : pyval :=
  PDict (<["xml_rpc" := PStr "http://localhost:2633/RPC2"]>
        (<["user" := PStr "oneadmin"]>
        (<["password" := PStr "secret"]> ∅))).

Definition server_proxy (uri : pyval) : result string :=
  match uri with
  | PStr s => Ok s
  | _ => Raise TypeError
  end.

(** A poll that asks once: [False] is a failure, [None] a timeout. *)
Definition poll_once (update_callback : list pyval → M pyval)
    (update_args : list pyval) (timeout interval : pyval) : M pyval :=
  let* data := update_callback update_args in
  match data with
  | PBool false =>
      raise (SaltCloudExecutionFailure
        "Too many failures occurred while waiting for the IP address.")
  | PNone => raise (SaltCloudExecutionTimeout "Unable to get IP for 00:10:00.")
  | _ => ret data
  end.

(** A cloud whose pools hold no element. *)
Definition empty_cloud : host := {|
  active_provider_name := "my-opennebula-config:opennebula";
  opts := {["transport" := PStr "zeromq"]};
  py_repr := repr;
  is_provider_configured := λ _, provider;
  is_profile_configured := λ _ _, Ok (PBool true);
  get_cloud_config_value := config_value;
  ServerProxy := server_proxy;
  xmlrpc := λ _ _ _ _, Ok (PList [PBool true; PStr "<POOL/>"; PInt 0]);
  etree_XML := λ _, Ok (Element "POOL" None []);
  fopen_read := λ _ _, Ok (PStr "NAME = updated");
  isfile := λ _, false;
  wait_for_ip := poll_once;
  bootstrap := λ _ _, Ok (PDict ∅)
|}.

Definition leaf (tag text : string) : element := Element tag (Some text) [].

Definition image_pool : element :=
  Element "IMAGE_POOL" None
    [Element "IMAGE" None [leaf "ID" "7"; leaf "NAME" "ubuntu"]].

Definition host_pool : element :=
  Element "HOST_POOL" None
    [Element "HOST" None [leaf "ID" "3"; leaf "NAME" "node1"]].

(** The pool with the one VM [web1], in the given states. *)
Definition vm_pool (state lcm_state : string) : element :=
  Element "VM_POOL" None
    [Element "VM" None
       [leaf "ID" "42"; leaf "NAME" "web1"; leaf "STATE" state;
        leaf "LCM_STATE" lcm_state;
        Element "TEMPLATE" None
          [leaf "CPU" "1"; leaf "MEMORY" "512"; leaf "TEMPLATE_ID" "7";
           Element "NIC" None [leaf "IP" "10.0.0.5"]]]].

(** The server answers a pool request with the name of the pool document,
    and any other request with success for the VM 42. *)
Definition answer (t : list event) (server method : string)
    (args : list pyval) : result pyval :=
  if String.eqb method "one.imagepool.info" then
    Ok (PList [PBool true; PStr "images"; PInt 0])
  else if String.eqb method "one.hostpool.info" then
    Ok (PList [PBool true; PStr "hosts"; PInt 0])
  else if String.eqb method "one.vmpool.info" then
    Ok (PList [PBool true; PStr "vms"; PInt 0])
  else Ok (PList [PBool true; PInt 42; PInt 0]).

Definition parse (state lcm_state : string) (document : pyval)
    : result element :=
  match document with
  | PStr "images" => Ok image_pool
  | PStr "hosts" => Ok host_pool
  | PStr "vms" => Ok (vm_pool state lcm_state)
  | _ => Raise (OtherError "XMLSyntaxError")
  end.

(** A cloud with one image, one host and the VM [web1] in the given
    states; no key file exists. *)
Definition cloud (state lcm_state : string) : host := {|
  active_provider_name := "my-opennebula-config:opennebula";
  opts := <["transport" := PStr "zeromq"]>
          (<["update_cachedir" := PBool true]> ∅);
  py_repr := repr;
  is_provider_configured := λ _, provider;
  is_profile_configured := λ _ _, Ok (PBool true);
  get_cloud_config_value := config_value;
  ServerProxy := server_proxy;
  xmlrpc := answer;
  etree_XML := parse state lcm_state;
  fopen_read := λ _ _, Ok (PStr "NAME = updated");
  isfile := λ _, false;
  wait_for_ip := poll_once;
  bootstrap := λ _ _, Ok (PDict ∅)
|}.

(** The VM specification [create] is given. *)
Definition web1 : gmap string pyval :=
  <["name" := PStr "web1"]>
  (<["profile" := PStr "one-small"]>
  (<["provider" := PStr "my-opennebula-config:opennebula"]>
  (<["image" := PStr "ubuntu"]>
  (<["location" := PStr "node1"]> ∅)))).

(** The same VM with a key file configured. *)
Definition web1_with_key : gmap string pyval :=
  <["private_key" := PStr "/etc/salt/pki/cloud/id_rsa"]> web1.

Definition endpoint : string := "http://localhost:2633/RPC2".

Definition credentials : string := "oneadmin:secret".

(** Keyword arguments of an update with a given update mode. *)
Definition update_kwargs (update_type : pyval) : gmap string pyval :=
  <["image_id" := PStr "0"]>
  (<["path" := PStr "/srv/image_update_file.txt"]>
  (<["update_type" := update_type]> ∅)).

End Samples.

(** ** The other operations of the driver *)

(** [a == b]: [None] equals only itself, a boolean equals the integer it
    counts as, strings and integers compare by value, lists element by
    element, and dictionaries by their keys and the values under them. *)
Fixpoint py_eq (a b : pyval) : bool :=
  match a, b with
  | PNone, PNone => true
  | PBool x, PBool y => Bool.eqb x y
  | PBool x, PInt z | PInt z, PBool x => z =? (if x then 1 else 0)
  | PInt x, PInt y => x =? y
  | PStr s, PStr s' => String.eqb s s'
  | PList l, PList l' =>
      (fix elements (l l' : list pyval) : bool :=
         match l, l' with
         | [], [] => true
         | x :: rest, y :: rest' => py_eq x y && elements rest rest'
         | _, _ => false
         end) l l'
  | PDict d, PDict d' =>
      (size d =? size d')%nat
      && map_fold (λ k v acc,
           acc && match d' !! k with
                  | Some v' => py_eq v v'
                  | None => false
                  end) true d
  | _, _ => false
  end.

Section Dispatchers.

Variable H : host.

(** [salt.utils.is_true], the host's reading of a flag. *)
Variable is_true : pyval → bool.

(** [kwargs={'name': name}], as the operations pass it on. *)
Definition name_kwargs (name : pyval) : option (gmap string pyval) :=
  Some {["name" := name]}.

(** The record of a clone or an instantiation, which also carries the name
    it was given. *)
Definition named_result (action flag_key id_key name_key : string)
    (name response : pyval) : result pyval :=
  let? flag := Py.getindex response 0 in
  let? id := Py.getindex response 1 in
  let? error_code := Py.getindex response 2 in
  Ok (PDict (<["action" := PStr action]>
            (<[flag_key := flag]>
            (<[id_key := id]>
            (<[name_key := name]>
            (<["error_code" := error_code]> ∅)))))).

(** [info[tree.find('NAME').text] = _xml_to_dict(tree)] for the parsed
    document. *)
Definition info_of (document : pyval) : result pool :=
  let? tree := etree_XML H document in
  let? name := Lxml.find_elem tree "NAME" in
  Ok {[text name := PDict (_xml_to_dict tree)]}.

(** [avail_sizes]: sizes are part of the templates. *)
Definition avail_sizes : gmap string pyval := ∅.

(** *** Images *)

Definition image_allocate (call : option string)
    (kwargs : option (gmap string pyval)) : M pyval :=
  if negb (Py.call_is call "function") then
    raise (SaltCloudSystemExit
      "The image_allocate function must be called with -f or --function.")
  else
    let kwargs := kwargs_or_empty kwargs in
    let path := Py.kwget kwargs "path" in
    let datastore_id := Py.kwget kwargs "datastore_id" in
    if negb (Py.truthy path) || negb (Py.truthy datastore_id) then
      raise (SaltCloudSystemExit
        ("The image_allocate function requires a file 'path' and a " +:+
         "'datastore_id' to be provided."))
    else
      let* file_data := read_file H path in
      let* (server, user, password) := lift (_get_xml_rpc H) in
      let* auth := lift (Py.join_colon user password) in
      let* id := lift (Py.int datastore_id) in
      let* response :=
        rpc H server "one.image.allocate" [PStr auth; file_data; PInt id] in
      lift (action_result "image.allocate" "allocated" "image_id" response).

Definition image_clone (call : option string)
    (kwargs : option (gmap string pyval)) : M pyval :=
  if negb (Py.call_is call "function") then
    raise (SaltCloudSystemExit
      "The image_clone function must be called with -f or --function.")
  else
    let kwargs := kwargs_or_empty kwargs in
    let name := Py.kwget kwargs "name" in
    let image_id := Py.kwget kwargs "image_id" in
    if negb (Py.truthy name) || negb (Py.truthy image_id) then
      raise (SaltCloudSystemExit
        ("The image_clone function requires a name and an image_id " +:+
         "to be provided."))
    else
      let* (server, user, password) := lift (_get_xml_rpc H) in
      let* auth := lift (Py.join_colon user password) in
      let* id := lift (Py.int image_id) in
      let* response :=
        rpc H server "one.image.clone" [PStr auth; PInt id; name] in
      lift (named_result "image.clone" "cloned" "cloned_image_id"
              "cloned_image_name" name response).

Definition image_delete (call : option string)
    (kwargs : option (gmap string pyval)) : M pyval :=
  if negb (Py.call_is call "function") then
    raise (SaltCloudSystemExit
      "The image_delete function must be called with -f or --function.")
  else
    let kwargs := kwargs_or_empty kwargs in
    let name := Py.kwget kwargs "name" in
    let image_id := Py.kwget kwargs "image_id" in
    if negb (Py.truthy name) && negb (Py.truthy image_id) then
      raise (SaltCloudSystemExit
        ("The image_delete function requires a name or an image_id " +:+
         "to be provided."))
    else
      let* (server, user, password) := lift (_get_xml_rpc H) in
      let* auth := lift (Py.join_colon user password) in
      let* image_id :=
        if Py.truthy name && negb (Py.truthy image_id)
        then get_image_id H (name_kwargs name) None
        else ret image_id in
      let* id := lift (Py.int image_id) in
      let* response := rpc H server "one.image.delete" [PStr auth; PInt id] in
      lift (action_result "image.delete" "deleted" "image_id" response).

Definition image_info (call : option string)
    (kwargs : option (gmap string pyval)) : M pool :=
  if negb (Py.call_is call "function") then
    raise (SaltCloudSystemExit
      "The image_info function must be called with -f or --function.")
  else
    let kwargs := kwargs_or_empty kwargs in
    let name := Py.kwget kwargs "name" in
    let image_id := Py.kwget kwargs "image_id" in
    if negb (Py.truthy name) && negb (Py.truthy image_id) then
      raise (SaltCloudSystemExit
        ("The image_info function requires either a name or an image_id " +:+
         "to be provided."))
    else
      let* (server, user, password) := lift (_get_xml_rpc H) in
      let* auth := lift (Py.join_colon user password) in
      let* image_id :=
        if Py.truthy name && negb (Py.truthy image_id)
        then get_image_id H (name_kwargs name) None
        else ret image_id in
      let* id := lift (Py.int image_id) in
      let* answer := rpc H server "one.image.info" [PStr auth; PInt id] in
      lift (let? response := Py.getindex answer 1 in info_of response).

Definition image_persistent (call : option string)
    (kwargs : option (gmap string pyval)) : M pyval :=
  if negb (Py.call_is call "function") then
    raise (SaltCloudSystemExit
      "The image_persistent function must be called with -f or --function.")
  else
    let kwargs := kwargs_or_empty kwargs in
    let name := Py.kwget kwargs "name" in
    let persist := Py.kwget kwargs "persist" in
    let image_id := Py.kwget kwargs "image_id" in
    if negb (Py.truthy name) && negb (Py.truthy image_id) then
      raise (SaltCloudSystemExit
        ("The image_persistent function requires either a name or an image_id "
         +:+ "to be provided."))
    else if negb (Py.truthy persist) then
      raise (SaltCloudSystemExit
        ("The image_persistent function requires 'persist' to be set to 'True' "
         +:+ "or 'False'."))
    else
      let* (server, user, password) := lift (_get_xml_rpc H) in
      let* auth := lift (Py.join_colon user password) in
      let* image_id :=
        if Py.truthy name && negb (Py.truthy image_id)
        then get_image_id H (name_kwargs name) None
        else ret image_id in
      let* id := lift (Py.int image_id) in
      let* response :=
        rpc H server "one.image.persistent"
          [PStr auth; PInt id; PBool (is_true persist)] in
      lift (action_result "image.persistent" "response" "image_id" response).

(** *** Security groups *)

Definition secgroup_allocate (call : option string)
    (kwargs : option (gmap string pyval)) : M pyval :=
  if negb (Py.call_is call "function") then
    raise (SaltCloudSystemExit
      "The secgroup_allocate function must be called with -f or --function.")
  else
    let kwargs := kwargs_or_empty kwargs in
    let path := Py.kwget kwargs "path" in
    if negb (Py.truthy path) then
      raise (SaltCloudSystemExit
        "The secgroup_allocate function requires a file path to be provided.")
    else
      let* data := read_file H path in
      let* (server, user, password) := lift (_get_xml_rpc H) in
      let* auth := lift (Py.join_colon user password) in
      let* response := rpc H server "one.secgroup.allocate" [PStr auth; data] in
      lift (action_result "secgroup.allocate" "allocated" "secgroup_id"
              response).

Definition secgroup_clone (call : option string)
    (kwargs : option (gmap string pyval)) : M pyval :=
  if Py.call_is call "action" then
    raise (SaltCloudSystemExit
      "The secgroup_clone function must be called with -f or --function.")
  else
    let kwargs := kwargs_or_empty kwargs in
    let name := Py.kwget kwargs "name" in
    let secgroup_id := Py.kwget kwargs "secgroup_id" in
    if negb (Py.truthy name) || negb (Py.truthy secgroup_id) then
      raise (SaltCloudSystemExit
        ("The secgroup_clone function requires a name and a secgroup_id " +:+
         "to be provided."))
    else
      let* (server, user, password) := lift (_get_xml_rpc H) in
      let* auth := lift (Py.join_colon user password) in
      let* id := lift (Py.int secgroup_id) in
      let* response :=
        rpc H server "one.secgroup.clone" [PStr auth; PInt id; name] in
      lift (named_result "secgroup.clone" "cloned" "cloned_secgroup_id"
              "cloned_secgroup_name" name response).

Definition secgroup_delete (call : option string)
    (kwargs : option (gmap string pyval)) : M pyval :=
  if Py.call_is call "action" then
    raise (SaltCloudSystemExit
      "The secgroup_delete function must be called with -f or --function.")
  else
    let kwargs := kwargs_or_empty kwargs in
    let name := Py.kwget kwargs "name" in
    let secgroup_id := Py.kwget kwargs "secgroup_id" in
    if negb (Py.truthy name) && negb (Py.truthy secgroup_id) then
      raise (SaltCloudSystemExit
        ("The secgroup_delete function requires either a name or a secgroup_id "
         +:+ "to be provided."))
    else
      let* (server, user, password) := lift (_get_xml_rpc H) in
      let* auth := lift (Py.join_colon user password) in
      let* secgroup_id :=
        if Py.truthy name && negb (Py.truthy secgroup_id)
        then get_secgroup_id H (name_kwargs name) None
        else ret secgroup_id in
      let* id := lift (Py.int secgroup_id) in
      let* response :=
        rpc H server "one.secgroup.delete" [PStr auth; PInt id] in
      lift (action_result "secgroup.delete" "deleted" "secgroup_id" response).

Definition secgroup_info (call : option string)
    (kwargs : option (gmap string pyval)) : M pool :=
  if Py.call_is call "action" then
    raise (SaltCloudSystemExit
      "The secgroup_info function must be called with -f or --function.")
  else
    let kwargs := kwargs_or_empty kwargs in
    let name := Py.kwget kwargs "name" in
    let secgroup_id := Py.kwget kwargs "secgroup_id" in
    if negb (Py.truthy name) && negb (Py.truthy secgroup_id) then
      raise (SaltCloudSystemExit
        ("The secgroup_info function requires either a name or a secgroup_id "
         +:+ "to be provided."))
    else
      let* (server, user, password) := lift (_get_xml_rpc H) in
      let* auth := lift (Py.join_colon user password) in
      let* secgroup_id :=
        if Py.truthy name && negb (Py.truthy secgroup_id)
        then get_secgroup_id H (name_kwargs name) None
        else ret secgroup_id in
      let* id := lift (Py.int secgroup_id) in
      let* answer := rpc H server "one.secgroup.info" [PStr auth; PInt id] in
      lift (let? response := Py.getindex answer 1 in info_of response).

(** *** Templates *)

Definition template_allocate (call : option string)
    (kwargs : option (gmap string pyval)) : M pyval :=
  if negb (Py.call_is call "function") then
    raise (SaltCloudSystemExit
      "The template_allocate function must be called with -f or --function.")
  else
    let kwargs := kwargs_or_empty kwargs in
    let path := Py.kwget kwargs "path" in
    if negb (Py.truthy path) then
      raise (SaltCloudSystemExit
        "The template_allocate function requires a file path to be provided.")
    else
      let* path_data := read_file H path in
      let* (server, user, password) := lift (_get_xml_rpc H) in
      let* auth := lift (Py.join_colon user password) in
      let* response :=
        rpc H server "one.template.allocate" [PStr auth; path_data] in
      lift (action_result "template.allocate" "allocated" "template_id"
              response).

Definition template_clone (call : option string)
    (kwargs : option (gmap string pyval)) : M pyval :=
  if Py.call_is call "action" then
    raise (SaltCloudSystemExit
      "The template_clone function must be called with -f or --function.")
  else
    let kwargs := kwargs_or_empty kwargs in
    let name := Py.kwget kwargs "name" in
    let template_id := Py.kwget kwargs "template_id" in
    if negb (Py.truthy name) || negb (Py.truthy template_id) then
      raise (SaltCloudSystemExit
        ("The template_clone function requires a name and a template_id " +:+
         "to be provided."))
    else
      let* (server, user, password) := lift (_get_xml_rpc H) in
      let* auth := lift (Py.join_colon user password) in
      let* id := lift (Py.int template_id) in
      let* response :=
        rpc H server "one.template.clone" [PStr auth; PInt id; name] in
      lift (named_result "template.clone" "cloned" "cloned_template_id"
              "cloned_template_name" name response).

(** [_check_name_id_collisions]: the identifier the name resolves to must
    be the identifier given. *)
Definition _check_name_id_collisions (name id_ : pyval)
    (server : option string) (user password : pyval) : M unit :=
  let* template := _get_template H name server user password in
  let* name_id := lift (Py.getitem template "id") in
  if negb (py_eq name_id id_) then
    raise (SaltCloudException
      ("A name and an ID were provided, but the provided id, '" +:+
       str H id_ +:+ "', does not match the ID found for the provided " +:+
       "name: '" +:+ str H name +:+ "': '" +:+ str H name_id +:+
       "'. Nothing was done."))
  else ret tt.

Definition template_delete (call : option string)
    (kwargs : option (gmap string pyval)) : M pyval :=
  if Py.call_is call "action" then
    raise (SaltCloudSystemExit
      "The template_delete function must be called with -f or --function.")
  else
    let kwargs := kwargs_or_empty kwargs in
    let name := Py.kwget kwargs "name" in
    let template_id := Py.kwget kwargs "template_id" in
    if negb (Py.truthy name) && negb (Py.truthy template_id) then
      raise (SaltCloudSystemExit
        ("The template_delete function requires either a name or a " +:+
         "template_id to be provided."))
    else
      let* (server, user, password) := lift (_get_xml_rpc H) in
      let* auth := lift (Py.join_colon user password) in
      (if Py.truthy template_id && Py.truthy name
       then _check_name_id_collisions name template_id (Some server) user
              password
       else ret tt) >>
      let* template_id :=
        if Py.truthy name && negb (Py.truthy template_id)
        then get_template_id H (name_kwargs name) None
        else ret template_id in
      let* id := lift (Py.int template_id) in
      let* response :=
        rpc H server "one.template.delete" [PStr auth; PInt id] in
      lift (action_result "template.delete" "deleted" "template_id"
              response).

Definition template_instantiate (call : option string)
    (kwargs : option (gmap string pyval)) : M pyval :=
  if Py.call_is call "action" then
    raise (SaltCloudSystemExit
      ("The template_instantiate function must be called with -f or " +:+
       "--function."))
  else
    let kwargs := kwargs_or_empty kwargs in
    let vm_name := Py.kwget kwargs "vm_name" in
    let template_id := Py.kwget kwargs "template_id" in
    if negb (Py.truthy vm_name) || negb (Py.truthy template_id) then
      raise (SaltCloudSystemExit
        ("The template_instantiate function requires a vm_name and a " +:+
         "template_id to be provided."))
    else
      let* (server, user, password) := lift (_get_xml_rpc H) in
      let* auth := lift (Py.join_colon user password) in
      let* id := lift (Py.int template_id) in
      let* response :=
        rpc H server "one.template.instantiate" [PStr auth; PInt id; vm_name] in
      lift (named_result "template.instantiate" "instantiated"
              "instantiated_vm_id" "vm_name" vm_name response).

(** *** Virtual machines *)

(** What [vm_info] and [vn_info] return: the provider's error text when its
    flag is [False], the flattened record otherwise. *)
Inductive info_result :=
| InfoError (message : pyval)
| Info (info : pool).

(** The end of [vm_info] and [vn_info]:
<<
    if response[0] is False:
        return response[1]
    else:
        info = {}
        tree = etree.XML(response[1])
        info[tree.find('NAME').text] = _xml_to_dict(tree)
        return info
>> *)
Definition info_or_error (response : pyval) : result info_result :=
  let? flag := Py.getindex response 0 in
  match flag with
  | PBool false =>
      let? message := Py.getindex response 1 in Ok (InfoError message)
  | _ =>
      let? document := Py.getindex response 1 in
      let? info := info_of document in
      Ok (Info info)
  end.

(** ['vm.action.' + action]. *)
Definition action_label (action : pyval) : result string :=
  match action with
  | PStr a => Ok ("vm.action." +:+ a)
  | _ => Raise TypeError
  end.

Definition vm_action (name action : pyval) (call : option string)
    : M pyval :=
  if negb (Py.call_is call "action") then
    raise (SaltCloudSystemExit
      "The vm_info action must be called with -a or --action.")
  else
    let* (server, user, password) := lift (_get_xml_rpc H) in
    let* auth := lift (Py.join_colon user password) in
    let* id := get_vm_id H (name_kwargs name) None in
    let* vm_id := lift (Py.int id) in
    let* response :=
      rpc H server "one.vm.action" [PStr auth; action; PInt vm_id] in
    lift (let? label := action_label action in
          action_result label "actioned" "vm_id" response).

Definition vm_allocate (call : option string)
    (kwargs : option (gmap string pyval)) : M pyval :=
  if negb (Py.call_is call "function") then
    raise (SaltCloudSystemExit
      "The vm_allocate function must be called with -f or --function.")
  else
    let kwargs := kwargs_or_empty kwargs in
    let path := Py.kwget kwargs "path" in
    let hold := Py.kwget kwargs "hold" in
    if negb (Py.truthy path) then
      raise (SaltCloudSystemExit
        "The vm_allocate function requires a file 'path' to be provided.")
    else
      let* file_data := read_file H path in
      let* (server, user, password) := lift (_get_xml_rpc H) in
      let* auth := lift (Py.join_colon user password) in
      let* response :=
        rpc H server "one.vm.allocate"
          [PStr auth; file_data; PBool (is_true hold)] in
      lift (action_result "vm.allocate" "allocated" "vm_id" response).

Definition vm_info (name : pyval) (call : option string) : M info_result :=
  if negb (Py.call_is call "action") then
    raise (SaltCloudSystemExit
      "The vm_info action must be called with -a or --action.")
  else
    let* (server, user, password) := lift (_get_xml_rpc H) in
    let* auth := lift (Py.join_colon user password) in
    let* id := get_vm_id H (name_kwargs name) None in
    let* vm_id := lift (Py.int id) in
    let* response := rpc H server "one.vm.info" [PStr auth; PInt vm_id] in
    lift (info_or_error response).

(** The loop of [vm_monitoring]:
<<
    for vm_ in etree.XML(response[1]):
        info[vm_.find('ID').text] = _xml_to_dict(vm_)
>> *)
Fixpoint collect_by_id (items : list element) (acc : pool) : result pool :=
  match items with
  | [] => Ok acc
  | item :: rest =>
      let? id := Lxml.find_elem item "ID" in
      collect_by_id rest (<[text id := PDict (_xml_to_dict item)]> acc)
  end.

Definition vm_monitoring (name : pyval) (call : option string) : M pool :=
  if negb (Py.call_is call "action") then
    raise (SaltCloudSystemExit
      "The vm_monitoring action must be called with -a or --action.")
  else
    let* (server, user, password) := lift (_get_xml_rpc H) in
    let* auth := lift (Py.join_colon user password) in
    let* id := get_vm_id H (name_kwargs name) None in
    let* vm_id := lift (Py.int id) in
    let* response :=
      rpc H server "one.vm.monitoring" [PStr auth; PInt vm_id] in
    lift (let? flag := Py.getindex response 0 in
          match flag with
          | PBool false => Ok ∅
          | _ =>
              let? document := Py.getindex response 1 in
              let? root := etree_XML H document in
              collect_by_id (children root) ∅
          end).

(** *** Virtual networks *)

Definition vn_add_ar (call : option string)
    (kwargs : option (gmap string pyval)) : M pyval :=
  if negb (Py.call_is call "function") then
    raise (SaltCloudSystemExit
      "The vn_add_ar function must be called with -f or --function.")
  else
    let kwargs := kwargs_or_empty kwargs in
    let vn_id := Py.kwget kwargs "vn_id" in
    let path := Py.kwget kwargs "path" in
    if negb (Py.truthy vn_id) && negb (Py.truthy path) then
      raise (SaltCloudSystemExit
        ("The vn_add_ar function requires a 'vn_id' and a file 'path' to " +:+
         "be provided."))
    else
      let* file_data := read_file H path in
      let* (server, user, password) := lift (_get_xml_rpc H) in
      let* auth := lift (Py.join_colon user password) in
      let* id := lift (Py.int vn_id) in
      let* response :=
        rpc H server "one.vn.add_ar" [PStr auth; PInt id; file_data] in
      lift (action_result "vn.add_ar" "address_range_added" "resource_id"
              response).

Definition vn_allocate (call : option string)
    (kwargs : option (gmap string pyval)) : M pyval :=
  if negb (Py.call_is call "function") then
    raise (SaltCloudSystemExit
      "The secgroup_allocate function must be called with -f or --function.")
  else
    let kwargs := kwargs_or_empty kwargs in
    let cluster_id := default (PStr "-1") (kwargs !! "cluster_id") in
    let path := Py.kwget kwargs "path" in
    if negb (Py.truthy path) then
      raise (SaltCloudSystemExit
        "The vn_allocate function requires a file 'path' to be provided.")
    else
      let* file_data := read_file H path in
      let* (server, user, password) := lift (_get_xml_rpc H) in
      let* auth := lift (Py.join_colon user password) in
      let* cluster := lift (Py.int cluster_id) in
      let* response :=
        rpc H server "one.vn.allocate" [PStr auth; file_data; PInt cluster] in
      lift (action_result "vn.allocate" "allocated" "vn_id" response).

Definition vn_delete (call : option string)
    (kwargs : option (gmap string pyval)) : M pyval :=
  if negb (Py.call_is call "function") then
    raise (SaltCloudSystemExit
      "The vn_delete function must be called with -f or --function.")
  else
    let kwargs := kwargs_or_empty kwargs in
    let name := Py.kwget kwargs "name" in
    let vn_id := Py.kwget kwargs "vn_id" in
    if negb (Py.truthy name) && negb (Py.truthy vn_id) then
      raise (SaltCloudSystemExit
        ("The vn_delete function requires a name or a vn_id " +:+
         "to be provided."))
    else
      let* (server, user, password) := lift (_get_xml_rpc H) in
      let* auth := lift (Py.join_colon user password) in
      let* vn_id :=
        if Py.truthy name && negb (Py.truthy vn_id)
        then get_image_id H (name_kwargs name) None
        else ret vn_id in
      let* id := lift (Py.int vn_id) in
      let* response := rpc H server "one.image.delete" [PStr auth; PInt id] in
      lift (action_result "vn.delete" "deleted" "vn_id" response).

Definition vn_free_ar (call : option string)
    (kwargs : option (gmap string pyval)) : M pyval :=
  if negb (Py.call_is call "function") then
    raise (SaltCloudSystemExit
      "The vn_free_ar function must be called with -f or --function.")
  else
    let kwargs := kwargs_or_empty kwargs in
    let vn_id := Py.kwget kwargs "vn_id" in
    let ar_id := Py.kwget kwargs "ar_id" in
    if negb (Py.truthy vn_id) || negb (Py.truthy ar_id) then
      raise (SaltCloudSystemExit
        ("The vn_free_ar function requires a vn_id and an rn_id " +:+
         "to be provided."))
    else
      let* (server, user, password) := lift (_get_xml_rpc H) in
      let* auth := lift (Py.join_colon user password) in
      let* vn := lift (Py.int vn_id) in
      let* ar := lift (Py.int ar_id) in
      let* response :=
        rpc H server "one.vn.free_ar" [PStr auth; PInt vn; PInt ar] in
      lift (action_result "vn.free_ar" "ar_freed" "resource_id" response).

Definition vn_hold (call : option string)
    (kwargs : option (gmap string pyval)) : M pyval :=
  if negb (Py.call_is call "function") then
    raise (SaltCloudSystemExit
      "The vn_hold function must be called with -f or --function.")
  else
    let kwargs := kwargs_or_empty kwargs in
    let vn_id := Py.kwget kwargs "vn_id" in
    let path := Py.kwget kwargs "path" in
    if negb (Py.truthy vn_id) || negb (Py.truthy path) then
      raise (SaltCloudSystemExit
        ("The vn_hold function requires a 'vn_id' and a 'path' " +:+
         "to be provided."))
    else
      let* file_data := read_file H path in
      let* (server, user, password) := lift (_get_xml_rpc H) in
      let* auth := lift (Py.join_colon user password) in
      let* id := lift (Py.int vn_id) in
      let* response :=
        rpc H server "one.vn.hold" [PStr auth; PInt id; file_data] in
      lift (action_result "vn.hold" "held" "resource_id" response).

Definition vn_info (call : option string)
    (kwargs : option (gmap string pyval)) : M info_result :=
  if negb (Py.call_is call "function") then
    raise (SaltCloudSystemExit
      "The vn_info function must be called with -f or --function.")
  else
    let kwargs := kwargs_or_empty kwargs in
    let name := Py.kwget kwargs "name" in
    let vn_id := Py.kwget kwargs "vn_id" in
    if negb (Py.truthy name) && negb (Py.truthy vn_id) then
      raise (SaltCloudSystemExit
        ("The vn_info function requires either a name or a vn_id " +:+
         "to be provided."))
    else
      let* (server, user, password) := lift (_get_xml_rpc H) in
      let* auth := lift (Py.join_colon user password) in
      let* vn_id :=
        if Py.truthy name && negb (Py.truthy vn_id)
        then get_vn_id H (name_kwargs name) None
        else ret vn_id in
      let* id := lift (Py.int vn_id) in
      let* response := rpc H server "one.vn.info" [PStr auth; PInt id] in
      lift (info_or_error response).

Definition vn_release (call : option string)
    (kwargs : option (gmap string pyval)) : M pyval :=
  if negb (Py.call_is call "function") then
    raise (SaltCloudSystemExit
      "The vn_reserve function must be called with -f or --function.")
  else
    let kwargs := kwargs_or_empty kwargs in
    let vn_id := Py.kwget kwargs "vn_id" in
    let path := Py.kwget kwargs "path" in
    if negb (Py.truthy vn_id) || negb (Py.truthy path) then
      raise (SaltCloudSystemExit
        ("The vn_release function requires a 'vn_id' and a 'path' " +:+
         "to be provided."))
    else
      let* file_data := read_file H path in
      let* (server, user, password) := lift (_get_xml_rpc H) in
      let* auth := lift (Py.join_colon user password) in
      let* id := lift (Py.int vn_id) in
      let* response :=
        rpc H server "one.vn.release" [PStr auth; PInt id; file_data] in
      lift (action_result "vn.release" "released" "resource_id" response).

Definition vn_reserve (call : option string)
    (kwargs : option (gmap string pyval)) : M pyval :=
  if negb (Py.call_is call "function") then
    raise (SaltCloudSystemExit
      "The vn_reserve function must be called with -f or --function.")
  else
    let kwargs := kwargs_or_empty kwargs in
    let vn_id := Py.kwget kwargs "vn_id" in
    let path := Py.kwget kwargs "path" in
    if negb (Py.truthy vn_id) || negb (Py.truthy path) then
      raise (SaltCloudSystemExit
        ("The vn_reserve function requires a 'vn_id' and a 'path' " +:+
         "to be provided."))
    else
      let* file_data := read_file H path in
      let* (server, user, password) := lift (_get_xml_rpc H) in
      let* auth := lift (Py.join_colon user password) in
      let* id := lift (Py.int vn_id) in
      let* response :=
        rpc H server "one.vn.reserve" [PStr auth; PInt id; file_data] in
      lift (action_result "vn.reserve" "reserved" "resource_id" response).

End Dispatchers.

(** ** Vocabulary of the further properties *)

(** The text of the [NAME] child of an element, when it has one. *)
Definition name_of (item : element) : option (option string) :=
  text <$> Lxml.find item "NAME".

(** After the events [t], the server answers the request with the pool
    document [root]. *)
Definition answers_pool (H : host) (t : list event) (server method : string)
    (args : list pyval) (root : element) : Prop :=
  ∃ response document,
    xmlrpc H t server method args = Ok response
    ∧ Py.getindex response 1 = Ok document
    ∧ etree_XML H document = Ok root.

(** The listers that flatten every element of a pool, each with the method
    it calls and the arguments that follow the credentials. *)
Definition pool_listers (H : host) : list (string * list pyval * M pool) :=
  [("one.imagepool.info", wildcard, avail_images H None);
   ("one.hostpool.info", [], avail_locations H None);
   ("one.imagepool.info", wildcard, _list_images H None PNone PNone);
   ("one.secgrouppool.info", wildcard,
    _list_security_groups H None PNone PNone);
   ("one.templatepool.info", wildcard, _list_templates H None PNone PNone);
   ("one.vmpool.info", wildcard ++ [PInt 3], _list_vms H None PNone PNone);
   ("one.vnpool.info", wildcard, _list_vns H None PNone PNone)].

(** A computation is refused: it raises [SaltCloudSystemExit] and has done
    nothing. *)
Definition refused {A} (c : M A) : Prop :=
  ∀ t, ∃ message, c t = (Raise (SaltCloudSystemExit message), []).

(** A pool whose second element has no [NAME]. *)
Definition nameless_pool : element :=
  Element "IMAGE_POOL" None
    [Element "IMAGE" None [Samples.leaf "ID" "7"; Samples.leaf "NAME" "ubuntu"];
     Element "IMAGE" None [Samples.leaf "ID" "8"]].

(** A cloud that answers every pool request with [nameless_pool]. *)
Definition nameless_cloud : host := {|
  active_provider_name := "my-opennebula-config:opennebula";
  opts := ∅;
  py_repr := Samples.repr;
  is_provider_configured := λ _, Samples.provider;
  is_profile_configured := λ _ _, Ok (PBool true);
  get_cloud_config_value := Samples.config_value;
  ServerProxy := Samples.server_proxy;
  xmlrpc := λ _ _ _ _, Ok (PList [PBool true; PStr "images"; PInt 0]);
  etree_XML := λ _, Ok nameless_pool;
  fopen_read := λ _ _, Ok (PStr "NAME = updated");
  isfile := λ _, false;
  wait_for_ip := Samples.poll_once;
  bootstrap := λ _ _, Ok (PDict ∅)
|}.

(** Two listings agree: both return, with the same names as keys, or both
    raise the same error. *)
Definition agree (full summary : result pool) : Prop :=
  match full, summary with
  | Ok pf, Ok ps => dom pf = dom ps
  | Raise e1, Raise e2 => e1 = e2
  | _, _ => False
  end.

(** The VM [name] is missing from the pool until [k] sleeps have gone by,
    and is there as [node] from then on. *)
Definition appears_after (H : host) (name node : pyval) (k : nat) : Prop :=
  ∀ t, ∃ nodes evs,
    list_nodes_full H None t = (Ok nodes, evs)
    ∧ Pool.getitem nodes name
      = if decide (count_sleep t < k)%nat then Raise (KeyError name)
        else Ok node.

(** A cloud in which the VM [web1] shows up once [k] sleeps have gone by. *)
Definition slow_cloud (k : nat) : host := {|
  active_provider_name := "my-opennebula-config:opennebula";
  opts := ∅;
  py_repr := Samples.repr;
  is_provider_configured := λ _, Samples.provider;
  is_profile_configured := λ _ _, Ok (PBool true);
  get_cloud_config_value := Samples.config_value;
  ServerProxy := Samples.server_proxy;
  xmlrpc := λ t _ _ _,
    Ok (PList [PBool true;
               PStr (if decide (count_sleep t < k)%nat then "none" else "vms");
               PInt 0]);
  etree_XML := λ document,
    match document with
    | PStr "vms" => Ok (Samples.vm_pool "3" "3")
    | _ => Ok (Element "VM_POOL" None [])
    end;
  fopen_read := λ _ _, Ok (PStr "NAME = updated");
  isfile := λ _, false;
  wait_for_ip := Samples.poll_once;
  bootstrap := λ _ _, Ok (PDict ∅)
|}.

(** The operations that copy or instantiate under a new name: the request,
    the keywords of the name and of the identifier, the labels of the
    returned record (action, flag, new identifier, new name), and the
    operation. *)
Definition named_operations (H : host)
    : list (string * (string * string) * (string * string * string * string)
            * (option string → option (gmap string pyval) → M pyval)) :=
  [("one.image.clone", ("name", "image_id"),
    ("image.clone", "cloned", "cloned_image_id", "cloned_image_name"),
    image_clone H);
   ("one.secgroup.clone", ("name", "secgroup_id"),
    ("secgroup.clone", "cloned", "cloned_secgroup_id",
     "cloned_secgroup_name"),
    secgroup_clone H);
   ("one.template.clone", ("name", "template_id"),
    ("template.clone", "cloned", "cloned_template_id",
     "cloned_template_name"),
    template_clone H);
   ("one.template.instantiate", ("vm_name", "template_id"),
    ("template.instantiate", "instantiated", "instantiated_vm_id",
     "vm_name"),
    template_instantiate H)].

(** The operations on the address ranges of a virtual network: the request,
    the labels of the returned record (action, flag), and the operation. *)
Definition range_operations (H : host)
    : list (string * (string * string)
            * (option string → option (gmap string pyval) → M pyval)) :=
  [("one.vn.add_ar", ("vn.add_ar", "address_range_added"), vn_add_ar H);
   ("one.vn.hold", ("vn.hold", "held"), vn_hold H);
   ("one.vn.release", ("vn.release", "released"), vn_release H);
   ("one.vn.reserve", ("vn.reserve", "reserved"), vn_reserve H)].

(** Keyword arguments of a clone. *)
Definition clone_kwargs (id_key : string) : gmap string pyval :=
  <["name" := PStr "copy"]> (<[id_key := PStr "7"]> ∅).

(** Keyword arguments of an operation on an address range. *)
Definition range_kwargs : gmap string pyval :=
  <["vn_id" := PStr "3"]> (<["path" := PStr "/srv/range.txt"]> ∅).

(** A cloud none of whose files can be read. *)
Definition unreadable_cloud : host := {|
  active_provider_name := active_provider_name Samples.empty_cloud;
  opts := opts Samples.empty_cloud;
  py_repr := py_repr Samples.empty_cloud;
  is_provider_configured := is_provider_configured Samples.empty_cloud;
  is_profile_configured := is_profile_configured Samples.empty_cloud;
  get_cloud_config_value := get_cloud_config_value Samples.empty_cloud;
  ServerProxy := ServerProxy Samples.empty_cloud;
  xmlrpc := xmlrpc Samples.empty_cloud;
  etree_XML := etree_XML Samples.empty_cloud;
  fopen_read := λ _ _, Raise (OtherError "IOError");
  isfile := isfile Samples.empty_cloud;
  wait_for_ip := wait_for_ip Samples.empty_cloud;
  bootstrap := bootstrap Samples.empty_cloud
|}.

(** The operations that delete a resource given by identifier or by name:
    the request, the keyword of the identifier, the labels of the returned
    record (action, identifier), the lister a name is looked up in, and the
    operation. *)
Definition delete_operations (H : host)
    : list (string * string * (string * string) * M pool
            * (option string → option (gmap string pyval) → M pyval)) :=
  [("one.image.delete", "image_id", ("image.delete", "image_id"),
    _list_images H None PNone PNone, image_delete H);
   ("one.secgroup.delete", "secgroup_id", ("secgroup.delete", "secgroup_id"),
    _list_security_groups H None PNone PNone, secgroup_delete H);
   ("one.image.delete", "vn_id", ("vn.delete", "vn_id"),
    _list_images H None PNone PNone, vn_delete H)].

(** A cloud that lists its pools but answers every other request with a
    failure. *)
Definition failing_cloud : host := {|
  active_provider_name := active_provider_name (Samples.cloud "3" "3");
  opts := opts (Samples.cloud "3" "3");
  py_repr := py_repr (Samples.cloud "3" "3");
  is_provider_configured := is_provider_configured (Samples.cloud "3" "3");
  is_profile_configured := is_profile_configured (Samples.cloud "3" "3");
  get_cloud_config_value := get_cloud_config_value (Samples.cloud "3" "3");
  ServerProxy := ServerProxy (Samples.cloud "3" "3");
  xmlrpc := λ t server method args,
    if String.eqb method "one.vmpool.info"
    then Samples.answer t server method args
    else Ok (PList [PBool false; PStr "resource not found"; PInt 1024]);
  etree_XML := etree_XML (Samples.cloud "3" "3");
  fopen_read := fopen_read (Samples.cloud "3" "3");
  isfile := isfile (Samples.cloud "3" "3");
  wait_for_ip := wait_for_ip (Samples.cloud "3" "3");
  bootstrap := bootstrap (Samples.cloud "3" "3")
|}.

(** A cloud whose host reports every profile as not configured. *)
Definition unconfigured_cloud : host := {|
  active_provider_name := active_provider_name (Samples.cloud "3" "3");
  opts := opts (Samples.cloud "3" "3");
  py_repr := py_repr (Samples.cloud "3" "3");
  is_provider_configured := is_provider_configured (Samples.cloud "3" "3");
  is_profile_configured := λ _ _, Ok (PBool false);
  get_cloud_config_value := get_cloud_config_value (Samples.cloud "3" "3");
  ServerProxy := ServerProxy (Samples.cloud "3" "3");
  xmlrpc := xmlrpc (Samples.cloud "3" "3");
  etree_XML := etree_XML (Samples.cloud "3" "3");
  fopen_read := fopen_read (Samples.cloud "3" "3");
  isfile := isfile (Samples.cloud "3" "3");
  wait_for_ip := wait_for_ip (Samples.cloud "3" "3");
  bootstrap := bootstrap (Samples.cloud "3" "3")
|}.

(** A cloud that lists its pools but whose instantiate call raises. *)
Definition refusing_cloud : host := {|
  active_provider_name := active_provider_name (Samples.cloud "3" "3");
  opts := opts (Samples.cloud "3" "3");
  py_repr := py_repr (Samples.cloud "3" "3");
  is_provider_configured := is_provider_configured (Samples.cloud "3" "3");
  is_profile_configured := is_profile_configured (Samples.cloud "3" "3");
  get_cloud_config_value := get_cloud_config_value (Samples.cloud "3" "3");
  ServerProxy := ServerProxy (Samples.cloud "3" "3");
  xmlrpc := λ t server method args,
    if String.eqb method "one.template.instantiate"
    then Raise (OtherError "Fault")
    else Samples.answer t server method args;
  etree_XML := etree_XML (Samples.cloud "3" "3");
  fopen_read := fopen_read (Samples.cloud "3" "3");
  isfile := isfile (Samples.cloud "3" "3");
  wait_for_ip := wait_for_ip (Samples.cloud "3" "3");
  bootstrap := bootstrap (Samples.cloud "3" "3")
|}.

(** The record the summary listing keeps for the VM listed under [name]. *)
Definition node_summary (name : option string) (record : pyval) : Prop :=
  ∃ id image cpu memory state private_ips,
    record
    = PDict (<["id" := id]>
            (<["image" := image]>
            (<["name" := match name with Some s => PStr s | None => PNone end]>
            (<["size" := PDict (<["cpu" := cpu]> (<["memory" := memory]> ∅))]>
            (<["state" := state]>
            (<["private_ips" := PList private_ips]>
            (<["public_ips" := PList []]> ∅))))))).

(** The lookups of an identifier by name that list a pool once, each with
    its lister. *)
Definition id_lookups (H : host)
    : list (M pool
            * (option (gmap string pyval) → option string → M pyval)) :=
  [(_list_images H None PNone PNone, get_image_id H);
   (_list_security_groups H None PNone PNone, get_secgroup_id H);
   (_list_vms H None PNone PNone, get_vm_id H);
   (_list_vns H None PNone PNone, get_vn_id H)].

(** The one VM of [Samples.vm_pool], running. *)
Definition web1_vm : element :=
  Element "VM" None
    [Samples.leaf "ID" "42"; Samples.leaf "NAME" "web1";
     Samples.leaf "STATE" "3"; Samples.leaf "LCM_STATE" "3";
     Element "TEMPLATE" None
       [Samples.leaf "CPU" "1"; Samples.leaf "MEMORY" "512";
        Samples.leaf "TEMPLATE_ID" "7";
        Element "NIC" None [Samples.leaf "IP" "10.0.0.5"]]].

(** A cloud whose security group pool lists one group, with the identifier
    9 and a [NAME] element without text. *)
Definition unnamed_group_cloud : host := {|
  active_provider_name := active_provider_name Samples.empty_cloud;
  opts := opts Samples.empty_cloud;
  py_repr := py_repr Samples.empty_cloud;
  is_provider_configured := is_provider_configured Samples.empty_cloud;
  is_profile_configured := is_profile_configured Samples.empty_cloud;
  get_cloud_config_value := get_cloud_config_value Samples.empty_cloud;
  ServerProxy := ServerProxy Samples.empty_cloud;
  xmlrpc := xmlrpc Samples.empty_cloud;
  etree_XML := λ _,
    Ok (Element "SECURITY_GROUP_POOL" None
          [Element "SECURITY_GROUP" None
             [Samples.leaf "ID" "9"; Element "NAME" None []]]);
  fopen_read := fopen_read Samples.empty_cloud;
  isfile := isfile Samples.empty_cloud;
  wait_for_ip := wait_for_ip Samples.empty_cloud;
  bootstrap := bootstrap Samples.empty_cloud
|}.

(** * Properties *)

(** ** The XML flattener *)

Module FlattenFacts.

Lemma length_append (s1 s2 : string) :
  String.length (s1 +:+ s2) = (String.length s1 + String.length s2)%nat.
Proof. induction s1 as [|c s1 IH]; simpl; [done | by rewrite IH]. Qed.

Lemma length_pretty_N_go (x : N) (s : string) :
  (String.length s ≤ String.length (pretty_N_go x s))%nat.
Proof.
  revert s. induction (N.lt_wf_0 x) as [x _ IH]; intros s.
  destruct (decide (x = 0%N)) as [->|Hx].
  - by rewrite pretty_N_go_0.
  - rewrite pretty_N_go_step by lia.
    etrans; [|apply IH; apply N.div_lt; lia]. simpl. lia.
Qed.

(** [str(idx)] is never empty, so every round makes the key longer. *)
Lemma pretty_nat_nonempty (n : nat) : (0 < String.length (pretty n))%nat.
Proof.
  unfold pretty, pretty_nat, pretty, pretty_N.
  case_decide as Hn; [simpl; lia|].
  rewrite pretty_N_go_step by lia.
  eapply Nat.lt_le_trans; [|apply length_pretty_N_go]. simpl. lia.
Qed.

Lemma long_keys_size (n : nat) (dicts : gmap string pyval) :
  (size (long_keys n dicts) ≤ size dicts)%nat.
Proof.
  rewrite <-(size_dom (D:=gset string) dicts).
  apply subseteq_size. unfold long_keys. set_solver.
Qed.

Lemma long_keys_shrink (dicts : gmap string pyval) (key : string) (n : nat) :
  is_Some (dicts !! key) →
  (String.length key < n)%nat →
  (size (long_keys n dicts) < size (long_keys (String.length key) dicts))%nat.
Proof.
  intros Hin Hlen. apply subset_size. unfold long_keys. split.
  - intros k. rewrite !elem_of_filter. intros [??]. split; [lia|done].
  - intros Hsub. specialize (Hsub key).
    rewrite !elem_of_filter, elem_of_dom in Hsub.
    destruct Hsub as [? _]; [done|lia].
Qed.

(** The inner loop leaves by its own test, never by running out of
    rounds. *)
Lemma unique_key_fresh_fuel (fuel : nat) (dicts : gmap string pyval)
    (key : string) (idx : nat) :
  (size (long_keys (String.length key) dicts) < fuel)%nat →
  dicts !! unique_key fuel dicts key idx = None.
Proof.
  revert key idx. induction fuel as [|fuel IH]; intros key idx Hfuel; [lia|].
  simpl. destruct (dicts !! key) eqn:Hkey; [|done].
  apply IH.
  assert (size (long_keys (String.length (key +:+ pretty idx)) dicts)
          < size (long_keys (String.length key) dicts))%nat; [|lia].
  apply long_keys_shrink; [by eexists|].
  rewrite length_append. pose proof (pretty_nat_nonempty idx). lia.
Qed.

Lemma unique_key_fresh (dicts : gmap string pyval) (key : string) (idx : nat) :
  dicts !! unique_key (S (size dicts)) dicts key idx = None.
Proof.
  apply unique_key_fresh_fuel. pose proof (long_keys_size (String.length key) dicts).
  lia.
Qed.

(** A free key is kept as it is. *)
Lemma unique_key_free (fuel : nat) (dicts : gmap string pyval)
    (key : string) (idx : nat) :
  dicts !! key = None → unique_key fuel dicts key idx = key.
Proof. intros Hkey. destruct fuel; simpl; [done | by rewrite Hkey]. Qed.

Lemma add_item_insert (dicts : gmap string pyval) (item : element) :
  add_item _xml_to_dict dicts item
  = <[unique_key (S (size dicts)) dicts (lower (tag item)) 1
      := item_value item]> dicts.
Proof. unfold add_item, item_value. by destruct (text item). Qed.

Lemma xml_to_dict_unfold (xml : element) :
  _xml_to_dict xml = fold_left (add_item _xml_to_dict) (children xml) ∅.
Proof. by destruct xml. Qed.

(** The loop invariant of [for item in xml]. *)
Lemma fold_add_item (items : list element) (dicts : gmap string pyval) :
  let keys := item_keys dicts items in
  let out := fold_left (add_item _xml_to_dict) items dicts in
  NoDup keys
  ∧ (∀ k, k ∈ keys → dicts !! k = None)
  ∧ (∀ k, k ∉ keys → out !! k = dicts !! k)
  ∧ (∀ i item key, items !! i = Some item → keys !! i = Some key →
       out !! key = Some (item_value item)).
Proof.
  revert dicts. induction items as [|item rest IH]; intros dicts; simpl.
  { split_and!; [constructor | set_solver | done | intros ??? [=] ]. }
  set (key := unique_key (S (size dicts)) dicts (lower (tag item)) 1).
  pose proof (unique_key_fresh dicts (lower (tag item)) 1) as Hfresh.
  fold key in Hfresh.
  destruct (IH (add_item _xml_to_dict dicts item)) as (Hnd & Hnew & Hold & Hval).
  rewrite add_item_insert in *. fold key in Hnew, Hold, Hval, Hnd |- *.
  assert (Hkey : key ∉ item_keys (<[key:=item_value item]> dicts) rest).
  { intros Hin. apply Hnew in Hin. by rewrite lookup_insert_eq in Hin. }
  split_and!.
  - by constructor.
  - intros k [->|Hin]%elem_of_cons; [done|].
    apply Hnew in Hin. destruct (decide (key = k)) as [->|Hne].
    + by rewrite lookup_insert_eq in Hin.
    + by rewrite lookup_insert_ne in Hin.
  - intros k Hk. apply not_elem_of_cons in Hk as [Hne Hk].
    rewrite Hold by done. by rewrite lookup_insert_ne.
  - intros [|i] it k; simpl.
    + intros [= <-] [= <-]. rewrite Hold by done. apply lookup_insert_eq.
    + apply Hval.
Qed.

Lemma item_keys_length (items : list element) (dicts : gmap string pyval) :
  length (item_keys dicts items) = length items.
Proof.
  revert dicts. induction items as [|item rest IH]; intros dicts; simpl;
    [done | by rewrite IH].
Qed.

Lemma fold_add_item_dom (items : list element) (dicts : gmap string pyval) :
  dom (fold_left (add_item _xml_to_dict) items dicts)
  = dom dicts ∪ list_to_set (item_keys dicts items).
Proof.
  revert dicts. induction items as [|item rest IH]; intros dicts; simpl.
  { set_solver. }
  rewrite IH, add_item_insert, dom_insert_L. set_solver.
Qed.

(** *** Siblings that share one tag *)

Lemma append_assoc (s1 s2 s3 : string) :
  (s1 +:+ s2) +:+ s3 = s1 +:+ (s2 +:+ s3).
Proof.
  induction s1 as [|c s1 IH]; [done|].
  change (String c ((s1 +:+ s2) +:+ s3) = String c (s1 +:+ s2 +:+ s3)).
  by f_equal.
Qed.

Lemma append_nil_r (s : string) : s +:+ "" = s.
Proof.
  induction s as [|c s IH]; [done|].
  change (String c (s +:+ "") = String c s). by f_equal.
Qed.

Lemma suffix_chain_step (n : nat) :
  (String.length (suffix_chain n) < String.length (suffix_chain (S n)))%nat.
Proof.
  change (suffix_chain (S n)) with (suffix_chain n +:+ pretty (S n)).
  rewrite length_append. pose proof (pretty_nat_nonempty (S n)). lia.
Qed.

Lemma suffix_chain_longer (i j : nat) :
  (i < j)%nat →
  (String.length (suffix_chain i) < String.length (suffix_chain j))%nat.
Proof.
  induction 1 as [|j Hle IH].
  - apply suffix_chain_step.
  - pose proof (suffix_chain_step j). lia.
Qed.

Lemma chain_key_inj (k : string) (i j : nat) :
  k +:+ suffix_chain i = k +:+ suffix_chain j → i = j.
Proof.
  intros Heq. apply (f_equal String.length) in Heq.
  rewrite !length_append in Heq.
  destruct (Nat.lt_trichotomy i j) as [Hlt|[->|Hlt]]; [|done|];
    apply suffix_chain_longer in Hlt; lia.
Qed.

(** The inner loop walks the chain [k], [k1], [k12], ... up to its first
    free member. *)
Lemma unique_key_chain (dicts : gmap string pyval) (k : string) (j : nat) :
  (∀ i, (i < j)%nat → is_Some (dicts !! (k +:+ suffix_chain i))) →
  dicts !! (k +:+ suffix_chain j) = None →
  ∀ d i fuel, j = (i + d)%nat → (d < fuel)%nat →
    unique_key fuel dicts (k +:+ suffix_chain i) (S i) = k +:+ suffix_chain j.
Proof.
  intros Htaken Hfree. induction d as [|d IH]; intros i fuel -> Hfuel.
  - rewrite Nat.add_0_r in *. by apply unique_key_free.
  - destruct fuel as [|fuel]; [lia|]. simpl.
    destruct (Htaken i ltac:(lia)) as [v ->].
    rewrite append_assoc. change (suffix_chain i +:+ pretty (S i))
      with (suffix_chain (S i)).
    apply IH; lia.
Qed.

Lemma same_tag_item_keys (k : string) (items : list element) :
  Forall (λ item, lower (tag item) = k) items →
  ∀ (dicts : gmap string pyval) (j : nat),
    dom dicts
    = list_to_set ((λ i, k +:+ suffix_chain i) <$> seq 0 j) →
    size dicts = j →
    item_keys dicts items
    = (λ i, k +:+ suffix_chain i) <$> seq j (length items).
Proof.
  induction 1 as [|item rest Htag _ IH]; intros dicts j Hdom Hsize; [done|].
  assert (Hkey : unique_key (S (size dicts)) dicts (lower (tag item)) 1
                 = k +:+ suffix_chain j).
  { rewrite Htag, <-(append_nil_r k) at 1.
    change "" with (suffix_chain 0).
    apply (unique_key_chain dicts k j) with (d := j); [| |done|lia].
    - intros i Hi. apply elem_of_dom. rewrite Hdom, elem_of_list_to_set.
      apply list_elem_of_fmap. exists i. split; [done|].
      apply elem_of_seq. lia.
    - apply not_elem_of_dom. rewrite Hdom, elem_of_list_to_set.
      intros (i & Heq & Hi%elem_of_seq)%list_elem_of_fmap.
      apply chain_key_inj in Heq. lia. }
  change (item_keys dicts (item :: rest))
    with (unique_key (S (size dicts)) dicts (lower (tag item)) 1
            :: item_keys (add_item _xml_to_dict dicts item) rest).
  change (seq j (length (item :: rest)))
    with (j :: seq (S j) (length rest)).
  rewrite Hkey, fmap_cons. f_equal.
  rewrite add_item_insert, Hkey. apply IH.
  - rewrite dom_insert_L, Hdom, seq_S, fmap_app, list_to_set_app_L. simpl.
    set_solver.
  - rewrite map_size_insert_None; [by rewrite Hsize|].
    rewrite <-Hkey. apply unique_key_fresh.
Qed.

(** When all the children of an element share one lower-cased tag [k], they
    are stored, in sibling order, under [k], [k1], [k12], [k123], ...: each
    round of the inner loop appends to the key of the round before. *)
Lemma same_tag_sibling_keys (xml : element) (k : string) :
  Forall (λ item, lower (tag item) = k) (children xml) →
  sibling_keys xml
  = (λ i, k +:+ suffix_chain i) <$> seq 0 (length (children xml)).
Proof.
  intros Htags. apply same_tag_item_keys; [done| |done].
  by rewrite dom_empty_L.
Qed.

End FlattenFacts.

(** C6. Every child of a markup element contributes exactly one entry to
    the flattened mapping: the keys given to the children are pairwise
    distinct, the mapping has exactly those keys (so as many entries as
    there are children, none merged or lost), and the entry of a child is
    its text when it has text and its own recursive flattening when it has
    none. *)
Theorem xml_to_dict_one_entry_per_child (xml : element) :
  length (sibling_keys xml) = length (children xml)
  ∧ NoDup (sibling_keys xml)
  ∧ dom (_xml_to_dict xml) = list_to_set (sibling_keys xml)
  ∧ size (_xml_to_dict xml) = length (children xml)
  ∧ (∀ i item key,
       children xml !! i = Some item →
       sibling_keys xml !! i = Some key →
       _xml_to_dict xml !! key
       = Some (match text item with
               | Some s => PStr s
               | None => PDict (_xml_to_dict item)
               end)).
Proof.
  unfold sibling_keys. rewrite FlattenFacts.xml_to_dict_unfold.
  destruct (FlattenFacts.fold_add_item (children xml) ∅)
    as (Hnd & _ & _ & Hval).
  pose proof (FlattenFacts.fold_add_item_dom (children xml) ∅) as Hdom.
  rewrite dom_empty_L, (left_id_L ∅ (∪)) in Hdom.
  split_and!; [apply FlattenFacts.item_keys_length | done | done | | ].
  - rewrite <-(size_dom (D:=gset string)), Hdom, size_list_to_set by done.
    apply FlattenFacts.item_keys_length.
  - intros i item key Hi Hk. rewrite (Hval i item key Hi Hk).
    unfold item_value. by destruct (text item).
Qed.

(** C1, at three siblings with one tag name: the third sibling is stored
    under the tag followed by [12], the suffixes of both rounds of the inner
    loop, and nothing is stored under the tag followed by [2]. *)
Theorem xml_to_dict_third_sibling_key :
  sibling_keys Samples.three_nics = ["nic"; "nic1"; "nic12"]
  ∧ _xml_to_dict Samples.three_nics !! "nic2" = None
  ∧ _xml_to_dict Samples.three_nics !! "nic12"
    = Some (PDict {["ip" := PStr "10.0.0.3"]}).
Proof. vm_compute. done. Qed.

(** ** Running computations *)

Module Run.

Lemma bind_ok {A B} (c : M A) (k : A → M B) t a e1 :
  c t = (Ok a, e1) →
  bind c k t = ((k a (t ++ e1)).1, e1 ++ (k a (t ++ e1)).2).
Proof. unfold bind. intros ->. by destruct (k a (t ++ e1)). Qed.

Lemma bind_raise {A B} (c : M A) (k : A → M B) t e e1 :
  c t = (Raise e, e1) → bind c k t = (Raise e, e1).
Proof. unfold bind. by intros ->. Qed.

Lemma bind_lift_ok {A B} (a : A) (k : A → M B) t :
  bind (lift (Ok a)) k t = k a t.
Proof. unfold bind, lift. rewrite app_nil_r. by destruct (k a t). Qed.

Lemma bind_lift_raise {A B} (e : exn) (k : A → M B) t :
  bind (lift (Raise e)) k t = (Raise e, []).
Proof. done. Qed.

Lemma bind_ret {A B} (a : A) (k : A → M B) t : bind (ret a) k t = k a t.
Proof. apply (bind_lift_ok a). Qed.

Lemma bind_emit {B} (ev : event) (k : unit → M B) t :
  bind (emit ev) k t = ((k tt (t ++ [ev])).1, ev :: (k tt (t ++ [ev])).2).
Proof. unfold bind, emit. by destruct (k tt (t ++ [ev])). Qed.

(** The events of a sequence start with the events of its first part. *)
Lemma bind_prefix {A B} (c : M A) (k : A → M B) t :
  ∃ rest, (bind c k t).2 = (c t).2 ++ rest.
Proof.
  unfold bind. destruct (c t) as [[a|e] e1]; simpl.
  - destruct (k a (t ++ e1)) as [r e2]. by exists e2.
  - exists []. by rewrite app_nil_r.
Qed.

Lemma bind_ok_eq {A B} (c : M A) (k : A → M B) t a e1 r e2 :
  c t = (Ok a, e1) →
  k a (t ++ e1) = (r, e2) →
  bind c k t = (r, e1 ++ e2).
Proof. unfold bind. by intros -> ->. Qed.

Lemma bind_ok_quiet {A B} (c : M A) (k : A → M B) t a e1 r :
  c t = (Ok a, e1) →
  k a (t ++ e1) = (r, []) →
  bind c k t = (r, e1).
Proof. unfold bind. intros -> ->. by rewrite app_nil_r. Qed.

Lemma bind_emit_eq {B} (ev : event) (k : unit → M B) t r e2 :
  k tt (t ++ [ev]) = (r, e2) →
  bind (emit ev) k t = (r, ev :: e2).
Proof. unfold bind, emit. by intros ->. Qed.

Lemma pair_eta {A B} (p : A * B) : p = (p.1, p.2).
Proof. by destruct p. Qed.

End Run.

(** ** Resource listers *)

Module ListerFacts.

Section WithHost.

Context (H : host).

Lemma pool_of_response_empty (response : pyval) :
  empty_pool_response H response → pool_of_response H response = Ok ∅.
Proof.
  intros (document & root & Hdoc & Hroot & Hnil).
  unfold pool_of_response. rewrite Hdoc. simpl. rewrite Hroot. simpl.
  by rewrite Hnil.
Qed.

(** What a flattening lister does after it has its connection. *)
Lemma request_pool (server method : string) (args : list pyval) t :
  (let* response := rpc H server method args in
   lift (pool_of_response H response)) t
  = (let? response := xmlrpc H t server method args in
     pool_of_response H response,
     [Rpc server method args]).
Proof.
  unfold bind, rpc, lift. by destruct (xmlrpc H t server method args).
Qed.

Lemma request_empty_pool (server method : string) (args : list pyval) t :
  answers_empty_pool H t server method args →
  (let* response := rpc H server method args in
   lift (pool_of_response H response)) t
  = (Ok ∅, [Rpc server method args]).
Proof.
  intros (response & Hresp & Hempty). rewrite request_pool, Hresp. simpl.
  by rewrite pool_of_response_empty.
Qed.

End WithHost.

End ListerFacts.

Section ListersEmptyPool.

Context (H : host) (t : list event) (server auth : string).
Context (Hconnected : connected H server auth).

#[local] Ltac connect :=
  destruct Hconnected as (user & password & Hrpc & Hjoin);
  intros;
  repeat match goal with
         | Hcall : Py.call_is _ _ = _ |- _ => rewrite Hcall
         end;
  unfold or_get_xml_rpc; rewrite Hrpc, Run.bind_lift_ok; cbn beta iota;
  rewrite Hjoin, Run.bind_lift_ok.

Lemma avail_images_empty (call : option string) :
  Py.call_is call "action" = false →
  answers_empty_pool H t server "one.imagepool.info" (PStr auth :: wildcard) →
  avail_images H call t
  = (Ok ∅, [Rpc server "one.imagepool.info" (PStr auth :: wildcard)]).
Proof.
  unfold avail_images. connect. by apply ListerFacts.request_empty_pool.
Qed.

Lemma avail_locations_empty (call : option string) :
  Py.call_is call "action" = false →
  answers_empty_pool H t server "one.hostpool.info" [PStr auth] →
  avail_locations H call t
  = (Ok ∅, [Rpc server "one.hostpool.info" [PStr auth]]).
Proof.
  unfold avail_locations. connect. by apply ListerFacts.request_empty_pool.
Qed.

Lemma list_images_empty :
  answers_empty_pool H t server "one.imagepool.info" (PStr auth :: wildcard) →
  _list_images H None PNone PNone t
  = (Ok ∅, [Rpc server "one.imagepool.info" (PStr auth :: wildcard)]).
Proof.
  unfold _list_images. connect. by apply ListerFacts.request_empty_pool.
Qed.

Lemma list_security_groups_empty :
  answers_empty_pool H t server "one.secgrouppool.info"
    (PStr auth :: wildcard) →
  _list_security_groups H None PNone PNone t
  = (Ok ∅, [Rpc server "one.secgrouppool.info" (PStr auth :: wildcard)]).
Proof.
  unfold _list_security_groups. connect.
  by apply ListerFacts.request_empty_pool.
Qed.

Lemma list_templates_empty :
  answers_empty_pool H t server "one.templatepool.info"
    (PStr auth :: wildcard) →
  _list_templates H None PNone PNone t
  = (Ok ∅, [Rpc server "one.templatepool.info" (PStr auth :: wildcard)]).
Proof.
  unfold _list_templates. connect. by apply ListerFacts.request_empty_pool.
Qed.

Lemma list_vms_empty :
  answers_empty_pool H t server "one.vmpool.info"
    (PStr auth :: wildcard ++ [PInt 3]) →
  _list_vms H None PNone PNone t
  = (Ok ∅, [Rpc server "one.vmpool.info" (PStr auth :: wildcard ++ [PInt 3])]).
Proof.
  unfold _list_vms. connect. by apply ListerFacts.request_empty_pool.
Qed.

Lemma list_vns_empty :
  answers_empty_pool H t server "one.vnpool.info" (PStr auth :: wildcard) →
  _list_vns H None PNone PNone t
  = (Ok ∅, [Rpc server "one.vnpool.info" (PStr auth :: wildcard)]).
Proof.
  unfold _list_vns. connect. by apply ListerFacts.request_empty_pool.
Qed.

Lemma list_nodes_empty (full : bool) :
  answers_empty_pool H t server "one.vmpool.info"
    (PStr auth :: wildcard ++ [PInt (-1)]) →
  _list_nodes H full t
  = (Ok ∅,
     [Rpc server "one.vmpool.info" (PStr auth :: wildcard ++ [PInt (-1)])]).
Proof.
  unfold _list_nodes. connect.
  destruct H0 as (response & Hresp & document & root & Hdoc & Hroot & Hnil).
  unfold bind, rpc, lift. rewrite Hresp, Hdoc. simpl. rewrite Hroot. simpl.
  by rewrite Hnil.
Qed.

(** C7. With the provider configured, every resource lister (images,
    locations, VMs in summary and in full form, templates, security groups,
    virtual networks) that receives a pool holding no element returns the
    empty mapping, having sent its one pool request, and raises nothing. *)
Theorem listers_empty_pool :
  (answers_empty_pool H t server "one.imagepool.info"
     (PStr auth :: wildcard) →
   avail_images H None t
   = (Ok ∅, [Rpc server "one.imagepool.info" (PStr auth :: wildcard)])
   ∧ _list_images H None PNone PNone t
     = (Ok ∅, [Rpc server "one.imagepool.info" (PStr auth :: wildcard)]))
  ∧ (answers_empty_pool H t server "one.hostpool.info" [PStr auth] →
     avail_locations H None t
     = (Ok ∅, [Rpc server "one.hostpool.info" [PStr auth]]))
  ∧ (answers_empty_pool H t server "one.vmpool.info"
       (PStr auth :: wildcard ++ [PInt (-1)]) →
     ∀ full,
       _list_nodes H full t
       = (Ok ∅,
          [Rpc server "one.vmpool.info"
             (PStr auth :: wildcard ++ [PInt (-1)])]))
  ∧ (answers_empty_pool H t server "one.vmpool.info"
       (PStr auth :: wildcard ++ [PInt 3]) →
     _list_vms H None PNone PNone t
     = (Ok ∅,
        [Rpc server "one.vmpool.info" (PStr auth :: wildcard ++ [PInt 3])]))
  ∧ (answers_empty_pool H t server "one.templatepool.info"
       (PStr auth :: wildcard) →
     _list_templates H None PNone PNone t
     = (Ok ∅, [Rpc server "one.templatepool.info" (PStr auth :: wildcard)]))
  ∧ (answers_empty_pool H t server "one.secgrouppool.info"
       (PStr auth :: wildcard) →
     _list_security_groups H None PNone PNone t
     = (Ok ∅, [Rpc server "one.secgrouppool.info" (PStr auth :: wildcard)]))
  ∧ (answers_empty_pool H t server "one.vnpool.info"
       (PStr auth :: wildcard) →
     _list_vns H None PNone PNone t
     = (Ok ∅, [Rpc server "one.vnpool.info" (PStr auth :: wildcard)])).
Proof.
  split_and!; intros; try split;
    auto using avail_images_empty, list_images_empty, avail_locations_empty,
      list_nodes_empty, list_vms_empty, list_templates_empty,
      list_security_groups_empty, list_vns_empty.
Qed.

End ListersEmptyPool.

Lemma listers_empty_pool_witness :
  avail_images Samples.empty_cloud None []
  = (Ok ∅,
     [Rpc Samples.endpoint "one.imagepool.info"
        (PStr Samples.credentials :: wildcard)])
  ∧ _list_vns Samples.empty_cloud None PNone PNone []
    = (Ok ∅,
       [Rpc Samples.endpoint "one.vnpool.info"
          (PStr Samples.credentials :: wildcard)]).
Proof.
  assert (Hconnected : connected Samples.empty_cloud Samples.endpoint
                         Samples.credentials).
  { exists (PStr "oneadmin"), (PStr "secret"). split; reflexivity. }
  pose proof (listers_empty_pool Samples.empty_cloud [] Samples.endpoint
                Samples.credentials Hconnected)
    as (Himages & _ & _ & _ & _ & _ & Hvns).
  split.
  - apply Himages. eexists. split; [reflexivity|].
    eexists _, _. split_and!; reflexivity.
  - apply Hvns. eexists. split; [reflexivity|].
    eexists _, _. split_and!; reflexivity.
Defined.

(** ** Update operations *)

Module UpdateFacts.

Lemma update_number_cases (update_type : pyval) (n : Z) :
  update_number_of update_type = Ok n →
  (update_type = PStr "replace" ∧ n = 0)
  ∨ (update_type = PStr "merge" ∧ n = 1).
Proof.
  unfold update_number_of, Py.str_eq. simpl.
  destruct update_type as [| | |s| |]; try discriminate.
  destruct (String.eqb s "replace") eqn:Hr.
  { apply String.eqb_eq in Hr as ->. intros [= <-]. by left. }
  destruct (String.eqb s "merge") eqn:Hm; [|discriminate].
  apply String.eqb_eq in Hm as ->. intros [= <-]. by right.
Qed.

Lemma update_number_rejects (update_type : pyval) :
  update_type ≠ PStr "replace" →
  update_type ≠ PStr "merge" →
  ∃ msg, update_number_of update_type = Raise (SaltCloudSystemExit msg).
Proof.
  intros Hr Hm. unfold update_number_of, Py.str_eq. simpl.
  destruct update_type as [| | |s| |]; try by eexists.
  destruct (String.eqb s "replace") eqn:Er.
  { apply String.eqb_eq in Er as ->. done. }
  destruct (String.eqb s "merge") eqn:Em.
  { apply String.eqb_eq in Em as ->. done. }
  by eexists.
Qed.

#[local] Ltac reject Hr Hm :=
  match goal with
  | |- context [if negb (Py.call_is ?c ?s) then _ else _] =>
      destruct (Py.call_is c s); simpl; [|by eexists]
  end;
  match goal with
  | |- context [if ?b then _ else _] => destruct b; [by eexists|]
  end;
  destruct (update_number_rejects _ Hr Hm) as [msg ->]; by eexists.

#[local] Ltac sent :=
  match goal with
  | |- context [if negb (Py.call_is ?c ?s) then _ else _] =>
      destruct (Py.call_is c s); simpl; [|set_solver]
  end;
  match goal with
  | |- context [if ?b then _ else _] => destruct b; [set_solver|]
  end;
  let Hn := fresh "Hn" in
  let Hin := fresh "Hin" in
  match goal with
  | |- context [update_number_of ?v] =>
      destruct (update_number_of v) as [?|?] eqn:Hn; [|set_solver];
      apply update_number_cases in Hn
  end;
  unfold bind, lift, read_file, rpc, ret, raise; simpl;
  repeat case_match; simplify_eq/=;
  rewrite ?elem_of_cons, ?elem_of_nil;
  intros Hin; destruct_or!; destruct_and?; simplify_eq/=;
  eexists _, _, _; eauto.

Lemma image_update_checked (H : host) : checks_update_type H image_update.
Proof.
  intros call kwargs t update_type. subst update_type. split.
  - intros Hr Hm. unfold image_update. reject Hr Hm.
  - intros server method args. unfold image_update. sent.
Qed.

Lemma secgroup_update_checked (H : host) : checks_update_type H secgroup_update.
Proof.
  intros call kwargs t update_type. subst update_type. split.
  - intros Hr Hm. unfold secgroup_update. reject Hr Hm.
  - intros server method args. unfold secgroup_update. sent.
Qed.

Lemma template_update_checked (H : host) : checks_update_type H template_update.
Proof.
  intros call kwargs t update_type. subst update_type. split.
  - intros Hr Hm. unfold template_update. reject Hr Hm.
  - intros server method args. unfold template_update. sent.
Qed.

Lemma kwget_given (kwargs : gmap string pyval) (k : string) (v : pyval) :
  kwargs !! k = Some v → Py.kwget kwargs k = v.
Proof. unfold Py.kwget. by intros ->. Qed.

Lemma update_number_maps (update_type : string) (number : Z) :
  (update_type = "replace" ∧ number = 0)
  ∨ (update_type = "merge" ∧ number = 1) →
  Py.truthy (PStr update_type) = true
  ∧ update_number_of (PStr update_type) = Ok number.
Proof. by intros [[-> ->]|[-> ->]]. Qed.

#[local] Ltac maps :=
  intros kwargs t server auth id path data n update_type number
    (user & password & Hrpc & Hjoin) Hid Hgiven Hint Hpath Hpath_given Hread
    Hmode Hnumber;
  destruct (update_number_maps _ _ Hnumber) as [Hmode_given Hupdate];
  unfold image_update, secgroup_update, template_update; simpl;
  rewrite (kwget_given _ _ _ Hid), (kwget_given _ _ _ Hpath),
    (kwget_given _ _ _ Hmode), Hgiven, Hpath_given, Hmode_given; simpl;
  rewrite Hupdate, Run.bind_lift_ok;
  unfold bind, lift, read_file, rpc;
  rewrite Hrpc, Hjoin, ?app_nil_r, Hread, Hint; simpl;
  match goal with
  | |- context [xmlrpc ?h ?t' ?s ?m ?a] => by destruct (xmlrpc h t' s m a)
  end.

Lemma image_update_maps (H : host) :
  maps_update_type H "one.image.update" "image_id" image_update.
Proof. maps. Qed.

Lemma secgroup_update_maps (H : host) :
  maps_update_type H "one.secgroup.update" "secgroup_id" secgroup_update.
Proof. maps. Qed.

Lemma template_update_maps (H : host) :
  maps_update_type H "one.template.update" "template_id" template_update.
Proof. maps. Qed.

End UpdateFacts.

(** C5. Each update operation ([image_update], [template_update],
    [secgroup_update]) given an update mode other than the literals
    [replace] and [merge] raises a usage error and does nothing else, so no
    request is sent; every request an update operation sends carries the
    integer 0 when the mode is [replace] and 1 when it is [merge]; and in
    the [function] call context, with an identifier that reads as an
    integer, a readable file and the provider configured, the modes
    [replace] and [merge] do lead to a request: the operation reads the
    file and sends exactly one request, its own update request, with the
    credentials, the identifier, the content of the file and 0 for
    [replace], 1 for [merge]. *)
Theorem update_operations_check_update_type (H : host) :
  (checks_update_type H image_update
   ∧ checks_update_type H template_update
   ∧ checks_update_type H secgroup_update)
  ∧ maps_update_type H "one.image.update" "image_id" image_update
  ∧ maps_update_type H "one.template.update" "template_id" template_update
  ∧ maps_update_type H "one.secgroup.update" "secgroup_id" secgroup_update.
Proof.
  split_and!.
  - apply UpdateFacts.image_update_checked.
  - apply UpdateFacts.template_update_checked.
  - apply UpdateFacts.secgroup_update_checked.
  - apply UpdateFacts.image_update_maps.
  - apply UpdateFacts.template_update_maps.
  - apply UpdateFacts.secgroup_update_maps.
Qed.

Lemma update_operations_check_update_type_witness :
  (∃ msg,
     image_update Samples.empty_cloud (Some "function")
       (Some (Samples.update_kwargs (PStr "append"))) []
     = (Raise (SaltCloudSystemExit msg), []))
  ∧ (image_update Samples.empty_cloud (Some "function")
       (Some (Samples.update_kwargs (PStr "replace"))) []).2
    = [ReadFile (PStr "/srv/image_update_file.txt");
       Rpc Samples.endpoint "one.image.update"
         [PStr Samples.credentials; PInt 0; PStr "NAME = updated"; PInt 0]]
  ∧ (image_update Samples.empty_cloud (Some "function")
       (Some (Samples.update_kwargs (PStr "merge"))) []).2
    = [ReadFile (PStr "/srv/image_update_file.txt");
       Rpc Samples.endpoint "one.image.update"
         [PStr Samples.credentials; PInt 0; PStr "NAME = updated"; PInt 1]].
Proof.
  destruct (update_operations_check_update_type Samples.empty_cloud)
    as ((Himage & _ & _) & Hmaps & _ & _).
  assert (Hconnected : connected Samples.empty_cloud Samples.endpoint
                         Samples.credentials).
  { exists (PStr "oneadmin"), (PStr "secret"). split; reflexivity. }
  split_and!.
  - apply (Himage (Some "function")
             (Some (Samples.update_kwargs (PStr "append"))) []);
      vm_compute; discriminate.
  - apply (Hmaps (Samples.update_kwargs (PStr "replace")) []
             Samples.endpoint Samples.credentials (PStr "0")
             (PStr "/srv/image_update_file.txt") (PStr "NAME = updated") 0
             "replace" 0 Hconnected); try reflexivity.
    left. split; reflexivity.
  - apply (Hmaps (Samples.update_kwargs (PStr "merge")) []
             Samples.endpoint Samples.credentials (PStr "0")
             (PStr "/srv/image_update_file.txt") (PStr "NAME = updated") 0
             "merge" 1 Hconnected); try reflexivity.
    right. split; reflexivity.
Defined.

(** A run of [image_update] in merge mode: the file is read and one request
    is sent, with 1 as its last argument. *)
Example image_update_merge :
  image_update Samples.empty_cloud (Some "function")
    (Some (Samples.update_kwargs (PStr "merge"))) []
  = (Ok (PDict (<["action" := PStr "image.update"]>
               (<["updated" := PBool true]>
               (<["image_id" := PStr "<POOL/>"]>
               (<["error_code" := PInt 0]> ∅))))),
     [ReadFile (PStr "/srv/image_update_file.txt");
      Rpc Samples.endpoint "one.image.update"
        [PStr Samples.credentials; PInt 0; PStr "NAME = updated"; PInt 1]]).
Proof. vm_compute. reflexivity. Qed.

(** ** Name to identifier *)

Section WithoutName.

Context (H : host) (kwargs : option (gmap string pyval)).
Context (call : option string) (t : list event).
Context (Hname : Py.kwget (kwargs_or_empty kwargs) "name" = PNone).
Context (Hcall : Py.call_is call "action" = false).

Lemma get_secgroup_id_unfold :
  get_secgroup_id H kwargs call t
  = (let* groups := _list_security_groups H None PNone PNone in
     lift (let? group := Pool.getitem groups PNone in
           Py.getitem group "id")) t.
Proof. unfold get_secgroup_id. by rewrite Hcall, Hname. Qed.

(** The security-group lister sends its pool request whenever it gets as far
    as returning a mapping. *)
Lemma list_security_groups_events (groups : pool) (evs : list event) :
  _list_security_groups H None PNone PNone t = (Ok groups, evs) →
  ∃ server args, evs = [Rpc server "one.secgrouppool.info" args].
Proof.
  unfold _list_security_groups, or_get_xml_rpc.
  destruct (_get_xml_rpc H) as [[[server user] password]|e];
    [rewrite Run.bind_lift_ok|done]; cbn beta iota.
  destruct (Py.join_colon user password) as [auth|e];
    [rewrite Run.bind_lift_ok|done].
  rewrite ListerFacts.request_pool. intros [= _ <-]. by eexists _, _.
Qed.

(** C10. When the keyword arguments carry no name (or are absent) and the
    call context is accepted, [get_image_id], [get_template_id], [get_vm_id]
    and [get_vn_id] raise their "requires a name" usage error and do nothing
    else, whereas [get_secgroup_id] raises no such error: it calls the
    security-group lister, and when the lister returns its mapping (which
    has no entry under [None]) the lookup of the missing name fails with
    [KeyError], after the lister's pool request has been sent. *)
Theorem get_secgroup_id_without_name :
  get_image_id H kwargs call t
  = (Raise (SaltCloudSystemExit "The get_image_id function requires a name."),
     [])
  ∧ get_template_id H kwargs call t
    = (Raise (SaltCloudSystemExit
                "The get_template_id function requires a name."), [])
  ∧ get_vm_id H kwargs call t
    = (Raise (SaltCloudSystemExit "The get_vm_id function requires a name."),
       [])
  ∧ get_vn_id H kwargs call t
    = (Raise (SaltCloudSystemExit "The get_vn_id function requires a name."),
       [])
  ∧ (∀ groups evs,
       _list_security_groups H None PNone PNone t = (Ok groups, evs) →
       groups !! None = None →
       get_secgroup_id H kwargs call t = (Raise (KeyError PNone), evs)
       ∧ ∃ server args, evs = [Rpc server "one.secgrouppool.info" args]).
Proof.
  unfold get_image_id, get_template_id, get_vm_id, get_vn_id.
  rewrite Hcall, Hname. split_and!; try done.
  intros groups evs Hlist Hnone. split.
  - rewrite get_secgroup_id_unfold. rewrite (Run.bind_ok _ _ _ _ _ Hlist).
    unfold lift, Pool.getitem. rewrite Hnone. simpl. by rewrite app_nil_r.
  - by eapply list_security_groups_events.
Qed.

End WithoutName.

Lemma get_secgroup_id_without_name_witness :
  get_image_id Samples.empty_cloud None None []
  = (Raise (SaltCloudSystemExit "The get_image_id function requires a name."),
     [])
  ∧ get_secgroup_id Samples.empty_cloud None None []
    = (Raise (KeyError PNone),
       [Rpc Samples.endpoint "one.secgrouppool.info"
          (PStr Samples.credentials :: wildcard)]).
Proof.
  destruct (get_secgroup_id_without_name Samples.empty_cloud None None []
              eq_refl eq_refl) as (Himage & _ & _ & _ & Hsecgroup).
  split; [exact Himage|].
  apply (Hsecgroup ∅); [vm_compute; reflexivity | reflexivity].
Defined.

(** C10, at a pool that lists a security group whose [NAME] element has no
    text: the lister files that group under [None], so [get_secgroup_id]
    called without a name does not fail; it returns the identifier of that
    group. *)
Lemma get_secgroup_id_without_name_counterexample :
  get_secgroup_id unnamed_group_cloud None None []
  = (Ok (PStr "9"),
     [Rpc Samples.endpoint "one.secgrouppool.info"
        (PStr Samples.credentials :: wildcard)]).
Proof. vm_compute. reflexivity. Qed.

(** ** Bounded-retry lookups *)

Module RetryFacts.

Section WithHost.

Context (H : host) (name : pyval).

#[local] Abbreviation node_attempt := (node_attempt H name).
#[local] Abbreviation always_absent := (always_absent H name).

Lemma get_node_loop_done (attempts : Z) t :
  attempts < 0 → _get_node_loop H name attempts t = (Ok (PDict ∅), []).
Proof.
  intros Hneg. rewrite _get_node_loop_equation_1.
  destruct (decide (attempts >= 0)); [lia|done].
Qed.

Lemma get_node_loop_found (attempts : Z) t node evs :
  attempts >= 0 →
  node_attempt t = (Ok node, evs) →
  _get_node_loop H name attempts t = (Ok node, evs).
Proof.
  intros Hpos Hfound. rewrite _get_node_loop_equation_1.
  destruct (decide (attempts >= 0)); [|lia]. simpl.
  unfold try_except. fold node_attempt. by rewrite Hfound.
Qed.

Lemma get_node_loop_retry (attempts : Z) t key evs :
  attempts >= 0 →
  node_attempt t = (Raise (KeyError key), evs) →
  _get_node_loop H name attempts t
  = ((_get_node_loop H name (attempts - 1) (t ++ evs ++ [Sleep (1 # 2)])).1,
     evs ++ Sleep (1 # 2)
         :: (_get_node_loop H name (attempts - 1)
               (t ++ evs ++ [Sleep (1 # 2)])).2).
Proof.
  intros Hpos Hfail. rewrite _get_node_loop_equation_1.
  destruct (decide (attempts >= 0)); [|lia]. simpl.
  unfold try_except. fold node_attempt. rewrite Hfail.
  unfold sleep. rewrite Run.bind_emit, <-app_assoc. done.
Qed.

(** A full lister that returns a mapping has sent exactly its pool
    request. *)
Lemma list_nodes_full_events t nodes evs :
  list_nodes_full H None t = (Ok nodes, evs) →
  count_rpc "one.vmpool.info" evs = 1%nat ∧ count_sleep evs = 0%nat.
Proof.
  unfold list_nodes_full, _list_nodes. simpl.
  destruct (_get_xml_rpc H) as [[[server user] password]|e];
    [rewrite Run.bind_lift_ok|done]; cbn beta iota.
  destruct (Py.join_colon user password) as [auth|e];
    [rewrite Run.bind_lift_ok|done].
  unfold bind, rpc, lift. case_match; simplify_eq/=; [|done].
  by intros [= _ <-].
Qed.

Lemma count_rpc_app method evs1 evs2 :
  count_rpc method (evs1 ++ evs2)
  = (count_rpc method evs1 + count_rpc method evs2)%nat.
Proof. unfold count_rpc. by rewrite List.filter_app, length_app. Qed.

Lemma count_sleep_app evs1 evs2 :
  count_sleep (evs1 ++ evs2) = (count_sleep evs1 + count_sleep evs2)%nat.
Proof. unfold count_sleep. by rewrite List.filter_app, length_app. Qed.

(** With the name absent on every attempt, the loop entered with
    [attempts] makes [attempts + 1] lister calls, sleeps after each of them
    and returns the empty record. *)
Lemma get_node_loop_absent (n : nat) :
  always_absent →
  ∀ t, ∃ evs,
    _get_node_loop H name (Z.of_nat n - 1) t = (Ok (PDict ∅), evs)
    ∧ count_rpc "one.vmpool.info" evs = n
    ∧ count_sleep evs = n.
Proof.
  intros Habsent. induction n as [|n IH]; intros t.
  { exists []. by rewrite get_node_loop_done by lia. }
  destruct (Habsent t) as (nodes & evs & Hlist & Hget).
  pose proof (list_nodes_full_events _ _ _ Hlist) as [Hrpc Hsleep].
  assert (Hattempt : node_attempt t = (Raise (KeyError name), evs)).
  { unfold node_attempt. rewrite (Run.bind_ok _ _ _ _ _ Hlist).
    unfold lift. rewrite Hget. simpl. by rewrite app_nil_r. }
  erewrite get_node_loop_retry; [|lia|exact Hattempt].
  replace (Z.of_nat (S n) - 1 - 1) with (Z.of_nat n - 1) by lia.
  destruct (IH (t ++ evs ++ [Sleep (1 # 2)])) as (evs' & -> & Hrpc' & Hsleep').
  eexists. split; [done|]. simpl.
  rewrite count_rpc_app, count_sleep_app, Hrpc, Hsleep.
  unfold count_rpc, count_sleep in *. simpl. lia.
Qed.

Lemma get_node_absent :
  always_absent →
  ∀ t, ∃ evs,
    _get_node H name t = (Ok (PDict ∅), evs)
    ∧ count_rpc "one.vmpool.info" evs = 11%nat
    ∧ count_sleep evs = 11%nat.
Proof. intros Habsent t. apply (get_node_loop_absent 11 Habsent). Qed.

End WithHost.

End RetryFacts.

(** C2, at a name no pool ever holds: [_get_node] and [_get_template] each
    call their lister eleven times, not ten, sleeping half a time unit after
    every one of the eleven failed attempts, and then return the empty
    record without raising. *)
Theorem lookup_absent_name_attempts :
  let node := _get_node Samples.empty_cloud (PStr "web1") [] in
  let template :=
    _get_template Samples.empty_cloud (PStr "small") None PNone PNone [] in
  node.1 = Ok (PDict ∅)
  ∧ count_rpc "one.vmpool.info" node.2 = 11%nat
  ∧ count_sleep node.2 = 11%nat
  ∧ Forall (λ ev, is_sleep ev = true → ev = Sleep (1 # 2)) node.2
  ∧ template.1 = Ok (PDict ∅)
  ∧ count_rpc "one.templatepool.info" template.2 = 11%nat
  ∧ count_sleep template.2 = 11%nat.
Proof.
  vm_compute. split_and!; try reflexivity.
  repeat (constructor; [by intros|]). constructor.
Qed.

(** ** Destroying a VM *)

Module DestroyFacts.

Section WithHost.

Context (H : host).

(** The full lister sends at most its pool request. *)
Lemma list_nodes_full_no_action t :
  count_rpc "one.vm.action" (list_nodes_full H None t).2 = 0%nat.
Proof.
  unfold list_nodes_full, _list_nodes. simpl.
  destruct (_get_xml_rpc H) as [[[server user] password]|e];
    [rewrite Run.bind_lift_ok|done]; cbn beta iota.
  destruct (Py.join_colon user password) as [auth|e];
    [rewrite Run.bind_lift_ok|done].
  unfold bind, rpc, lift. by repeat case_match; simplify_eq/=.
Qed.

Lemma node_attempt_no_action name t :
  count_rpc "one.vm.action" (node_attempt H name t).2 = 0%nat.
Proof.
  unfold node_attempt, bind.
  pose proof (list_nodes_full_no_action t) as Hlist.
  destruct (list_nodes_full H None t) as [[nodes|e] evs]; simpl in *; [|done].
  unfold lift. simpl. by rewrite app_nil_r.
Qed.

Lemma get_node_loop_no_action name (n : nat) :
  ∀ attempts t,
    (Z.to_nat (attempts + 1) ≤ n)%nat →
    count_rpc "one.vm.action" (_get_node_loop H name attempts t).2 = 0%nat.
Proof.
  induction n as [|n IH]; intros attempts t Hn.
  { by rewrite RetryFacts.get_node_loop_done by lia. }
  destruct (decide (attempts < 0)) as [Hneg|Hpos].
  { by rewrite RetryFacts.get_node_loop_done by lia. }
  pose proof (node_attempt_no_action name t) as Hattempt.
  destruct (node_attempt H name t) as [[node|e] evs] eqn:Hrun; simpl in *.
  { by erewrite RetryFacts.get_node_loop_found by (done || lia). }
  destruct e; try
    (rewrite _get_node_loop_equation_1;
     destruct (decide (attempts >= 0)); [|lia]; simpl;
     unfold try_except; fold (node_attempt H name); by rewrite Hrun).
  erewrite RetryFacts.get_node_loop_retry by (done || lia). simpl.
  rewrite RetryFacts.count_rpc_app, Hattempt. simpl.
  change (count_rpc "one.vm.action" (Sleep (1 # 2) :: ?l))
    with (count_rpc "one.vm.action" l).
  apply IH. lia.
Qed.

Lemma get_node_no_action name t :
  count_rpc "one.vm.action" (_get_node H name t).2 = 0%nat.
Proof. unfold _get_node. by eapply get_node_loop_no_action. Qed.

End WithHost.

End DestroyFacts.

Section DestroyResolved.

Context (H : host) (name : pyval) (call : option string) (t : list event).
Context (server auth : string) (data id : pyval) (n : Z).
Context (flag node_id error_code : pyval) (lookup : list event).

#[local] Abbreviation destroying :=
  (FireEvent "destroying instance"
     ("salt/cloud/" +:+ str H name +:+ "/destroying")
     (PDict {["name" := name]})).

#[local] Abbreviation destroyed :=
  (FireEvent "destroyed instance"
     ("salt/cloud/" +:+ str H name +:+ "/destroyed")
     (PDict {["name" := name]})).

#[local] Abbreviation delete_request :=
  (Rpc server "one.vm.action" [PStr auth; PStr "delete"; PInt n]).

Context (Hcall : Py.call_is call "function" = false).
Context (Hconnected : connected H server auth).
Context (Hnode : _get_node H name (t ++ [destroying]) = (Ok data, lookup)).
Context (Hid : Py.getitem data "id" = Ok id).
Context (Hint : Py.int id = Ok n).
Context (Hanswer :
  xmlrpc H (t ++ [destroying] ++ lookup ++ [CacheNode data]) server
    "one.vm.action" [PStr auth; PStr "delete"; PInt n]
  = Ok (PList [flag; node_id; error_code])).

Lemma destroy_run :
  destroy H name call t
  = (Ok (destroy_result flag node_id error_code),
     destroying :: (lookup ++ [CacheNode data])
       ++ [delete_request; destroyed] ++ cachedir_events H name).
Proof.
  destruct Hconnected as (user & password & Hrpc & Hjoin).
  unfold destroy, fire_event. rewrite Hcall.
  apply Run.bind_emit_eq.
  rewrite Hrpc, Run.bind_lift_ok. cbn beta iota.
  rewrite Hjoin, Run.bind_lift_ok.
  assert (Hshow : show_instance H name (Some "action") (t ++ [destroying])
                  = (Ok data, lookup ++ [CacheNode data])).
  { unfold show_instance, bind, emit, ret, lift. simpl. by rewrite Hnode. }
  eapply Run.bind_ok_eq; [exact Hshow|].
  rewrite Hid. simpl. rewrite Hint, Run.bind_lift_ok.
  unfold bind, rpc, emit, ret, lift. rewrite <-!app_assoc, Hanswer.
  unfold cachedir_events, destroy_result.
  by destruct (opts H !! "update_cachedir") as [[|[]| | | |]|].
Qed.

(** C4. When [destroy] is called in an accepted call context, the provider
    is configured, the bounded-retry lookup [_get_node] resolves the name to
    a record whose [id] reads as the integer [n], and the provider answers
    the delete request with the tuple [(flag, node_id, error_code)], then
    [destroy] sends exactly one [one.vm.action] request, the [delete] action
    for [n], and returns the record
    [{action: vm.delete, deleted: flag, node_id: node_id,
      error_code: error_code}]. *)
Theorem destroy_resolved :
  ∃ evs,
    destroy H name call t
    = (Ok (PDict (<["action" := PStr "vm.delete"]>
                 (<["deleted" := flag]>
                 (<["node_id" := node_id]>
                 (<["error_code" := error_code]> ∅))))), evs)
    ∧ count_rpc "one.vm.action" evs = 1%nat
    ∧ Rpc server "one.vm.action" [PStr auth; PStr "delete"; PInt n] ∈ evs.
Proof.
  eexists. split; [apply destroy_run|]. split.
  - pose proof (DestroyFacts.get_node_no_action H name (t ++ [destroying]))
      as Hlookup.
    rewrite Hnode in Hlookup. simpl in Hlookup.
    change (destroying :: ?l) with ([destroying] ++ l).
    rewrite !RetryFacts.count_rpc_app, Hlookup.
    unfold cachedir_events.
    by destruct (opts H !! "update_cachedir") as [[|[]| | | |]|].
  - set_solver.
Qed.

End DestroyResolved.

Lemma destroy_resolved_witness :
  ∃ evs,
    destroy (Samples.cloud "3" "3") (PStr "web1") None []
    = (Ok (PDict (<["action" := PStr "vm.delete"]>
                 (<["deleted" := PBool true]>
                 (<["node_id" := PInt 42]>
                 (<["error_code" := PInt 0]> ∅))))), evs)
    ∧ count_rpc "one.vm.action" evs = 1%nat
    ∧ Rpc Samples.endpoint "one.vm.action"
        [PStr Samples.credentials; PStr "delete"; PInt 42] ∈ evs.
Proof.
  eapply (destroy_resolved (Samples.cloud "3" "3") (PStr "web1") None []
            Samples.endpoint Samples.credentials).
  - reflexivity.
  - exists (PStr "oneadmin"), (PStr "secret"). split; reflexivity.
  - vm_compute. reflexivity.
  - vm_compute. reflexivity.
  - vm_compute. reflexivity.
  - vm_compute. reflexivity.
Defined.

(** A run of [destroy] on a VM the pool holds, event by event. *)
Example destroy_web1 :
  (destroy (Samples.cloud "3" "3") (PStr "web1") None []).2
  = [FireEvent "destroying instance" "salt/cloud/web1/destroying"
       (PDict {["name" := PStr "web1"]});
     Rpc Samples.endpoint "one.vmpool.info"
       (PStr Samples.credentials :: wildcard ++ [PInt (-1)]);
     CacheNode (PDict (_xml_to_dict
       (Element "VM" None
          [Samples.leaf "ID" "42"; Samples.leaf "NAME" "web1";
           Samples.leaf "STATE" "3"; Samples.leaf "LCM_STATE" "3";
           Element "TEMPLATE" None
             [Samples.leaf "CPU" "1"; Samples.leaf "MEMORY" "512";
              Samples.leaf "TEMPLATE_ID" "7";
              Element "NIC" None [Samples.leaf "IP" "10.0.0.5"]]])));
     Rpc Samples.endpoint "one.vm.action"
       [PStr Samples.credentials; PStr "delete"; PInt 42];
     FireEvent "destroyed instance" "salt/cloud/web1/destroyed"
       (PDict {["name" := PStr "web1"]});
     DeleteMinionCachedir (PStr "web1") "my-opennebula-config"].
Proof. vm_compute. reflexivity. Qed.

(** ** Creating a VM *)

Module CreateFacts.

Section WithHost.

Context (H : host).

(** The profile check only reads the configuration. *)
Lemma create_profile_check_events vm_ t :
  (create_profile_check H vm_ t).2 = [].
Proof.
  unfold create_profile_check, try_except, bind, lift, ret.
  by repeat case_match; simplify_eq/=.
Qed.

Lemma create_profile_check_run vm_ t :
  (create_profile_check H vm_ t).1 = Ok true →
  create_profile_check H vm_ t = (Ok true, []).
Proof.
  intros Hok. rewrite (Run.pair_eta (create_profile_check H vm_ t)).
  by rewrite Hok, create_profile_check_events.
Qed.

(** [create] once the profile check has passed. *)
Lemma create_unfold vm_ t :
  (create_profile_check H vm_ t).1 = Ok true →
  create H vm_ t
  = (let* requested := create_instantiate H (alias_provider vm_) in
     if negb requested then ret (PBool false)
     else
       let* data := create_wait_for_ip H (alias_provider vm_) in
       create_bootstrap H (alias_provider vm_) data) t.
Proof.
  intros Hok. unfold create.
  unfold bind at 1. rewrite (create_profile_check_run _ _ Hok). simpl.
  rewrite app_nil_r.
  by destruct (bind (create_instantiate H (alias_provider vm_)) _ t).
Qed.

(** [create] once the instantiate request has gone through. *)
Lemma create_after_instantiate vm_ t e1 r e2 :
  (create_profile_check H vm_ t).1 = Ok true →
  create_instantiate H (alias_provider vm_) t = (Ok true, e1) →
  (let* data := create_wait_for_ip H (alias_provider vm_) in
   create_bootstrap H (alias_provider vm_) data) (t ++ e1) = (r, e2) →
  create H vm_ t = (r, e1 ++ e2).
Proof.
  intros Hok Hinst Hrest. rewrite create_unfold by done.
  eapply Run.bind_ok_eq; [exact Hinst|]. exact Hrest.
Qed.

(** *** What the steps before the poll emit *)

Section EmitsOnly.

Context (P : event → Prop).

Lemma emits_only_lift {A} (r : result A) : emits_only P (lift r).
Proof. intros t. constructor. Qed.

Lemma emits_only_ret {A} (a : A) : emits_only P (ret a).
Proof. intros t. constructor. Qed.

Lemma emits_only_raise {A} (e : exn) : emits_only P (@raise A e).
Proof. intros t. constructor. Qed.

Lemma emits_only_emit (ev : event) : P ev → emits_only P (emit ev).
Proof. intros Hev t. by repeat constructor. Qed.

Lemma emits_only_rpc server method args :
  P (Rpc server method args) → emits_only P (rpc H server method args).
Proof. intros Hev t. by repeat constructor. Qed.

Lemma emits_only_bind {A B} (c : M A) (k : A → M B) :
  emits_only P c → (∀ a, emits_only P (k a)) → emits_only P (bind c k).
Proof.
  intros Hc Hk t. unfold bind. specialize (Hc t).
  destruct (c t) as [[a|e] e1]; simpl in *; [|done].
  specialize (Hk a (t ++ e1)). destruct (k a (t ++ e1)) as [r e2].
  by apply Forall_app.
Qed.

Lemma emits_only_try_except {A} (c : M A) (h : exn → option (M A)) :
  emits_only P c →
  (∀ e k, h e = Some k → emits_only P k) →
  emits_only P (try_except c h).
Proof.
  intros Hc Hh t. unfold try_except. specialize (Hc t).
  destruct (c t) as [[a|e] e1]; simpl in *; [done|].
  destruct (h e) as [k|] eqn:Hhandler; [|done].
  specialize (Hh e k Hhandler (t ++ e1)). destruct (k (t ++ e1)) as [r e2].
  by apply Forall_app.
Qed.

Context (Hrpc : ∀ server method args, P (Rpc server method args)).
Context (Hfire : ∀ description tag data, P (FireEvent description tag data)).

#[local] Ltac emits :=
  repeat first
    [ apply emits_only_bind; [|intros ?]
    | apply emits_only_lift
    | apply emits_only_ret
    | apply emits_only_raise
    | apply emits_only_rpc; apply Hrpc
    | apply emits_only_emit; apply Hfire
    | progress cbn beta iota
    | match goal with
      | |- emits_only _ (let '(_, _) := ?p in _) => destruct p
      | |- emits_only _ (match ?x with _ => _ end) => destruct x
      end ].

Lemma avail_images_emits call : emits_only P (avail_images H call).
Proof. unfold avail_images. emits. Qed.

Lemma avail_locations_emits call : emits_only P (avail_locations H call).
Proof. unfold avail_locations. emits. Qed.

Lemma get_image_emits vm_ : emits_only P (get_image H vm_).
Proof.
  unfold get_image. apply emits_only_bind; [apply avail_images_emits|].
  intros images. emits.
Qed.

Lemma get_location_emits vm_ : emits_only P (get_location H vm_).
Proof.
  unfold get_location. apply emits_only_bind; [apply avail_locations_emits|].
  intros locations. emits.
Qed.

(** Up to the instantiate request, [create] only sends requests and fires
    events. *)
Lemma create_instantiate_emits vm_ : emits_only P (create_instantiate H vm_).
Proof.
  unfold create_instantiate, fire_event.
  do 4 (apply emits_only_bind; [apply emits_only_lift|intros ?]).
  apply emits_only_bind; [by apply emits_only_emit|intros _].
  apply emits_only_bind; [apply get_image_emits|intros image_id].
  apply emits_only_bind; [apply get_location_emits|intros region_id].
  apply emits_only_bind; [by apply emits_only_emit|intros _].
  apply emits_only_try_except; [emits|].
  intros e k [= <-]. apply emits_only_ret.
Qed.

End EmitsOnly.

End WithHost.

End CreateFacts.

Section CreatePollFails.

Context (H : host) (vm_ : gmap string pyval) (t : list event).
Context (name : pyval) (exc : exn) (message : string).
Context (request poll : list event).

Context (Hprofile : (create_profile_check H vm_ t).1 = Ok true).
Context (Hrequest :
  create_instantiate H (alias_provider vm_) t = (Ok true, request)).
Context (Hname : alias_provider vm_ !! "name" = Some name).
Context (Hpoll :
  wait_for_ip H (update_callback H) [name]
    (poll_timeout H (alias_provider vm_))
    (poll_interval H (alias_provider vm_)) (t ++ request)
  = (Raise exc, poll)).
Context (Hexc : exc = SaltCloudExecutionTimeout message
                ∨ exc = SaltCloudExecutionFailure message).

(** The cleanup runs [destroy] and raises, whatever [destroy] did. *)
Lemma create_cleanup_run t' :
  create_cleanup H (alias_provider vm_) message t'
  = (Raise (SaltCloudSystemExit message), (destroy H name None t').2).
Proof.
  unfold create_cleanup, try_finally, try_except, Py.vmget.
  rewrite Hname, Run.bind_lift_ok. unfold bind, ret, raise.
  destruct (destroy H name None t') as [[node|e] evs]; simpl.
  - by rewrite !app_nil_r.
  - destruct e; simpl; by rewrite ?app_nil_r.
Qed.

(** [destroy] without a call context starts with its event. *)
Lemma destroy_attempted t' :
  ∃ rest, (destroy H name None t').2 = destroying_instance H name :: rest.
Proof.
  unfold destroy, fire_event. simpl. rewrite Run.bind_emit. by eexists.
Qed.

(** C3. When [create] has sent its instantiate request and the readiness
    poll ends with a timeout or a failure, [create] runs [destroy] on the
    name of the VM - the events of that run, which start with the
    "destroying instance" event, follow those of the poll - and then,
    whatever [destroy] returned or raised (its [SaltCloudSystemExit]
    included), raises [SaltCloudSystemExit] with the message of the poll's
    error; no result is returned. *)
Theorem create_poll_failure_destroys :
  create H vm_ t
  = (Raise (SaltCloudSystemExit message),
     request ++ poll
       ++ (destroy H name None (t ++ request ++ poll)).2)
  ∧ ∃ rest,
      (destroy H name None (t ++ request ++ poll)).2
      = destroying_instance H name :: rest.
Proof.
  split; [|apply destroy_attempted].
  eapply CreateFacts.create_after_instantiate; [done..|].
  apply Run.bind_raise.
  unfold create_wait_for_ip, try_except, Py.vmget.
  rewrite Hname, Run.bind_lift_ok.
  fold (poll_timeout H (alias_provider vm_)).
  fold (poll_interval H (alias_provider vm_)).
  rewrite Hpoll.
  destruct Hexc as [-> | ->];
    by rewrite create_cleanup_run, <-app_assoc.
Qed.

End CreatePollFails.

Section CreateKeyMissing.

Context (H : host) (vm_ : gmap string pyval) (t : list event).
Context (name data : pyval) (path : string).
Context (request poll : list event).

Context (Hprofile : (create_profile_check H vm_ t).1 = Ok true).
Context (Hrequest :
  create_instantiate H (alias_provider vm_) t = (Ok true, request)).
Context (Hname : alias_provider vm_ !! "name" = Some name).
Context (Hpoll :
  wait_for_ip H (update_callback H) [name]
    (poll_timeout H (alias_provider vm_))
    (poll_interval H (alias_provider vm_)) (t ++ request)
  = (Ok data, poll)).
Context (Hkey :
  get_cloud_config_value H "private_key" (PDict (alias_provider vm_))
    PNone false
  = PStr path).
Context (Hmissing : isfile H path = false).

(** After the poll nothing happens but the check of the key file. *)
Lemma create_bootstrap_key_missing t' :
  create_bootstrap H (alias_provider vm_) data t'
  = (Raise (SaltCloudConfigError
              ("The defined key_filename " +:+ py_repr H (PStr path) +:+
               " does not exist")), []).
Proof.
  unfold create_bootstrap. rewrite Hkey. unfold os_path_isfile.
  by rewrite Hmissing.
Qed.

(** C9. When the readiness poll of [create] succeeds, a [private_key] path
    is configured and no file exists at that path, [create] raises
    [SaltCloudConfigError] with a message that names the key file.  Nothing
    has been handed to the bootstrap routine: the events of the run end with
    those of the poll, the steps before the poll made no bootstrap call, and
    the step after the poll adds no event. *)
Theorem create_missing_key_file :
  create H vm_ t
  = (Raise (SaltCloudConfigError
              ("The defined key_filename " +:+ py_repr H (PStr path) +:+
               " does not exist")),
     request ++ poll)
  ∧ Forall (λ ev, is_bootstrap ev = false) request
  ∧ (∀ t', (create_bootstrap H (alias_provider vm_) data t').2 = []).
Proof.
  split_and!.
  - eapply CreateFacts.create_after_instantiate; [done..|].
    eapply Run.bind_ok_quiet; [|apply create_bootstrap_key_missing].
    unfold create_wait_for_ip, try_except, Py.vmget.
    rewrite Hname, Run.bind_lift_ok.
    fold (poll_timeout H (alias_provider vm_)).
    fold (poll_interval H (alias_provider vm_)).
    by rewrite Hpoll.
  - pose proof (CreateFacts.create_instantiate_emits H
                  (λ ev, is_bootstrap ev = false)
                  (λ _ _ _, eq_refl) (λ _ _ _, eq_refl)
                  (alias_provider vm_) t) as Hquiet.
    by rewrite Hrequest in Hquiet.
  - intros t'. by rewrite create_bootstrap_key_missing.
Qed.

End CreateKeyMissing.

Section CreateInstantiate.

Context (H : host) (vm_ : gmap string pyval) (t : list event).
Context (name profile driver transport image_id region_id : pyval).
Context (server auth : string) (image : Z) (images locations : list event).

Context (Hprofile : (create_profile_check H vm_ t).1 = Ok true).
Context (Hname : alias_provider vm_ !! "name" = Some name).
Context (Hprof : alias_provider vm_ !! "profile" = Some profile).
Context (Hdriver : alias_provider vm_ !! "driver" = Some driver).
Context (Htransport : opts H !! "transport" = Some transport).
Context (Himage :
  get_image H (alias_provider vm_)
    (t ++ [starting_create H name profile driver])
  = (Ok image_id, images)).
Context (Hlocation :
  get_location H (alias_provider vm_)
    (t ++ [starting_create H name profile driver] ++ images)
  = (Ok region_id, locations)).
Context (Hconnected : connected H server auth).
Context (Hint : Py.int image_id = Ok image).

(** The request [create] sends for these values. *)
#[local] Abbreviation instantiate :=
  (Rpc server "one.template.instantiate"
     [PStr auth; PInt image; name; PBool false;
      PStr (match region_id with
            | PNone => ""
            | _ => "SCHED_REQUIREMENTS=" +:+ dquote +:+ "ID=" +:+
                   str H region_id +:+ dquote
            end)]).

Lemma create_instantiate_run :
  ∃ requested,
    create_instantiate H (alias_provider vm_) t
    = (Ok requested,
       starting_create H name profile driver
         :: images ++ locations
         ++ [requesting_instance H (alias_provider vm_) name image_id
               region_id;
             instantiate]).
Proof.
  destruct Hconnected as (user & password & Hrpc & Hjoin).
  unfold create_instantiate, Py.vmget, opts_getitem, fire_event.
  rewrite Hname, Hprof, Hdriver, Htransport, !Run.bind_lift_ok.
  fold (starting_create H name profile driver).
  set (answer :=
    xmlrpc H
      (t ++ [starting_create H name profile driver] ++ images ++ locations
         ++ [requesting_instance H (alias_provider vm_) name image_id
               region_id])
      server "one.template.instantiate"
      [PStr auth; PInt image; name; PBool false; PStr (region_of H region_id)]).
  exists (match answer with Ok _ => true | Raise _ => false end).
  apply Run.bind_emit_eq.
  eapply Run.bind_ok_eq; [exact Himage|].
  eapply Run.bind_ok_eq; [rewrite <-app_assoc; exact Hlocation|].
  fold (requesting_instance H (alias_provider vm_) name image_id region_id).
  apply Run.bind_emit_eq.
  unfold try_except. rewrite Hrpc, Run.bind_lift_ok. cbn beta iota.
  rewrite Hjoin, Run.bind_lift_ok, Hint, Run.bind_lift_ok.
  unfold bind, rpc, ret. rewrite <-!app_assoc. fold answer.
  unfold region_of. by destruct answer, region_id.
Qed.

(** C8. When [create] gets as far as the instantiate step - the profile is
    configured, the image and the location have been resolved, the provider
    is configured and the image id reads as an integer - the events of the
    run begin with those of the resolution followed by the instantiate
    request, and that request carries the credentials, the integer image
    id, the name of the VM, [False], and as scheduler requirement the empty
    string when no location was set ([region_id] is [None]) and
    [SCHED_REQUIREMENTS="ID=<region_id>"] otherwise. *)
Theorem create_instantiate_request :
  ∃ r rest,
    create H vm_ t
    = (r,
       starting_create H name profile driver
         :: images ++ locations
         ++ [requesting_instance H (alias_provider vm_) name image_id
               region_id;
             Rpc server "one.template.instantiate"
               [PStr auth; PInt image; name; PBool false;
                PStr (match region_id with
                      | PNone => ""
                      | _ => "SCHED_REQUIREMENTS=" +:+ dquote +:+ "ID=" +:+
                             str H region_id +:+ dquote
                      end)]]
         ++ rest).
Proof.
  destruct create_instantiate_run as [requested Hrun].
  rewrite CreateFacts.create_unfold by done.
  unfold bind at 1. rewrite Hrun.
  match goal with
  | |- context [let '(r, e2) := ?c in _] => destruct c as [r rest]
  end.
  exists r, rest. simpl. by rewrite <-!app_assoc.
Qed.

End CreateInstantiate.

Lemma create_poll_failure_destroys_witness :
  (create (Samples.cloud "7" "0") Samples.web1 []).1
  = Raise (SaltCloudSystemExit
             "Too many failures occurred while waiting for the IP address.")
  ∧ count_rpc "one.vm.action"
      (create (Samples.cloud "7" "0") Samples.web1 []).2 = 1%nat.
Proof.
  edestruct (create_poll_failure_destroys (Samples.cloud "7" "0")
               Samples.web1 [] (PStr "web1")) as [Hrun _].
  - reflexivity.
  - vm_compute. reflexivity.
  - reflexivity.
  - vm_compute. reflexivity.
  - right. reflexivity.
  - rewrite Hrun. split; [reflexivity|]. vm_compute. reflexivity.
Defined.

Lemma create_missing_key_file_witness :
  (create (Samples.cloud "3" "3") Samples.web1_with_key []).1
  = Raise (SaltCloudConfigError
             "The defined key_filename '/etc/salt/pki/cloud/id_rsa' does not exist")
  ∧ Forall (λ ev, is_bootstrap ev = false)
      (create (Samples.cloud "3" "3") Samples.web1_with_key []).2.
Proof.
  edestruct (create_missing_key_file (Samples.cloud "3" "3")
               Samples.web1_with_key [] (PStr "web1")) as [Hrun _].
  - reflexivity.
  - vm_compute. reflexivity.
  - reflexivity.
  - vm_compute. reflexivity.
  - reflexivity.
  - reflexivity.
  - rewrite Hrun. split; [reflexivity|]. vm_compute.
    repeat (constructor; [reflexivity|]). constructor.
Defined.

Lemma create_instantiate_request_witness :
  ∃ r rest,
    create (Samples.cloud "3" "3") Samples.web1 []
    = (r,
       starting_create (Samples.cloud "3" "3") (PStr "web1")
         (PStr "one-small") (PStr "my-opennebula-config:opennebula")
         :: [Rpc Samples.endpoint "one.imagepool.info"
               (PStr Samples.credentials :: wildcard)]
         ++ [Rpc Samples.endpoint "one.hostpool.info"
               [PStr Samples.credentials]]
         ++ [requesting_instance (Samples.cloud "3" "3")
               (alias_provider Samples.web1) (PStr "web1") (PStr "7")
               (PStr "3");
             Rpc Samples.endpoint "one.template.instantiate"
               [PStr Samples.credentials; PInt 7; PStr "web1"; PBool false;
                PStr ("SCHED_REQUIREMENTS=" +:+ dquote +:+ "ID=3" +:+
                      dquote)]]
         ++ rest).
Proof.
  eapply (create_instantiate_request (Samples.cloud "3" "3") Samples.web1 []
            (PStr "web1") (PStr "one-small")
            (PStr "my-opennebula-config:opennebula") (PStr "zeromq")
            (PStr "7") (PStr "3") Samples.endpoint Samples.credentials 7).
  - reflexivity.
  - reflexivity.
  - reflexivity.
  - reflexivity.
  - reflexivity.
  - vm_compute. reflexivity.
  - vm_compute. reflexivity.
  - exists (PStr "oneadmin"), (PStr "secret"). split; reflexivity.
  - reflexivity.
Defined.

(** A run of [create] to the end: the VM is running at the first poll and
    no key file is configured. *)
Example create_web1 :
  let run := create (Samples.cloud "3" "3") Samples.web1 [] in
  run.1
  = Ok (PDict (<["id" := PStr "42"]>
              (<["image" := PStr "ubuntu"]>
              (<["name" := PStr "web1"]>
              (<["size" := PStr "512"]>
              (<["state" := PStr "3"]>
              (<["private_ips" := PStr "10.0.0.5"]>
              (<["public_ips" := PList []]> ∅))))))))
  ∧ count_rpc "one.template.instantiate" run.2 = 1%nat
  ∧ count_rpc "one.vm.action" run.2 = 0%nat
  ∧ length (List.filter is_bootstrap run.2) = 1%nat.
Proof. vm_compute. done. Qed.

(** * Further properties *)

(** ** The flattener on distinct tags *)

Module FlattenMore.

Import FlattenFacts.

Lemma distinct_item_keys (items : list element) :
  ∀ dicts : gmap string pyval,
    NoDup ((λ c, lower (tag c)) <$> items) →
    (∀ item, item ∈ items → dicts !! lower (tag item) = None) →
    item_keys dicts items = (λ c, lower (tag c)) <$> items.
Proof.
  induction items as [|item rest IH]; intros dicts Hnd Hfree; [done|].
  rewrite fmap_cons in Hnd. apply NoDup_cons in Hnd as [Hnotin Hnd].
  assert (Hkey : unique_key (S (size dicts)) dicts (lower (tag item)) 1
                 = lower (tag item)).
  { apply unique_key_free, Hfree. by left. }
  change (item_keys dicts (item :: rest))
    with (unique_key (S (size dicts)) dicts (lower (tag item)) 1
            :: item_keys (add_item _xml_to_dict dicts item) rest).
  rewrite Hkey, fmap_cons. f_equal.
  apply IH; [done|]. intros other Hother.
  rewrite add_item_insert, Hkey, lookup_insert_ne.
  - apply Hfree. by right.
  - intros Heq. apply Hnotin. rewrite Heq.
    apply list_elem_of_fmap. by exists other.
Qed.

(** The lower-cased tag of an item the loop has handled is a key from then
    on. *)
Lemma fold_add_item_keeps (items : list element) :
  ∀ (dicts : gmap string pyval) (k : string),
    is_Some (dicts !! k) →
    is_Some (fold_left (add_item _xml_to_dict) items dicts !! k).
Proof.
  induction items as [|item rest IH]; intros dicts k Hk; [done|].
  simpl. apply IH. rewrite add_item_insert.
  destruct (decide (unique_key (S (size dicts)) dicts (lower (tag item)) 1 = k))
    as [->|Hne].
  - rewrite lookup_insert_eq. by eexists.
  - by rewrite lookup_insert_ne.
Qed.

Lemma add_item_has_tag (dicts : gmap string pyval) (item : element) :
  is_Some (add_item _xml_to_dict dicts item !! lower (tag item)).
Proof.
  rewrite add_item_insert.
  destruct (dicts !! lower (tag item)) as [v|] eqn:Hlook.
  - destruct (decide (unique_key (S (size dicts)) dicts (lower (tag item)) 1
                      = lower (tag item))) as [->|Hne].
    + rewrite lookup_insert_eq. by eexists.
    + rewrite lookup_insert_ne by done. rewrite Hlook. by eexists.
  - rewrite unique_key_free by done. rewrite lookup_insert_eq. by eexists.
Qed.

Lemma fold_add_item_has_tags (items : list element) :
  ∀ (dicts : gmap string pyval) (item : element),
    item ∈ items →
    is_Some (fold_left (add_item _xml_to_dict) items dicts
               !! lower (tag item)).
Proof.
  induction items as [|first rest IH]; intros dicts item Hin.
  { by apply elem_of_nil in Hin. }
  apply elem_of_cons in Hin as [->|Hin]; simpl.
  - apply fold_add_item_keeps, add_item_has_tag.
  - by apply IH.
Qed.

End FlattenMore.

(** X1. When the children of an element have pairwise distinct lower-cased
    tags, flattening is the plain structural mapping: the keys are the
    lower-cased tags in sibling order, without any suffix, and every child
    is found under its own lower-cased tag. *)
Theorem xml_to_dict_distinct_tags (xml : element) :
  NoDup ((λ c, lower (tag c)) <$> children xml) →
  sibling_keys xml = (λ c, lower (tag c)) <$> children xml
  ∧ ∀ item, item ∈ children xml →
      _xml_to_dict xml !! lower (tag item)
      = Some (match text item with
              | Some s => PStr s
              | None => PDict (_xml_to_dict item)
              end).
Proof.
  intros Hnd.
  assert (Hkeys : sibling_keys xml = (λ c, lower (tag c)) <$> children xml).
  { apply FlattenMore.distinct_item_keys; [done|]. intros. apply lookup_empty. }
  split; [done|]. intros item Hin.
  apply list_elem_of_lookup in Hin as [i Hi].
  rewrite FlattenFacts.xml_to_dict_unfold.
  destruct (FlattenFacts.fold_add_item (children xml) ∅) as (_ & _ & _ & Hval).
  rewrite (Hval i item (lower (tag item)) Hi).
  - unfold item_value. by destruct (text item).
  - fold (sibling_keys xml). rewrite Hkeys, list_lookup_fmap, Hi. done.
Qed.

Lemma xml_to_dict_distinct_tags_witness :
  sibling_keys (Samples.vm_pool "3" "3") = ["vm"]
  ∧ ∀ item, item ∈ children (Samples.vm_pool "3" "3") →
      _xml_to_dict (Samples.vm_pool "3" "3") !! lower (tag item)
      = Some (match text item with
              | Some s => PStr s
              | None => PDict (_xml_to_dict item)
              end).
Proof.
  apply (xml_to_dict_distinct_tags (Samples.vm_pool "3" "3")).
  vm_compute. repeat constructor. set_solver.
Defined.

(** X2. Whatever the tags of the siblings are, the lower-cased tag of every
    child is a key of the flattened mapping: a lookup by tag never misses an
    element that is there. *)
Theorem xml_to_dict_has_every_tag (xml : element) (item : element) :
  item ∈ children xml →
  is_Some (_xml_to_dict xml !! lower (tag item)).
Proof.
  intros Hin. rewrite FlattenFacts.xml_to_dict_unfold.
  by apply FlattenMore.fold_add_item_has_tags.
Qed.

Lemma xml_to_dict_has_every_tag_witness :
  is_Some (_xml_to_dict Samples.three_nics !! "nic").
Proof.
  apply (xml_to_dict_has_every_tag Samples.three_nics
           (Element "NIC" None [Element "IP" (Some "10.0.0.2") []])).
  vm_compute. set_solver.
Defined.

(** ** The flattening listers *)

Module PoolFacts.

Lemma collect_cons (item : element) (rest : list element) (acc : pool) :
  Pool.collect (item :: rest) acc
  = match Lxml.find item "NAME" with
    | Some name =>
        Pool.collect rest (<[text name := PDict (_xml_to_dict item)]> acc)
    | None => Raise AttributeError
    end.
Proof. simpl. unfold Lxml.find_elem. by destruct (Lxml.find item "NAME"). Qed.

(** The loop fails only on an element without [NAME]. *)
Lemma collect_ok (items : list element) :
  ∀ acc, Forall (λ item, is_Some (name_of item)) items →
         ∃ p, Pool.collect items acc = Ok p.
Proof.
  induction items as [|item rest IH]; intros acc Hall; [by eexists|].
  apply Forall_cons in Hall as [[k Hk] Hall]. rewrite collect_cons.
  unfold name_of in Hk. destruct (Lxml.find item "NAME"); [|done].
  by apply IH.
Qed.

Lemma collect_raise (items : list element) :
  ∀ acc, Exists (λ item, name_of item = None) items →
         Pool.collect items acc = Raise AttributeError.
Proof.
  induction items as [|item rest IH]; intros acc Hex.
  { by apply Exists_nil in Hex. }
  rewrite collect_cons. unfold name_of in *.
  destruct (Lxml.find item "NAME") as [name|] eqn:Hname; [|done].
  apply Exists_cons in Hex as [Hbad|Hex]; [by rewrite Hname in Hbad|].
  by apply IH.
Qed.

(** A name no element carries is left as it was. *)
Lemma collect_other (items : list element) (k : option string) :
  ∀ acc p,
    Pool.collect items acc = Ok p →
    (∀ item, item ∈ items → name_of item ≠ Some k) →
    p !! k = acc !! k.
Proof.
  induction items as [|item rest IH]; intros acc p Hrun Hother.
  { by injection Hrun as <-. }
  rewrite collect_cons in Hrun.
  destruct (Lxml.find item "NAME") as [name|] eqn:Hname; [|done].
  rewrite (IH _ _ Hrun).
  - apply lookup_insert_ne. intros Heq. apply (Hother item); [by left|].
    unfold name_of. rewrite Hname. simpl. congruence.
  - intros other Hin. apply Hother. by right.
Qed.

(** The last element that carries a name is the one stored under it. *)
Lemma collect_last (before : list element) :
  ∀ acc p item after k,
    Pool.collect (before ++ item :: after) acc = Ok p →
    name_of item = Some k →
    (∀ later, later ∈ after → name_of later ≠ Some k) →
    p !! k = Some (PDict (_xml_to_dict item)).
Proof.
  induction before as [|first before IH]; intros acc p item after k Hrun Hk Hlater.
  - change ([] ++ item :: after) with (item :: after) in Hrun.
    rewrite collect_cons in Hrun. unfold name_of in Hk.
    destruct (Lxml.find item "NAME") as [name|]; [|done].
    injection Hk as <-. rewrite (collect_other _ _ _ _ Hrun Hlater).
    apply lookup_insert_eq.
  - change ((first :: before) ++ item :: after)
      with (first :: (before ++ item :: after)) in Hrun.
    rewrite collect_cons in Hrun.
    destruct (Lxml.find first "NAME"); [|done]. by eapply IH.
Qed.

Lemma collect_keys (items : list element) :
  ∀ acc p k,
    Pool.collect items acc = Ok p →
    (is_Some (p !! k)
     ↔ is_Some (acc !! k) ∨ ∃ item, item ∈ items ∧ name_of item = Some k).
Proof.
  induction items as [|item rest IH]; intros acc p k Hrun.
  { injection Hrun as <-. set_solver. }
  rewrite collect_cons in Hrun.
  destruct (Lxml.find item "NAME") as [name|] eqn:Hname; [|done].
  rewrite (IH _ _ k Hrun). rewrite lookup_insert_is_Some.
  assert (Hitem : name_of item = Some (text name)).
  { unfold name_of. by rewrite Hname. }
  split.
  - intros [[<-|[_ Hacc]]|(other & Hin & Hk)].
    + right. exists item. split; [by left|done].
    + by left.
    + right. exists other. split; [by right|done].
  - intros [Hacc|(other & [->|Hin]%elem_of_cons & Hk)].
    + destruct (decide (text name = k)); [by left; left|by left; right].
    + left. left. rewrite Hitem in Hk. by injection Hk.
    + right. by exists other.
Qed.

(** Every flattening lister is its one request followed by the flattening
    of the answer. *)
Lemma lister_run (H : host) (t : list event) (server auth method : string)
    (args : list pyval) (lister : M pool) :
  connected H server auth →
  (method, args, lister) ∈ pool_listers H →
  lister t
  = (let? response := xmlrpc H t server method (PStr auth :: args) in
     pool_of_response H response,
     [Rpc server method (PStr auth :: args)]).
Proof.
  intros (user & password & Hrpc & Hjoin) Hin.
  unfold pool_listers in Hin.
  repeat (apply elem_of_cons in Hin as [[= -> -> ->]|Hin]);
    [..|by apply elem_of_nil in Hin];
    unfold avail_images, avail_locations, _list_images,
      _list_security_groups, _list_templates, _list_vms, _list_vns,
      or_get_xml_rpc; simpl;
    rewrite Hrpc, Run.bind_lift_ok; cbn beta iota;
    rewrite Hjoin, Run.bind_lift_ok;
    apply ListerFacts.request_pool.
Qed.

End PoolFacts.

(** X3. With the provider configured, each of the seven flattening listers
    ([avail_images], [avail_locations], [_list_images],
    [_list_security_groups], [_list_templates], [_list_vms], [_list_vns])
    sends exactly one request, its pool request with the credentials first,
    whatever the server answers and whether the lister returns or raises. *)
Theorem lister_sends_one_request (H : host) (t : list event)
    (server auth method : string) (args : list pyval) (lister : M pool) :
  connected H server auth →
  (method, args, lister) ∈ pool_listers H →
  (lister t).2 = [Rpc server method (PStr auth :: args)].
Proof.
  intros Hconnected Hlister.
  by rewrite (PoolFacts.lister_run H t server auth method args).
Qed.

Section PoolListers.

Context (H : host) (t : list event) (server auth method : string).
Context (args : list pyval) (lister : M pool).
Context (Hconnected : connected H server auth).
Context (Hlister : (method, args, lister) ∈ pool_listers H).
Context (root : element).
Context (Hanswer : answers_pool H t server method (PStr auth :: args) root).

Lemma lister_collects :
  (lister t).1 = Pool.collect (children root) ∅.
Proof.
  destruct Hanswer as (response & document & Hresponse & Hdoc & Hroot).
  rewrite (PoolFacts.lister_run H t server auth method args) by done.
  simpl. rewrite Hresponse. simpl. unfold pool_of_response.
  rewrite Hdoc. simpl. by rewrite Hroot.
Qed.

(** X4. The mapping a flattening lister returns has exactly the names of
    the pool's elements (the text of their [NAME] child) as keys, and under
    each name the flattening of the last element that carries it: an
    element whose name is repeated later in the pool is shadowed. *)
Theorem lister_keys_are_names (p : pool) :
  (lister t).1 = Ok p →
  (∀ k, is_Some (p !! k)
        ↔ ∃ item, item ∈ children root ∧ name_of item = Some k)
  ∧ (∀ before item after k,
       children root = before ++ item :: after →
       name_of item = Some k →
       (∀ later, later ∈ after → name_of later ≠ Some k) →
       p !! k = Some (PDict (_xml_to_dict item))).
Proof.
  rewrite lister_collects. intros Hrun. split.
  - intros k. rewrite (PoolFacts.collect_keys _ _ _ k Hrun).
    rewrite lookup_empty. split; [|by right].
    intros [[? [=]]|?]; done.
  - intros before item after k Hsplit Hk Hlater. rewrite Hsplit in Hrun.
    by eapply PoolFacts.collect_last.
Qed.

(** X5. A flattening lister raises [AttributeError] exactly when some
    element of the pool has no [NAME] child; otherwise it returns a
    mapping. *)
Theorem lister_needs_names :
  ((lister t).1 = Raise AttributeError
   ↔ Exists (λ item, name_of item = None) (children root))
  ∧ (Forall (λ item, is_Some (name_of item)) (children root) →
     ∃ p, (lister t).1 = Ok p).
Proof.
  rewrite lister_collects. split; [split|].
  - intros Hraise.
    destruct (decide (Exists (λ item, name_of item = None) (children root)))
      as [|Hnone]; [done|].
    apply not_Exists_Forall in Hnone; [|apply _].
    destruct (PoolFacts.collect_ok (children root) ∅) as [p Hp]; [|congruence].
    eapply Forall_impl; [exact Hnone|]. intros item Hitem. simpl in Hitem.
    by destruct (name_of item); [eexists|].
  - apply PoolFacts.collect_raise.
  - apply PoolFacts.collect_ok.
Qed.

End PoolListers.

Lemma lister_sends_one_request_witness :
  (_list_templates nameless_cloud None PNone PNone []).2
  = [Rpc Samples.endpoint "one.templatepool.info"
       (PStr Samples.credentials :: wildcard)].
Proof.
  apply (lister_sends_one_request nameless_cloud [] Samples.endpoint
           Samples.credentials "one.templatepool.info" wildcard).
  - exists (PStr "oneadmin"), (PStr "secret"). split; reflexivity.
  - unfold pool_listers. set_solver.
Defined.

Lemma lister_keys_are_names_witness :
  ∃ p, (avail_images (Samples.cloud "3" "3") None []).1 = Ok p
       ∧ p !! Some "ubuntu"
         = Some (PDict (_xml_to_dict
             (Element "IMAGE" None
                [Samples.leaf "ID" "7"; Samples.leaf "NAME" "ubuntu"]))).
Proof.
  destruct (avail_images (Samples.cloud "3" "3") None []).1 as [p|e] eqn:Hp;
    [|vm_compute in Hp; discriminate].
  exists p. split; [reflexivity|].
  eapply (lister_keys_are_names (Samples.cloud "3" "3") [] Samples.endpoint
            Samples.credentials "one.imagepool.info" wildcard
            (avail_images (Samples.cloud "3" "3") None)
            ltac:(exists (PStr "oneadmin"), (PStr "secret");
                  split; reflexivity)
            ltac:(unfold pool_listers; set_solver)
            Samples.image_pool
            ltac:(eexists _, _; split_and!; reflexivity)
            p Hp) with (before := []) (after := []).
  - reflexivity.
  - reflexivity.
  - intros later Hin. by apply elem_of_nil in Hin.
Defined.

Lemma lister_needs_names_witness :
  (_list_images nameless_cloud None PNone PNone []).1 = Raise AttributeError.
Proof.
  apply (lister_needs_names nameless_cloud [] Samples.endpoint
           Samples.credentials "one.imagepool.info" wildcard
           (_list_images nameless_cloud None PNone PNone)
           ltac:(exists (PStr "oneadmin"), (PStr "secret");
                 split; reflexivity)
           ltac:(unfold pool_listers; set_solver)
           nameless_pool
           ltac:(eexists _, _; split_and!; reflexivity)).
  apply Exists_cons_tl, Exists_cons_hd. reflexivity.
Defined.

(** ** The VM lister in its two modes *)

Module NodesFacts.

Section WithHost.

Context (H : host).

Lemma item_modes (vf vs : pool) (vm : element) :
  dom vf = dom vs →
  agree (_list_nodes_item true vf vm) (_list_nodes_item false vs vm).
Proof.
  intros Hdom. unfold _list_nodes_item.
  destruct (Lxml.find_elem vm "NAME") as [name_elem|]; simpl; [|done].
  destruct (Lxml.find_elem vm "TEMPLATE") as [template|]; simpl; [|done].
  destruct (Lxml.find_text template "CPU"); simpl; [|done].
  destruct (Lxml.find_text template "MEMORY"); simpl; [|done].
  destruct (nic_ips (Lxml.findall template "NIC")); simpl; [|done].
  destruct (Lxml.find_text vm "ID"); simpl; [|done].
  destruct (Lxml.find_text template "TEMPLATE_ID"); simpl; [|done].
  destruct (Lxml.find_text vm "STATE"); simpl; [|done].
  by rewrite !dom_insert_L, Hdom.
Qed.

Lemma loop_modes (items : list element) :
  ∀ vf vs : pool,
    dom vf = dom vs →
    agree (_list_nodes_loop true items vf) (_list_nodes_loop false items vs).
Proof.
  induction items as [|vm rest IH]; intros vf vs Hdom; [done|].
  simpl. pose proof (item_modes vf vs vm Hdom) as Hitem.
  unfold agree in Hitem.
  destruct (_list_nodes_item true vf vm), (_list_nodes_item false vs vm);
    simpl; try done.
  by apply IH.
Qed.

End WithHost.

End NodesFacts.

(** X6. On the same pool the full and the summary VM listing send the same
    request and agree: either both return, with the same VM names as keys,
    or both raise the same error.  In particular the full listing also
    raises [AttributeError] on a VM without [TEMPLATE], [CPU], [MEMORY],
    [TEMPLATE_ID], [ID], [STATE] or with a [NIC] without [IP], although it
    stores none of these fields itself. *)
Theorem list_nodes_modes_agree (H : host) (t : list event) :
  (_list_nodes H true t).2 = (_list_nodes H false t).2
  ∧ agree (_list_nodes H true t).1 (_list_nodes H false t).1.
Proof.
  unfold _list_nodes.
  destruct (_get_xml_rpc H) as [[[server user] password]|e];
    [rewrite !Run.bind_lift_ok|done]; cbn beta iota.
  destruct (Py.join_colon user password) as [auth|e];
    [rewrite !Run.bind_lift_ok|done].
  unfold bind, rpc, lift.
  destruct (xmlrpc H t server "one.vmpool.info" _) as [response|e];
    simpl; [|done].
  split; [done|].
  destruct (Py.getindex response 1) as [vm_pool|e]; simpl; [|done].
  destruct (etree_XML H vm_pool) as [root|e]; simpl; [|done].
  by apply NodesFacts.loop_modes.
Qed.

(** A VM without [TEMPLATE] makes the full listing fail although every
    field it would store is there. *)
Example list_nodes_full_needs_template :
  _list_nodes_loop true
    [Element "VM" None [Samples.leaf "ID" "42"; Samples.leaf "NAME" "web1"]] ∅
  = Raise AttributeError.
Proof. reflexivity. Qed.

(** ** The bounded-retry lookup when the name shows up *)

Section NodeAppears.

Context (H : host) (name node : pyval).

(** X7. When the full VM listing already holds the name, [_get_node]
    returns its record from the first attempt: one pool request and no
    sleep. *)
Theorem get_node_first_attempt (t : list event) (nodes : pool)
    (evs : list event) :
  list_nodes_full H None t = (Ok nodes, evs) →
  Pool.getitem nodes name = Ok node →
  _get_node H name t = (Ok node, evs)
  ∧ count_rpc "one.vmpool.info" evs = 1%nat
  ∧ count_sleep evs = 0%nat.
Proof.
  intros Hlist Hget. split; [|by eapply RetryFacts.list_nodes_full_events].
  apply RetryFacts.get_node_loop_found; [lia|].
  unfold node_attempt. rewrite (Run.bind_ok _ _ _ _ _ Hlist).
  unfold lift. rewrite Hget. simpl. by rewrite app_nil_r.
Qed.

Lemma node_attempt_at (k : nat) (t : list event) :
  appears_after H name node k →
  ∃ evs,
    node_attempt H name t
    = (if decide (count_sleep t < k)%nat then Raise (KeyError name)
       else Ok node, evs)
    ∧ count_rpc "one.vmpool.info" evs = 1%nat
    ∧ count_sleep evs = 0%nat.
Proof.
  intros Happears. destruct (Happears t) as (nodes & evs & Hlist & Hget).
  exists evs. split; [|by eapply RetryFacts.list_nodes_full_events].
  unfold node_attempt. rewrite (Run.bind_ok _ _ _ _ _ Hlist).
  unfold lift. rewrite Hget. simpl. by rewrite app_nil_r.
Qed.

Lemma get_node_loop_appears (k : nat) :
  appears_after H name node k →
  ∀ (d : nat) (attempts : Z) (t : list event),
    (count_sleep t + d = k)%nat →
    Z.of_nat d <= attempts →
    ∃ evs,
      _get_node_loop H name attempts t = (Ok node, evs)
      ∧ count_rpc "one.vmpool.info" evs = S d
      ∧ count_sleep evs = d.
Proof.
  intros Happears. induction d as [|d IH]; intros attempts t Hk Hattempts.
  - destruct (node_attempt_at k t Happears) as (evs & Hrun & Hrpc & Hsleep).
    destruct (decide (count_sleep t < k)%nat); [lia|].
    exists evs. split; [|done].
    apply RetryFacts.get_node_loop_found; [lia|done].
  - destruct (node_attempt_at k t Happears) as (evs & Hrun & Hrpc & Hsleep).
    destruct (decide (count_sleep t < k)%nat); [|lia].
    erewrite RetryFacts.get_node_loop_retry; [|lia|exact Hrun].
    destruct (IH (attempts - 1) (t ++ evs ++ [Sleep (1 # 2)]))
      as (evs' & -> & Hrpc' & Hsleep'); [|lia|].
    { rewrite !RetryFacts.count_sleep_app, Hsleep.
      unfold count_sleep at 2. simpl. lia. }
    eexists. split; [done|]. simpl.
    rewrite RetryFacts.count_rpc_app, RetryFacts.count_sleep_app, Hrpc, Hsleep.
    unfold count_rpc, count_sleep in *. simpl. lia.
Qed.

(** X8. When the VM is missing from the pool until [k] sleeps have gone by
    and there from then on, with [k] at most 10, [_get_node] started with no
    sleep behind it returns the VM's record after [k] failed attempts:
    [k + 1] pool requests and [k] sleeps of half a time unit. *)
Theorem get_node_after_delay (k : nat) (t : list event) :
  appears_after H name node k →
  (k ≤ 10)%nat →
  count_sleep t = 0%nat →
  ∃ evs,
    _get_node H name t = (Ok node, evs)
    ∧ count_rpc "one.vmpool.info" evs = S k
    ∧ count_sleep evs = k.
Proof.
  intros Happears Hk Ht. unfold _get_node.
  apply (get_node_loop_appears k Happears k 10 t); lia.
Qed.

End NodeAppears.

(** X9. When the name is missing from the VM pool on every attempt,
    [_get_node] does not raise: it returns the empty record, having slept
    once after each of its pool requests. *)
Theorem get_node_gives_up (H : host) (name : pyval) (t : list event) :
  always_absent H name →
  ∃ evs,
    _get_node H name t = (Ok (PDict ∅), evs)
    ∧ count_sleep evs = count_rpc "one.vmpool.info" evs.
Proof.
  intros Habsent.
  destruct (RetryFacts.get_node_absent H name Habsent t)
    as (evs & Hrun & Hrpc & Hsleep).
  exists evs. split; [done|]. by rewrite Hrpc, Hsleep.
Qed.

(** The full and the summary listing are the one pool request followed by
    the loop over the answer. *)
Lemma list_nodes_run (H : host) (full : bool) (t : list event)
    (server auth : string) :
  connected H server auth →
  _list_nodes H full t
  = (let? response :=
       xmlrpc H t server "one.vmpool.info"
         (PStr auth :: wildcard ++ [PInt (-1)]) in
     let? vm_pool := Py.getindex response 1 in
     let? root := etree_XML H vm_pool in
     _list_nodes_loop full (children root) ∅,
     [Rpc server "one.vmpool.info" (PStr auth :: wildcard ++ [PInt (-1)])]).
Proof.
  intros (user & password & Hrpc & Hjoin). unfold _list_nodes.
  rewrite Hrpc, Run.bind_lift_ok; cbn beta iota.
  rewrite Hjoin, Run.bind_lift_ok.
  unfold bind, rpc, lift. by destruct (xmlrpc H t server _ _).
Qed.
Lemma get_node_first_attempt_witness :
  ∃ node evs,
    _get_node (Samples.cloud "3" "3") (PStr "web1") [] = (Ok node, evs)
    ∧ count_rpc "one.vmpool.info" evs = 1%nat
    ∧ count_sleep evs = 0%nat.
Proof.
  eexists _, _.
  eapply (get_node_first_attempt (Samples.cloud "3" "3") (PStr "web1") _ []);
    vm_compute; reflexivity.
Defined.

Lemma get_node_after_delay_witness :
  ∃ node evs,
    _get_node (slow_cloud 2) (PStr "web1") [] = (Ok node, evs)
    ∧ count_rpc "one.vmpool.info" evs = 3%nat
    ∧ count_sleep evs = 2%nat.
Proof.
  eexists.
  apply (get_node_after_delay (slow_cloud 2) (PStr "web1") _ 2 []);
    [|lia|reflexivity].
  intros t.
  change (list_nodes_full (slow_cloud 2) None t)
    with (_list_nodes (slow_cloud 2) true t).
  rewrite (list_nodes_run (slow_cloud 2) true t Samples.endpoint
             Samples.credentials)
    by (exists (PStr "oneadmin"), (PStr "secret"); split; reflexivity).
  cbn [xmlrpc slow_cloud].
  destruct (decide (count_sleep t < 2)%nat);
    eexists _, _; (split; vm_compute; reflexivity).
Defined.

Lemma get_node_gives_up_witness :
  ∃ evs,
    _get_node Samples.empty_cloud (PStr "web1") [] = (Ok (PDict ∅), evs)
    ∧ count_sleep evs = count_rpc "one.vmpool.info" evs.
Proof.
  apply (get_node_gives_up Samples.empty_cloud (PStr "web1") []).
  intros t. eexists _, _. split; vm_compute; reflexivity.
Defined.

Section DestroyUnresolved.

Context (H : host) (name : pyval) (call : option string) (t : list event).
Context (server auth : string).
Context (Hcall : Py.call_is call "function" = false).
Context (Hconnected : connected H server auth).
Context (Habsent : always_absent H name).

(** X10. When the name never resolves, [destroy] does not reach the
    provider's delete action: after the [destroying instance] event and the
    lookup it caches the empty record, raises [KeyError] for the key [id]
    and sends no [one.vm.action] request. *)
Theorem destroy_unresolved :
  ∃ evs,
    destroy H name call t = (Raise (KeyError (PStr "id")), evs)
    ∧ head evs = Some (destroying_instance H name)
    ∧ last evs = Some (CacheNode (PDict ∅))
    ∧ count_rpc "one.vm.action" evs = 0%nat.
Proof.
  destruct Hconnected as (user & password & Hrpc & Hjoin).
  destruct (RetryFacts.get_node_absent H name Habsent
              (t ++ [destroying_instance H name]))
    as (lookup & Hnode & _).
  pose proof (DestroyFacts.get_node_no_action H name
                (t ++ [destroying_instance H name])) as Hlookup.
  rewrite Hnode in Hlookup. simpl in Hlookup.
  exists (destroying_instance H name :: lookup ++ [CacheNode (PDict ∅)]).
  split_and!.
  - unfold destroy, fire_event. rewrite Hcall.
    apply Run.bind_emit_eq.
    rewrite Hrpc, Run.bind_lift_ok. cbn beta iota.
    rewrite Hjoin, Run.bind_lift_ok.
    eapply Run.bind_ok_quiet.
    + unfold show_instance, bind, emit, ret, lift. simpl.
      fold (destroying_instance H name). by rewrite Hnode.
    + done.
  - done.
  - by rewrite app_comm_cons, last_snoc.
  - change (destroying_instance H name :: ?l)
      with ([destroying_instance H name] ++ l).
    by rewrite !RetryFacts.count_rpc_app, Hlookup.
Qed.

End DestroyUnresolved.

Lemma destroy_unresolved_witness :
  ∃ evs,
    destroy Samples.empty_cloud (PStr "web1") None []
    = (Raise (KeyError (PStr "id")), evs)
    ∧ head evs = Some (destroying_instance Samples.empty_cloud (PStr "web1"))
    ∧ last evs = Some (CacheNode (PDict ∅))
    ∧ count_rpc "one.vm.action" evs = 0%nat.
Proof.
  apply (destroy_unresolved Samples.empty_cloud (PStr "web1") None []
           Samples.endpoint Samples.credentials).
  - reflexivity.
  - exists (PStr "oneadmin"), (PStr "secret"). split; reflexivity.
  - intros t. eexists _, _. split; vm_compute; reflexivity.
Defined.

(** ** Call contexts and missing arguments *)

Module RefusalFacts.

Lemma raise_refused {A} (message : string) :
  refused (raise (A := A) (SaltCloudSystemExit message)).
Proof. intros t. by exists message. Qed.

Lemma kwget_none (k : string) : Py.kwget (kwargs_or_empty None) k = PNone.
Proof. done. Qed.

End RefusalFacts.

#[local] Ltac refuse Hcall :=
  intros t; eexists;
  unfold image_allocate, image_clone, image_delete, image_info,
    image_persistent, image_update, secgroup_allocate, secgroup_clone,
    secgroup_delete, secgroup_info, secgroup_update, template_allocate,
    template_clone, template_instantiate, template_update, vm_action,
    vm_allocate, vm_info, vm_monitoring, show_instance, vn_add_ar,
    vn_allocate, vn_delete, vn_free_ar, vn_hold, vn_info, vn_release,
    vn_reserve, get_image_id, get_secgroup_id, get_template_id, get_vm_id,
    get_vn_id, avail_images, avail_locations, list_nodes_full, destroy,
    template_delete;
  rewrite ?RefusalFacts.kwget_none, ?Hcall; reflexivity.

(** X11. The call context each operation insists on.  The image, template,
    VM and network operations below and the three update operations are
    refused with [SaltCloudSystemExit], before anything is read or sent,
    for every call context other than [function], the missing one included;
    the VM actions are refused for every call context other than [action];
    the security group and template operations that only test for [action],
    the identifier lookups and the listings are refused for [action] alone,
    and [destroy] for [function] alone. *)
Theorem call_context_refusals (H : host) (is_true : pyval → bool)
    (call : option string) (kwargs : option (gmap string pyval))
    (name action : pyval) :
  (Py.call_is call "function" = false →
   refused (image_allocate H call kwargs)
   ∧ refused (image_clone H call kwargs)
   ∧ refused (image_delete H call kwargs)
   ∧ refused (image_info H call kwargs)
   ∧ refused (image_persistent H is_true call kwargs)
   ∧ refused (image_update H call kwargs)
   ∧ refused (secgroup_allocate H call kwargs)
   ∧ refused (secgroup_update H call kwargs)
   ∧ refused (template_allocate H call kwargs)
   ∧ refused (template_update H call kwargs)
   ∧ refused (vm_allocate H is_true call kwargs)
   ∧ refused (vn_add_ar H call kwargs)
   ∧ refused (vn_allocate H call kwargs)
   ∧ refused (vn_delete H call kwargs)
   ∧ refused (vn_free_ar H call kwargs)
   ∧ refused (vn_hold H call kwargs)
   ∧ refused (vn_info H call kwargs)
   ∧ refused (vn_release H call kwargs)
   ∧ refused (vn_reserve H call kwargs))
  ∧ (Py.call_is call "action" = false →
     refused (vm_action H name action call)
     ∧ refused (vm_info H name call)
     ∧ refused (vm_monitoring H name call)
     ∧ refused (show_instance H name call))
  ∧ (Py.call_is call "action" = true →
     refused (secgroup_clone H call kwargs)
     ∧ refused (secgroup_delete H call kwargs)
     ∧ refused (secgroup_info H call kwargs)
     ∧ refused (template_clone H call kwargs)
     ∧ refused (template_instantiate H call kwargs)
     ∧ refused (get_image_id H kwargs call)
     ∧ refused (get_secgroup_id H kwargs call)
     ∧ refused (get_template_id H kwargs call)
     ∧ refused (get_vm_id H kwargs call)
     ∧ refused (get_vn_id H kwargs call)
     ∧ refused (avail_images H call)
     ∧ refused (avail_locations H call)
     ∧ refused (list_nodes_full H call))
  ∧ (Py.call_is call "function" = true → refused (destroy H name call)).
Proof.
  split_and!; intros Hcall; split_and?; refuse Hcall.
Qed.

Lemma call_context_refusals_witness :
  refused (image_clone Samples.empty_cloud None None)
  ∧ refused (vm_info Samples.empty_cloud (PStr "web1") (Some "function"))
  ∧ refused (secgroup_clone Samples.empty_cloud (Some "action") None)
  ∧ refused (destroy Samples.empty_cloud (PStr "web1") (Some "function")).
Proof.
  split_and!.
  - apply (call_context_refusals Samples.empty_cloud (λ _, false) None None
             PNone PNone). reflexivity.
  - apply (call_context_refusals Samples.empty_cloud (λ _, false)
             (Some "function") None (PStr "web1") PNone). reflexivity.
  - apply (call_context_refusals Samples.empty_cloud (λ _, false)
             (Some "action") None PNone PNone). reflexivity.
  - apply (call_context_refusals Samples.empty_cloud (λ _, false)
             (Some "function") None (PStr "web1") PNone). reflexivity.
Defined.

(** X12. Thirty operations of the driver take keyword arguments.  Called in
    an accepted call context with the keyword arguments left out
    ([kwargs] is [None]), twenty-nine of them are refused with
    [SaltCloudSystemExit] before anything is read or sent:
    [image_allocate], [image_clone], [image_delete], [image_info],
    [image_persistent], [image_update], [secgroup_allocate],
    [secgroup_update], [template_allocate], [template_update],
    [vm_allocate], [vn_add_ar], [vn_allocate], [vn_delete], [vn_free_ar],
    [vn_hold], [vn_info], [vn_release], [vn_reserve], [secgroup_clone],
    [secgroup_delete], [secgroup_info], [template_clone],
    [template_instantiate], [get_image_id], [get_template_id],
    [get_vm_id], [get_vn_id] and [template_delete].  The thirtieth,
    [get_secgroup_id], is not refused: with the provider configured it
    sends its pool request. *)
Theorem operations_without_kwargs (H : host) (is_true : pyval → bool)
    (call : option string) :
  Py.call_is call "action" = false →
  refused (image_allocate H (Some "function") None)
  ∧ refused (image_clone H (Some "function") None)
  ∧ refused (image_delete H (Some "function") None)
  ∧ refused (image_info H (Some "function") None)
  ∧ refused (image_persistent H is_true (Some "function") None)
  ∧ refused (image_update H (Some "function") None)
  ∧ refused (secgroup_allocate H (Some "function") None)
  ∧ refused (secgroup_update H (Some "function") None)
  ∧ refused (template_allocate H (Some "function") None)
  ∧ refused (template_update H (Some "function") None)
  ∧ refused (vm_allocate H is_true (Some "function") None)
  ∧ refused (vn_add_ar H (Some "function") None)
  ∧ refused (vn_allocate H (Some "function") None)
  ∧ refused (vn_delete H (Some "function") None)
  ∧ refused (vn_free_ar H (Some "function") None)
  ∧ refused (vn_hold H (Some "function") None)
  ∧ refused (vn_info H (Some "function") None)
  ∧ refused (vn_release H (Some "function") None)
  ∧ refused (vn_reserve H (Some "function") None)
  ∧ refused (secgroup_clone H call None)
  ∧ refused (secgroup_delete H call None)
  ∧ refused (secgroup_info H call None)
  ∧ refused (template_clone H call None)
  ∧ refused (template_instantiate H call None)
  ∧ refused (get_image_id H None call)
  ∧ refused (get_template_id H None call)
  ∧ refused (get_vm_id H None call)
  ∧ refused (get_vn_id H None call)
  ∧ refused (template_delete H call None)
  ∧ (∀ server auth,
       connected H server auth →
       ¬ refused (get_secgroup_id H None call)
       ∧ ∀ t,
           (get_secgroup_id H None call t).2
           = [Rpc server "one.secgrouppool.info" (PStr auth :: wildcard)]).
Proof.
  intros Hcall. split_and!; try refuse Hcall.
  intros server auth Hconnected.
  assert (Hevents : ∀ t,
    (get_secgroup_id H None call t).2
    = [Rpc server "one.secgrouppool.info" (PStr auth :: wildcard)]).
  { intros t. unfold get_secgroup_id. rewrite Hcall. unfold bind.
    rewrite (PoolFacts.lister_run H t server auth "one.secgrouppool.info"
               wildcard)
      by (done || (unfold pool_listers; set_solver)).
    destruct (let? response := xmlrpc H t server _ _ in
              pool_of_response H response) as [groups|e]; [|done].
    by unfold lift. }
  split; [|exact Hevents].
  intros Hrefused. destruct (Hrefused []) as [msg Hrun].
  specialize (Hevents []). by rewrite Hrun in Hevents.
Qed.

Lemma operations_without_kwargs_witness :
  refused (vn_hold Samples.empty_cloud (Some "function") None)
  ∧ refused (template_instantiate Samples.empty_cloud None None)
  ∧ refused (template_delete Samples.empty_cloud None None)
  ∧ (get_secgroup_id Samples.empty_cloud None None []).2
    = [Rpc Samples.endpoint "one.secgrouppool.info"
         (PStr Samples.credentials :: wildcard)].
Proof.
  pose proof (operations_without_kwargs Samples.empty_cloud (λ _, false)
                None eq_refl) as Hall.
  split_and!; [apply Hall..|].
  apply Hall. exists (PStr "oneadmin"), (PStr "secret"). split; reflexivity.
Defined.

(** ** Operations that send one request *)

Module RequestFacts.

Lemma kwget_some (kwargs : gmap string pyval) (k : string) (v : pyval) :
  kwargs !! k = Some v → Py.kwget kwargs k = v.
Proof. unfold Py.kwget. by intros ->. Qed.

(** A request followed by the record built from its answer. *)
Lemma request_record (H : host) (server method : string) (args : list pyval)
    (record : pyval → result pyval) t :
  (let* response := rpc H server method args in lift (record response)) t
  = (let? response := xmlrpc H t server method args in record response,
     [Rpc server method args]).
Proof.
  unfold bind, rpc, lift. by destruct (xmlrpc H t server method args).
Qed.

Lemma read_file_ok {A} (H : host) (path data : pyval) (k : pyval → M A) t :
  fopen_read H t path = Ok data →
  (let* file_data := read_file H path in k file_data) t
  = ((k data (t ++ [ReadFile path])).1,
     ReadFile path :: (k data (t ++ [ReadFile path])).2).
Proof.
  intros Hread. unfold bind, read_file. rewrite Hread.
  by destruct (k data (t ++ [ReadFile path])).
Qed.

Lemma read_file_raise {A} (H : host) (path : pyval) (e : exn)
    (k : pyval → M A) t :
  fopen_read H t path = Raise e →
  (let* file_data := read_file H path in k file_data) t
  = (Raise e, [ReadFile path]).
Proof. intros Hread. unfold bind, read_file. by rewrite Hread. Qed.

End RequestFacts.

(** X13. Given a name and an identifier that reads as the integer [n], each
    of [image_clone], [secgroup_clone], [template_clone] and
    [template_instantiate] sends exactly one request, [n] and the name after
    the credential string, and returns the three slots of the answer
    together with the name it was given, whatever the flag in the first
    slot says: a failure the provider reports is returned, not raised. *)
Theorem named_operation_run (H : host) (t : list event)
    (server auth method name_key id_key : string)
    (action flag_key new_id_key new_name_key : string)
    (op : option string → option (gmap string pyval) → M pyval)
    (kwargs : gmap string pyval) (name id : pyval) (n : Z)
    (flag new_id error_code : pyval) :
  (method, (name_key, id_key),
   (action, flag_key, new_id_key, new_name_key), op) ∈ named_operations H →
  connected H server auth →
  kwargs !! name_key = Some name →
  Py.truthy name = true →
  kwargs !! id_key = Some id →
  Py.truthy id = true →
  Py.int id = Ok n →
  xmlrpc H t server method [PStr auth; PInt n; name]
  = Ok (PList [flag; new_id; error_code]) →
  op (Some "function") (Some kwargs) t
  = (Ok (PDict (<["action" := PStr action]>
               (<[flag_key := flag]>
               (<[new_id_key := new_id]>
               (<[new_name_key := name]>
               (<["error_code" := error_code]> ∅)))))),
     [Rpc server method [PStr auth; PInt n; name]]).
Proof.
  intros Hop (user & password & Hrpc & Hjoin) Hname Hname_given Hid
    Hid_given Hint Hanswer.
  unfold named_operations in Hop.
  repeat (apply elem_of_cons in Hop as [[= -> -> -> -> -> -> -> ->]|Hop]);
    [..|by apply elem_of_nil in Hop];
    unfold image_clone, secgroup_clone, template_clone, template_instantiate;
    simpl;
    rewrite (RequestFacts.kwget_some _ _ _ Hname),
      (RequestFacts.kwget_some _ _ _ Hid), Hname_given, Hid_given; simpl;
    rewrite Hrpc, Run.bind_lift_ok; cbn beta iota;
    rewrite Hjoin, Run.bind_lift_ok, Hint, Run.bind_lift_ok;
    by rewrite RequestFacts.request_record, Hanswer.
Qed.

Lemma named_operation_run_witness :
  image_clone Samples.empty_cloud (Some "function")
    (Some (clone_kwargs "image_id")) []
  = (Ok (PDict (<["action" := PStr "image.clone"]>
               (<["cloned" := PBool true]>
               (<["cloned_image_id" := PStr "<POOL/>"]>
               (<["cloned_image_name" := PStr "copy"]>
               (<["error_code" := PInt 0]> ∅)))))),
     [Rpc Samples.endpoint "one.image.clone"
        [PStr Samples.credentials; PInt 7; PStr "copy"]]).
Proof.
  apply (named_operation_run Samples.empty_cloud [] Samples.endpoint
           Samples.credentials "one.image.clone" "name" "image_id"
           "image.clone" "cloned" "cloned_image_id" "cloned_image_name"
           (image_clone Samples.empty_cloud) (clone_kwargs "image_id")
           (PStr "copy") (PStr "7") 7).
  - set_solver.
  - exists (PStr "oneadmin"), (PStr "secret"). split; reflexivity.
  - reflexivity.
  - reflexivity.
  - reflexivity.
  - reflexivity.
  - reflexivity.
  - reflexivity.
Defined.

Section FileOperations.

Context (H : host) (is_true : pyval → bool) (t : list event).
Context (kwargs : gmap string pyval) (path : pyval) (e : exn).
Context (Hpath : kwargs !! "path" = Some path).
Context (Hpath_given : Py.truthy path = true).
Context (Hunreadable : fopen_read H t path = Raise e).

#[local] Abbreviation stops_at_file op :=
  (op (Some "function") (Some kwargs) t = (Raise e, [ReadFile path])).

(** X14. When the file named by [path] cannot be read, each of the nine
    operations that send a file (the five [allocate] operations and the
    four address range operations) raises the error of the read right
    after it and sends no request; the operations that also insist on
    [datastore_id] or [vn_id] do so once they have it. *)
Theorem unreadable_file :
  stops_at_file (secgroup_allocate H)
  ∧ stops_at_file (template_allocate H)
  ∧ stops_at_file (vm_allocate H is_true)
  ∧ stops_at_file (vn_allocate H)
  ∧ stops_at_file (vn_add_ar H)
  ∧ (Py.truthy (Py.kwget kwargs "datastore_id") = true →
     stops_at_file (image_allocate H))
  ∧ (Py.truthy (Py.kwget kwargs "vn_id") = true →
     stops_at_file (vn_hold H)
     ∧ stops_at_file (vn_release H)
     ∧ stops_at_file (vn_reserve H)).
Proof.
  split_and!; try intros Hgiven; split_and?;
    unfold secgroup_allocate, template_allocate, vm_allocate, vn_allocate,
      vn_add_ar, image_allocate, vn_hold, vn_release, vn_reserve;
    simpl; rewrite (RequestFacts.kwget_some _ _ _ Hpath), Hpath_given;
    try (unfold kwargs_or_empty; simpl; rewrite Hgiven);
    rewrite ?andb_false_r; simpl;
    by apply RequestFacts.read_file_raise.
Qed.

End FileOperations.

Lemma unreadable_file_witness :
  vn_add_ar unreadable_cloud (Some "function") (Some range_kwargs) []
  = (Raise (OtherError "IOError"), [ReadFile (PStr "/srv/range.txt")])
  ∧ vn_hold unreadable_cloud (Some "function") (Some range_kwargs) []
    = (Raise (OtherError "IOError"), [ReadFile (PStr "/srv/range.txt")]).
Proof.
  pose proof (unreadable_file unreadable_cloud (λ _, false) [] range_kwargs
                (PStr "/srv/range.txt") (OtherError "IOError")
                eq_refl eq_refl eq_refl)
    as (_ & _ & _ & _ & Hadd & _ & Hrange).
  split; [exact Hadd|]. apply Hrange. reflexivity.
Defined.

(** X15. Given a network identifier that reads as the integer [n] and a
    readable file, each of [vn_add_ar], [vn_hold], [vn_release] and
    [vn_reserve] reads the file once, sends exactly one request carrying
    [n] and the content of the file as it was read, and returns the three
    slots of the answer under its own flag key, [resource_id] and
    [error_code]. *)
Theorem range_operation_run (H : host) (t : list event)
    (server auth method action flag_key : string)
    (op : option string → option (gmap string pyval) → M pyval)
    (kwargs : gmap string pyval) (vn_id path data : pyval) (n : Z)
    (flag resource_id error_code : pyval) :
  (method, (action, flag_key), op) ∈ range_operations H →
  connected H server auth →
  kwargs !! "vn_id" = Some vn_id →
  Py.truthy vn_id = true →
  Py.int vn_id = Ok n →
  kwargs !! "path" = Some path →
  Py.truthy path = true →
  fopen_read H t path = Ok data →
  xmlrpc H (t ++ [ReadFile path]) server method [PStr auth; PInt n; data]
  = Ok (PList [flag; resource_id; error_code]) →
  op (Some "function") (Some kwargs) t
  = (Ok (PDict (<["action" := PStr action]>
               (<[flag_key := flag]>
               (<["resource_id" := resource_id]>
               (<["error_code" := error_code]> ∅))))),
     [ReadFile path; Rpc server method [PStr auth; PInt n; data]]).
Proof.
  intros Hop (user & password & Hrpc & Hjoin) Hvn Hvn_given Hint Hpath
    Hpath_given Hread Hanswer.
  unfold range_operations in Hop.
  repeat (apply elem_of_cons in Hop as [[= -> -> -> ->]|Hop]);
    [..|by apply elem_of_nil in Hop];
    unfold vn_add_ar, vn_hold, vn_release, vn_reserve; simpl;
    rewrite (RequestFacts.kwget_some _ _ _ Hvn),
      (RequestFacts.kwget_some _ _ _ Hpath), Hvn_given, Hpath_given; simpl;
    rewrite (RequestFacts.read_file_ok _ _ _ _ _ Hread);
    rewrite Hrpc, Run.bind_lift_ok; cbn beta iota;
    rewrite Hjoin, Run.bind_lift_ok, Hint, Run.bind_lift_ok;
    by rewrite RequestFacts.request_record, Hanswer.
Qed.

Lemma range_operation_run_witness :
  vn_reserve Samples.empty_cloud (Some "function") (Some range_kwargs) []
  = (Ok (PDict (<["action" := PStr "vn.reserve"]>
               (<["reserved" := PBool true]>
               (<["resource_id" := PStr "<POOL/>"]>
               (<["error_code" := PInt 0]> ∅))))),
     [ReadFile (PStr "/srv/range.txt");
      Rpc Samples.endpoint "one.vn.reserve"
        [PStr Samples.credentials; PInt 3; PStr "NAME = updated"]]).
Proof.
  apply (range_operation_run Samples.empty_cloud [] Samples.endpoint
           Samples.credentials "one.vn.reserve" "vn.reserve" "reserved"
           (vn_reserve Samples.empty_cloud) range_kwargs (PStr "3")
           (PStr "/srv/range.txt") (PStr "NAME = updated") 3).
  - set_solver.
  - exists (PStr "oneadmin"), (PStr "secret"). split; reflexivity.
  - reflexivity.
  - reflexivity.
  - reflexivity.
  - reflexivity.
  - reflexivity.
  - reflexivity.
  - reflexivity.
Defined.

(** X16. [vn_add_ar] refuses its arguments only when both [vn_id] and
    [path] are missing.  Given a readable file but no [vn_id] it reads the
    file and then raises [TypeError] on the missing identifier, without
    sending a request. *)
Theorem vn_add_ar_without_id (H : host) (t : list event)
    (server auth : string) (kwargs : gmap string pyval) (path data : pyval) :
  connected H server auth →
  kwargs !! "vn_id" = None →
  kwargs !! "path" = Some path →
  Py.truthy path = true →
  fopen_read H t path = Ok data →
  vn_add_ar H (Some "function") (Some kwargs) t
  = (Raise TypeError, [ReadFile path]).
Proof.
  intros (user & password & Hrpc & Hjoin) Hvn Hpath Hgiven Hread.
  unfold vn_add_ar. simpl.
  rewrite (RequestFacts.kwget_some _ _ _ Hpath), Hgiven, andb_false_r.
  rewrite (RequestFacts.read_file_ok _ _ _ _ _ Hread).
  rewrite Hrpc, Run.bind_lift_ok; cbn beta iota.
  rewrite Hjoin, Run.bind_lift_ok.
  unfold Py.kwget, kwargs_or_empty. simpl. by rewrite Hvn.
Qed.

Lemma vn_add_ar_without_id_witness :
  vn_add_ar Samples.empty_cloud (Some "function")
    (Some {["path" := PStr "/srv/range.txt"]}) []
  = (Raise TypeError, [ReadFile (PStr "/srv/range.txt")]).
Proof.
  apply (vn_add_ar_without_id Samples.empty_cloud [] Samples.endpoint
           Samples.credentials _ _ (PStr "NAME = updated")).
  - exists (PStr "oneadmin"), (PStr "secret"). split; reflexivity.
  - reflexivity.
  - reflexivity.
  - reflexivity.
  - reflexivity.
Defined.

(** ** Deleting by identifier or by name *)

(** X17. Given an identifier that reads as the integer [n], each of
    [image_delete], [secgroup_delete] and [vn_delete] sends exactly one
    request, for [n], and returns the three slots of the answer; a name
    given beside the identifier is not looked up.  The request of
    [vn_delete] is [one.image.delete]. *)
Theorem delete_by_id (H : host) (t : list event)
    (server auth method id_key action new_id_key : string) (lister : M pool)
    (op : option string → option (gmap string pyval) → M pyval)
    (kwargs : gmap string pyval) (id : pyval) (n : Z)
    (flag answer_id error_code : pyval) :
  (method, id_key, (action, new_id_key), lister, op) ∈ delete_operations H →
  connected H server auth →
  kwargs !! id_key = Some id →
  Py.truthy id = true →
  Py.int id = Ok n →
  xmlrpc H t server method [PStr auth; PInt n]
  = Ok (PList [flag; answer_id; error_code]) →
  op (Some "function") (Some kwargs) t
  = (Ok (PDict (<["action" := PStr action]>
               (<["deleted" := flag]>
               (<[new_id_key := answer_id]>
               (<["error_code" := error_code]> ∅))))),
     [Rpc server method [PStr auth; PInt n]]).
Proof.
  intros Hop (user & password & Hrpc & Hjoin) Hid Hgiven Hint Hanswer.
  unfold delete_operations in Hop.
  repeat (apply elem_of_cons in Hop as [[= -> -> -> -> -> ->]|Hop]);
    [..|by apply elem_of_nil in Hop];
    unfold image_delete, secgroup_delete, vn_delete; simpl;
    rewrite (RequestFacts.kwget_some _ _ _ Hid), Hgiven, !andb_false_r;
    simpl;
    rewrite Hrpc, Run.bind_lift_ok; cbn beta iota;
    rewrite Hjoin, Run.bind_lift_ok, Run.bind_ret, Hint, Run.bind_lift_ok;
    by rewrite RequestFacts.request_record, Hanswer.
Qed.

Lemma delete_by_id_witness :
  vn_delete Samples.empty_cloud (Some "function")
    (Some (<["vn_id" := PStr "3"]> (<["name" := PStr "lan"]> ∅))) []
  = (Ok (PDict (<["action" := PStr "vn.delete"]>
               (<["deleted" := PBool true]>
               (<["vn_id" := PStr "<POOL/>"]>
               (<["error_code" := PInt 0]> ∅))))),
     [Rpc Samples.endpoint "one.image.delete"
        [PStr Samples.credentials; PInt 3]]).
Proof.
  apply (delete_by_id Samples.empty_cloud [] Samples.endpoint
           Samples.credentials "one.image.delete" "vn_id" "vn.delete" "vn_id"
           (_list_images Samples.empty_cloud None PNone PNone)
           (vn_delete Samples.empty_cloud) _ (PStr "3") 3).
  - set_solver.
  - exists (PStr "oneadmin"), (PStr "secret"). split; reflexivity.
  - reflexivity.
  - reflexivity.
  - reflexivity.
  - reflexivity.
Defined.

(** X18. Given a name and no identifier, each of [image_delete],
    [secgroup_delete] and [vn_delete] first lists its pool, takes the [id]
    of the record listed under the name, and then sends its one delete
    request for that identifier.  The pool [vn_delete] lists is the image
    pool, so the name of a network is resolved to the identifier of the
    image of the same name. *)
Theorem delete_by_name (H : host) (t : list event)
    (server auth method id_key action new_id_key : string) (lister : M pool)
    (op : option string → option (gmap string pyval) → M pyval)
    (kwargs : gmap string pyval) (name : pyval) (listed : pool)
    (lookup : list event) (record id : pyval) (n : Z)
    (flag answer_id error_code : pyval) :
  (method, id_key, (action, new_id_key), lister, op) ∈ delete_operations H →
  connected H server auth →
  kwargs !! "name" = Some name →
  Py.truthy name = true →
  Py.truthy (Py.kwget kwargs id_key) = false →
  lister t = (Ok listed, lookup) →
  Pool.getitem listed name = Ok record →
  Py.getitem record "id" = Ok id →
  Py.int id = Ok n →
  xmlrpc H (t ++ lookup) server method [PStr auth; PInt n]
  = Ok (PList [flag; answer_id; error_code]) →
  op (Some "function") (Some kwargs) t
  = (Ok (PDict (<["action" := PStr action]>
               (<["deleted" := flag]>
               (<[new_id_key := answer_id]>
               (<["error_code" := error_code]> ∅))))),
     lookup ++ [Rpc server method [PStr auth; PInt n]]).
Proof.
  intros Hop (user & password & Hrpc & Hjoin) Hname Hgiven Hid Hlist Hget
    Hrecord Hint Hanswer.
  assert (Hname' : name ≠ PNone) by (by intros ->).
  unfold delete_operations in Hop.
  repeat (apply elem_of_cons in Hop as [[= -> -> -> -> -> ->]|Hop]);
    [..|by apply elem_of_nil in Hop];
    unfold image_delete, secgroup_delete, vn_delete; simpl;
    rewrite (RequestFacts.kwget_some _ _ _ Hname), Hgiven, Hid; simpl;
    rewrite Hrpc, Run.bind_lift_ok; cbn beta iota;
    rewrite Hjoin, Run.bind_lift_ok;
    (eapply Run.bind_ok_eq;
     [unfold get_image_id, get_secgroup_id, name_kwargs; simpl;
      unfold Py.kwget; rewrite lookup_singleton; simpl;
      destruct name; try done;
      (eapply Run.bind_ok_quiet; [exact Hlist|]);
      unfold lift; rewrite Hget; simpl; by rewrite Hrecord
     |rewrite Hint, Run.bind_lift_ok;
      by rewrite RequestFacts.request_record, Hanswer]).
Qed.

Lemma delete_by_name_witness :
  vn_delete (Samples.cloud "3" "3") (Some "function")
    (Some {["name" := PStr "ubuntu"]}) []
  = (Ok (PDict (<["action" := PStr "vn.delete"]>
               (<["deleted" := PBool true]>
               (<["vn_id" := PInt 42]>
               (<["error_code" := PInt 0]> ∅))))),
     [Rpc Samples.endpoint "one.imagepool.info"
        (PStr Samples.credentials :: wildcard);
      Rpc Samples.endpoint "one.image.delete"
        [PStr Samples.credentials; PInt 7]]).
Proof.
  eapply (delete_by_name (Samples.cloud "3" "3") [] Samples.endpoint
            Samples.credentials "one.image.delete" "vn_id" "vn.delete"
            "vn_id" (_list_images (Samples.cloud "3" "3") None PNone PNone)
            (vn_delete (Samples.cloud "3" "3")) _ (PStr "ubuntu") _
            [Rpc Samples.endpoint "one.imagepool.info"
               (PStr Samples.credentials :: wildcard)]).
  - set_solver.
  - exists (PStr "oneadmin"), (PStr "secret"). split; reflexivity.
  - reflexivity.
  - reflexivity.
  - reflexivity.
  - vm_compute. reflexivity.
  - vm_compute. reflexivity.
  - vm_compute. reflexivity.
  - vm_compute. reflexivity.
  - vm_compute. reflexivity.
Defined.

(** X19. Whatever it is called with and whatever the provider answers,
    [vn_delete] sends no request other than [one.imagepool.info] and
    [one.image.delete]: it never sends the request [one.vn.delete]. *)
Theorem vn_delete_requests (H : host) (call : option string)
    (kwargs : option (gmap string pyval)) (t : list event)
    (server method : string) (args : list pyval) :
  Rpc server method args ∈ (vn_delete H call kwargs t).2 →
  method = "one.imagepool.info" ∨ method = "one.image.delete".
Proof.
  unfold vn_delete, get_image_id, _list_images, or_get_xml_rpc, name_kwargs,
    bind, lift, rpc, ret, raise.
  repeat case_match; simplify_eq/=; set_solver.
Qed.

Lemma vn_delete_requests_witness :
  "one.image.delete" = "one.imagepool.info"
  ∨ "one.image.delete" = "one.image.delete".
Proof.
  apply (vn_delete_requests (Samples.cloud "3" "3") (Some "function")
           (Some {["name" := PStr "ubuntu"]}) [] Samples.endpoint
           "one.image.delete" [PStr Samples.credentials; PInt 7]).
  vm_compute. apply elem_of_cons. right. apply elem_of_cons. by left.
Defined.

(** ** Queries the provider answers with a failure *)

Section VmQueries.

Context (H : host) (name : pyval) (t : list event) (server auth : string).
Context (id : pyval) (lookup : list event) (n : Z).
Context (Hconnected : connected H server auth).
Context (Hid : get_vm_id H (name_kwargs name) None t = (Ok id, lookup)).
Context (Hint : Py.int id = Ok n).

(** X20. Once the name of the VM is resolved to the identifier [n], a
    failure flag in the provider's answer is not raised: [vm_info] returns
    the second slot of the answer, the provider's error text, in place of
    the record, and [vm_monitoring] returns the empty mapping.  Each sends
    its one request after the lookup. *)
Theorem vm_queries_report_failure (message : pyval)
    (rest others : list pyval) :
  (xmlrpc H (t ++ lookup) server "one.vm.info" [PStr auth; PInt n]
   = Ok (PList (PBool false :: message :: rest)) →
   vm_info H name (Some "action") t
   = (Ok (InfoError message),
      lookup ++ [Rpc server "one.vm.info" [PStr auth; PInt n]]))
  ∧ (xmlrpc H (t ++ lookup) server "one.vm.monitoring" [PStr auth; PInt n]
     = Ok (PList (PBool false :: others)) →
     vm_monitoring H name (Some "action") t
     = (Ok ∅,
        lookup ++ [Rpc server "one.vm.monitoring" [PStr auth; PInt n]])).
Proof.
  destruct Hconnected as (user & password & Hrpc & Hjoin).
  split; intros Hanswer; unfold vm_info, vm_monitoring; simpl;
    rewrite Hrpc, Run.bind_lift_ok; cbn beta iota;
    rewrite Hjoin, Run.bind_lift_ok;
    (eapply Run.bind_ok_eq; [exact Hid|]);
    rewrite Hint, Run.bind_lift_ok;
    unfold bind, rpc, lift; by rewrite Hanswer.
Qed.

End VmQueries.

Lemma vm_queries_report_failure_witness :
  vm_info failing_cloud (PStr "web1") (Some "action") []
  = (Ok (InfoError (PStr "resource not found")),
     [Rpc Samples.endpoint "one.vmpool.info"
        (PStr Samples.credentials :: wildcard ++ [PInt 3])]
     ++ [Rpc Samples.endpoint "one.vm.info"
           [PStr Samples.credentials; PInt 42]])
  ∧ vm_monitoring failing_cloud (PStr "web1") (Some "action") []
    = (Ok ∅,
       [Rpc Samples.endpoint "one.vmpool.info"
          (PStr Samples.credentials :: wildcard ++ [PInt 3])]
       ++ [Rpc Samples.endpoint "one.vm.monitoring"
             [PStr Samples.credentials; PInt 42]]).
Proof.
  assert (Hconnected : connected failing_cloud Samples.endpoint
                         Samples.credentials).
  { exists (PStr "oneadmin"), (PStr "secret"). split; reflexivity. }
  assert (Hid : get_vm_id failing_cloud (name_kwargs (PStr "web1")) None []
                = (Ok (PStr "42"),
                   [Rpc Samples.endpoint "one.vmpool.info"
                      (PStr Samples.credentials :: wildcard ++ [PInt 3])])).
  { vm_compute. reflexivity. }
  destruct (vm_queries_report_failure failing_cloud (PStr "web1") []
              Samples.endpoint Samples.credentials (PStr "42") _ 42
              Hconnected Hid eq_refl (PStr "resource not found")
              [PInt 1024] [PStr "resource not found"; PInt 1024])
    as [Hinfo Hmonitoring].
  split; [apply Hinfo|apply Hmonitoring]; reflexivity.
Defined.

(** X21. Given a network identifier that reads as the integer [n],
    [vn_info] sends its one request for [n] and returns, when the flag of
    the answer is [False], the provider's error text in place of a record,
    and otherwise the flattening of the answered document under the text of
    its [NAME] element. *)
Theorem vn_info_by_id (H : host) (t : list event) (server auth : string)
    (kwargs : gmap string pyval) (vn_id : pyval) (n : Z)
    (flag body : pyval) (rest : list pyval) :
  connected H server auth →
  kwargs !! "vn_id" = Some vn_id →
  Py.truthy vn_id = true →
  Py.int vn_id = Ok n →
  xmlrpc H t server "one.vn.info" [PStr auth; PInt n]
  = Ok (PList (flag :: body :: rest)) →
  ((vn_info H (Some "function") (Some kwargs) t).2
   = [Rpc server "one.vn.info" [PStr auth; PInt n]])
  ∧ (flag = PBool false →
     (vn_info H (Some "function") (Some kwargs) t).1 = Ok (InfoError body))
  ∧ (∀ tree name,
       flag ≠ PBool false →
       etree_XML H body = Ok tree →
       Lxml.find_elem tree "NAME" = Ok name →
       (vn_info H (Some "function") (Some kwargs) t).1
       = Ok (Info {[text name := PDict (_xml_to_dict tree)]})).
Proof.
  intros (user & password & Hrpc & Hjoin) Hid Hgiven Hint Hanswer.
  assert (Hrun : vn_info H (Some "function") (Some kwargs) t
                 = (info_or_error H (PList (flag :: body :: rest)),
                    [Rpc server "one.vn.info" [PStr auth; PInt n]])).
  { unfold vn_info. simpl.
    rewrite (RequestFacts.kwget_some _ _ _ Hid), Hgiven, !andb_false_r.
    simpl. rewrite Hrpc, Run.bind_lift_ok; cbn beta iota.
    rewrite Hjoin, Run.bind_lift_ok, Run.bind_ret, Hint, Run.bind_lift_ok.
    unfold bind, rpc, lift. by rewrite Hanswer. }
  rewrite Hrun. split_and!; [done|by intros ->|].
  intros tree name Hflag Htree Hname.
  unfold info_or_error, info_of, and_then, fst.
  cbn [Py.getindex lookup list_lookup].
  rewrite Htree, Hname. by destruct flag as [|[]| | | |].
Qed.

Lemma vn_info_by_id_witness :
  vn_info failing_cloud (Some "function")
    (Some {["vn_id" := PStr "3"]}) []
  = (Ok (InfoError (PStr "resource not found")),
     [Rpc Samples.endpoint "one.vn.info" [PStr Samples.credentials; PInt 3]]).
Proof.
  destruct (vn_info_by_id failing_cloud [] Samples.endpoint
              Samples.credentials {["vn_id" := PStr "3"]} (PStr "3") 3
              (PBool false) (PStr "resource not found") [PInt 1024])
    as (Hevents & Hfailure & _).
  - exists (PStr "oneadmin"), (PStr "secret"). split; reflexivity.
  - reflexivity.
  - reflexivity.
  - reflexivity.
  - reflexivity.
  - rewrite (Run.pair_eta (vn_info _ _ _ _)), Hevents, Hfailure; reflexivity.
Defined.

(** ** The image and the location of a VM *)

Module MatchFacts.

Lemma str_eq_true (v : pyval) (s : string) :
  Py.str_eq v s = true ↔ v = PStr s.
Proof.
  destruct v; simpl; try (split; [done|by intros [=]]).
  rewrite String.eqb_eq. split; [by intros ->|by intros [= ->]].
Qed.

Lemma matches_some (wanted : string) (record id : pyval) :
  matches wanted record = Ok (Some id) →
  Py.getitem record "id" = Ok id
  ∧ (Py.getitem record "name" = Ok (PStr wanted) ∨ id = PStr wanted).
Proof.
  unfold matches, and_then.
  destruct (Py.getitem record "name") as [name|]; [|done].
  destruct (Py.getitem record "id") as [id'|]; [|done].
  destruct (Py.str_eq name wanted) eqn:Hname; simpl.
  - intros [= ->]. apply str_eq_true in Hname as ->. auto.
  - destruct (Py.str_eq id' wanted) eqn:Hid; [|done].
    intros [= ->]. apply str_eq_true in Hid as ->. auto.
Qed.

Lemma matches_none (wanted : string) (record name id : pyval) :
  Py.getitem record "name" = Ok name →
  Py.getitem record "id" = Ok id →
  name ≠ PStr wanted →
  id ≠ PStr wanted →
  matches wanted record = Ok None.
Proof.
  intros Hname Hid Hn Hi. unfold matches, and_then. rewrite Hname, Hid.
  destruct (Py.str_eq name wanted) eqn:Heq.
  { by apply str_eq_true in Heq. }
  destruct (Py.str_eq id wanted) eqn:Heq'; [|done].
  by apply str_eq_true in Heq'.
Qed.

Lemma first_match_some (wanted : string)
    (records : list (option string * pyval)) (id : pyval) :
  first_match wanted records = Ok (Some id) →
  ∃ key record,
    (key, record) ∈ records
    ∧ Py.getitem record "id" = Ok id
    ∧ (Py.getitem record "name" = Ok (PStr wanted) ∨ id = PStr wanted).
Proof.
  induction records as [|[key record] rest IH]; [done|].
  simpl. unfold and_then at 1.
  destruct (matches wanted record) as [[hit|]|] eqn:Hhit; [| |done].
  - intros [= ->]. exists key, record. split; [set_solver|].
    by apply matches_some.
  - intros Hrest. destruct (IH Hrest) as (key' & record' & Hin & Hfound).
    exists key', record'. split; [set_solver|done].
Qed.

Lemma first_match_none (wanted : string)
    (records : list (option string * pyval)) :
  (∀ key record,
     (key, record) ∈ records →
     ∃ name id,
       Py.getitem record "name" = Ok name
       ∧ Py.getitem record "id" = Ok id
       ∧ name ≠ PStr wanted ∧ id ≠ PStr wanted) →
  first_match wanted records = Ok None.
Proof.
  induction records as [|[key record] rest IH]; [done|].
  intros Hall. simpl.
  destruct (Hall key record) as (name & id & Hname & Hid & Hn & Hi);
    [set_solver|].
  rewrite (matches_none _ _ _ _ Hname Hid Hn Hi). simpl.
  apply IH. intros key' record' Hin. apply (Hall key' record'). set_solver.
Qed.

End MatchFacts.

Section GetImage.

Context (H : host) (vm_ : gmap string pyval) (t : list event).
Context (images : pool) (listing : list event).
Context (Hlist : avail_images H None t = (Ok images, listing)).

#[local] Abbreviation vm_image :=
  (str H (get_cloud_config_value H "image" (PDict vm_) PNone false)).

(** X22. [get_image] lists the images once and sends nothing else.  An
    identifier it returns is the [id] of a listed image whose [name] or
    whose [id] is the configured image, read as a string; when every listed
    image has a [name] and an [id] and none of them is the configured
    image, it raises [SaltCloudNotFound] naming that image. *)
Theorem get_image_found_or_not :
  (get_image H vm_ t).2 = listing
  ∧ (∀ id,
       (get_image H vm_ t).1 = Ok id →
       ∃ key record,
         images !! key = Some record
         ∧ Py.getitem record "id" = Ok id
         ∧ (Py.getitem record "name" = Ok (PStr vm_image)
            ∨ id = PStr vm_image))
  ∧ ((∀ key record,
        images !! key = Some record →
        ∃ name id,
          Py.getitem record "name" = Ok name
          ∧ Py.getitem record "id" = Ok id
          ∧ name ≠ PStr vm_image ∧ id ≠ PStr vm_image) →
     (get_image H vm_ t).1
     = Raise (SaltCloudNotFound
         ("The specified image, " +:+ py_repr H (PStr vm_image) +:+
          ", could not be found."))).
Proof.
  unfold get_image. rewrite (Run.bind_ok _ _ _ _ _ Hlist). simpl.
  unfold bind, lift, ret, raise.
  destruct (first_match vm_image (map_to_list images))
    as [[hit|]|e] eqn:Hmatch; simpl; rewrite ?app_nil_r.
  - split_and!; [done| |].
    + intros id [= <-].
      destruct (MatchFacts.first_match_some _ _ _ Hmatch)
        as (key & record & Hin & Hfound).
      exists key, record. by apply elem_of_map_to_list in Hin.
    + intros Hnone. rewrite MatchFacts.first_match_none in Hmatch; [done|].
      intros key record Hin. apply (Hnone key record).
      by apply elem_of_map_to_list.
  - split_and!; done.
  - split_and!; [done|done|].
    intros Hnone. rewrite MatchFacts.first_match_none in Hmatch; [done|].
    intros key record Hin. apply (Hnone key record).
    by apply elem_of_map_to_list.
Qed.

End GetImage.

Lemma get_image_found_or_not_witness :
  (get_image (Samples.cloud "3" "3") Samples.web1 []).2
  = [Rpc Samples.endpoint "one.imagepool.info"
       (PStr Samples.credentials :: wildcard)]
  ∧ ∃ key record,
      ({[Some "ubuntu" :=
           PDict (_xml_to_dict
             (Element "IMAGE" None
                [Samples.leaf "ID" "7"; Samples.leaf "NAME" "ubuntu"]))]}
       : pool) !! key = Some record
      ∧ Py.getitem record "id" = Ok (PStr "7")
      ∧ (Py.getitem record "name" = Ok (PStr "ubuntu")
         ∨ PStr "7" = PStr "ubuntu").
Proof.
  destruct (get_image_found_or_not (Samples.cloud "3" "3") Samples.web1 []
              {[Some "ubuntu" :=
                  PDict (_xml_to_dict
                    (Element "IMAGE" None
                       [Samples.leaf "ID" "7"; Samples.leaf "NAME" "ubuntu"]))]}
              [Rpc Samples.endpoint "one.imagepool.info"
                 (PStr Samples.credentials :: wildcard)])
    as (Hevents & Hsound & _).
  - vm_compute. reflexivity.
  - split; [exact Hevents|].
    apply (Hsound (PStr "7")). vm_compute. reflexivity.
Defined.

Section GetLocation.

Context (H : host) (vm_ : gmap string pyval) (t : list event).
Context (locations : pool) (listing : list event).
Context (Hlist : avail_locations H None t = (Ok locations, listing)).

#[local] Abbreviation vm_location :=
  (str H (get_cloud_config_value H "location" (PDict vm_) PNone false)).

(** X23. [get_location] lists the hosts once and sends nothing else, also
    when no location is configured.  When the configured location reads as
    the string [None] it returns [None]: a host named [None] cannot be
    selected.  Otherwise an identifier it returns is the [id] of a listed
    host whose [name] or whose [id] is the configured location, and when
    every listed host has a [name] and an [id] and none of them is the
    configured location it raises [SaltCloudNotFound]. *)
Theorem get_location_found_or_not :
  (get_location H vm_ t).2 = listing
  ∧ (vm_location = "None" → (get_location H vm_ t).1 = Ok PNone)
  ∧ (∀ id,
       vm_location ≠ "None" →
       (get_location H vm_ t).1 = Ok id →
       ∃ key record,
         locations !! key = Some record
         ∧ Py.getitem record "id" = Ok id
         ∧ (Py.getitem record "name" = Ok (PStr vm_location)
            ∨ id = PStr vm_location))
  ∧ (vm_location ≠ "None" →
     (∀ key record,
        locations !! key = Some record →
        ∃ name id,
          Py.getitem record "name" = Ok name
          ∧ Py.getitem record "id" = Ok id
          ∧ name ≠ PStr vm_location ∧ id ≠ PStr vm_location) →
     (get_location H vm_ t).1
     = Raise (SaltCloudNotFound
         ("The specified location, " +:+ py_repr H (PStr vm_location) +:+
          ", could not be found."))).
Proof.
  unfold get_location. rewrite (Run.bind_ok _ _ _ _ _ Hlist). simpl.
  destruct (String.eqb vm_location "None") eqn:Hnone.
  { apply String.eqb_eq in Hnone. unfold ret, lift. simpl.
    rewrite app_nil_r. split_and!; done. }
  apply String.eqb_neq in Hnone.
  unfold bind, lift, ret, raise.
  destruct (first_match vm_location (map_to_list locations))
    as [[hit|]|e] eqn:Hmatch; simpl; rewrite ?app_nil_r.
  - split_and!; [done|done| |].
    + intros id _ [= <-].
      destruct (MatchFacts.first_match_some _ _ _ Hmatch)
        as (key & record & Hin & Hfound).
      exists key, record. by apply elem_of_map_to_list in Hin.
    + intros _ Hall. rewrite MatchFacts.first_match_none in Hmatch; [done|].
      intros key record Hin. apply (Hall key record).
      by apply elem_of_map_to_list.
  - split_and!; done.
  - split_and!; [done|done|done|].
    intros _ Hall. rewrite MatchFacts.first_match_none in Hmatch; [done|].
    intros key record Hin. apply (Hall key record).
    by apply elem_of_map_to_list.
Qed.

End GetLocation.

Lemma get_location_found_or_not_witness :
  get_location (Samples.cloud "3" "3") (delete "location" Samples.web1) []
  = (Ok PNone,
     [Rpc Samples.endpoint "one.hostpool.info" [PStr Samples.credentials]]).
Proof.
  destruct (get_location_found_or_not (Samples.cloud "3" "3")
              (delete "location" Samples.web1) []
              {[Some "node1" :=
                  PDict (_xml_to_dict
                    (Element "HOST" None
                       [Samples.leaf "ID" "3"; Samples.leaf "NAME" "node1"]))]}
              [Rpc Samples.endpoint "one.hostpool.info"
                 [PStr Samples.credentials]])
    as (Hevents & Hnone & _).
  - vm_compute. reflexivity.
  - rewrite (Run.pair_eta (get_location _ _ _)), Hevents, Hnone;
      [reflexivity|]. vm_compute. reflexivity.
Defined.

(** ** The runs of [create] that return [False] *)

(** X24. When the host reports that the profile is not configured,
    [create] returns [False] at once: no event is fired and nothing is
    sent. *)
Theorem create_unconfigured_profile (H : host) (vm_ : gmap string pyval)
    (t : list event) (profile : pyval) :
  vm_ !! "profile" = Some profile →
  is_profile_configured H (Py.str_or (active_provider_name H) "opennebula")
    profile
  = Ok (PBool false) →
  create H vm_ t = (Ok (PBool false), []).
Proof.
  intros Hprofile Hconfigured.
  unfold create, create_profile_check, try_except, Py.vmget.
  unfold bind at 1. rewrite Hprofile, Run.bind_lift_ok.
  unfold bind at 1. unfold lift at 1. by rewrite Hconfigured.
Qed.

Lemma create_unconfigured_profile_witness :
  create unconfigured_cloud Samples.web1 [] = (Ok (PBool false), []).
Proof.
  apply (create_unconfigured_profile unconfigured_cloud Samples.web1 []
           (PStr "one-small")); reflexivity.
Defined.

Section CreateRequestFails.

Context (H : host) (vm_ : gmap string pyval) (t : list event).
Context (name profile driver transport image_id region_id : pyval).
Context (server auth : string) (images locations : list event).

Context (Hprofile : (create_profile_check H vm_ t).1 = Ok true).
Context (Hname : alias_provider vm_ !! "name" = Some name).
Context (Hprof : alias_provider vm_ !! "profile" = Some profile).
Context (Hdriver : alias_provider vm_ !! "driver" = Some driver).
Context (Htransport : opts H !! "transport" = Some transport).
Context (Himage :
  get_image H (alias_provider vm_)
    (t ++ [starting_create H name profile driver])
  = (Ok image_id, images)).
Context (Hlocation :
  get_location H (alias_provider vm_)
    (t ++ [starting_create H name profile driver] ++ images)
  = (Ok region_id, locations)).
Context (Hconnected : connected H server auth).

#[local] Abbreviation resolved :=
  (starting_create H name profile driver
     :: images ++ locations
     ++ [requesting_instance H (alias_provider vm_) name image_id
           region_id]).

(** X25. An error in the instantiate step is not raised by [create]: it
    returns [False] and stops.  When the image identifier does not read as
    an integer, its last event is [requesting instance] and no request has
    been sent; when the provider's call raises, its last event is the
    instantiate request.  Neither the readiness poll nor [destroy] nor the
    bootstrap follows. *)
Theorem create_request_fails :
  (∀ e,
     Py.int image_id = Raise e →
     create H vm_ t = (Ok (PBool false), resolved))
  ∧ (∀ image e,
       Py.int image_id = Ok image →
       xmlrpc H (t ++ resolved) server "one.template.instantiate"
         [PStr auth; PInt image; name; PBool false;
          PStr (region_of H region_id)]
       = Raise e →
       create H vm_ t
       = (Ok (PBool false),
          resolved
          ++ [Rpc server "one.template.instantiate"
                [PStr auth; PInt image; name; PBool false;
                 PStr (region_of H region_id)]])).
Proof.
  destruct Hconnected as (user & password & Hrpc & Hjoin).
  assert (Hstart : ∀ r evs,
    try_except
      (let* (server, user, password) := lift (_get_xml_rpc H) in
       let* auth := lift (Py.join_colon user password) in
       let* image := lift (Py.int image_id) in
       rpc H server "one.template.instantiate"
         [PStr auth; PInt image; name; PBool false;
          PStr (region_of H region_id)] >>
       ret true)
      (λ _, Some (ret false)) (t ++ resolved) = (Ok r, evs) →
    create_instantiate H (alias_provider vm_) t = (Ok r, resolved ++ evs)).
  { intros r evs Htry.
    unfold create_instantiate, Py.vmget, opts_getitem, fire_event.
    rewrite Hname, Hprof, Hdriver, Htransport, !Run.bind_lift_ok.
    fold (starting_create H name profile driver).
    rewrite <-app_comm_cons, <-!app_assoc.
    apply Run.bind_emit_eq.
    eapply Run.bind_ok_eq; [exact Himage|].
    eapply Run.bind_ok_eq; [rewrite <-app_assoc; exact Hlocation|].
    fold (requesting_instance H (alias_provider vm_) name image_id
            region_id).
    apply Run.bind_emit_eq.
    rewrite <-!app_assoc. exact Htry. }
  assert (Hcreate : ∀ evs,
    create_instantiate H (alias_provider vm_) t = (Ok false, evs) →
    create H vm_ t = (Ok (PBool false), evs)).
  { intros evs Hrun. rewrite CreateFacts.create_unfold by done.
    eapply Run.bind_ok_quiet; [exact Hrun|done]. }
  split.
  - intros e Hint. apply Hcreate.
    specialize (Hstart false []). rewrite app_nil_r in Hstart.
    apply Hstart.
    unfold try_except. rewrite Hrpc, Run.bind_lift_ok. cbn beta iota.
    rewrite Hjoin, Run.bind_lift_ok, Hint, Run.bind_lift_raise.
    unfold ret. by rewrite app_nil_r.
  - intros image e Hint Hanswer. apply Hcreate, Hstart.
    unfold try_except. rewrite Hrpc, Run.bind_lift_ok. cbn beta iota.
    rewrite Hjoin, Run.bind_lift_ok, Hint, Run.bind_lift_ok.
    unfold bind, rpc, ret. rewrite Hanswer. by rewrite app_nil_r.
Qed.

End CreateRequestFails.

Lemma create_request_fails_witness :
  create refusing_cloud Samples.web1 []
  = (Ok (PBool false),
     (starting_create refusing_cloud (PStr "web1") (PStr "one-small")
        (PStr "my-opennebula-config:opennebula")
        :: [Rpc Samples.endpoint "one.imagepool.info"
              (PStr Samples.credentials :: wildcard)]
        ++ [Rpc Samples.endpoint "one.hostpool.info"
              [PStr Samples.credentials]]
        ++ [requesting_instance refusing_cloud (alias_provider Samples.web1)
              (PStr "web1") (PStr "7") (PStr "3")])
     ++ [Rpc Samples.endpoint "one.template.instantiate"
           [PStr Samples.credentials; PInt 7; PStr "web1"; PBool false;
            PStr (region_of refusing_cloud (PStr "3"))]]).
Proof.
  destruct (create_request_fails refusing_cloud Samples.web1 []
              (PStr "web1") (PStr "one-small")
              (PStr "my-opennebula-config:opennebula") (PStr "zeromq")
              (PStr "7") (PStr "3") Samples.endpoint Samples.credentials
              [Rpc Samples.endpoint "one.imagepool.info"
                 (PStr Samples.credentials :: wildcard)]
              [Rpc Samples.endpoint "one.hostpool.info"
                 [PStr Samples.credentials]])
    as [_ Hraise].
  - reflexivity.
  - reflexivity.
  - reflexivity.
  - reflexivity.
  - reflexivity.
  - vm_compute. reflexivity.
  - vm_compute. reflexivity.
  - exists (PStr "oneadmin"), (PStr "secret"). split; reflexivity.
  - apply (Hraise 7 (OtherError "Fault")); reflexivity.
Defined.

(** ** The records of the summary listing *)

Module SummaryFacts.

Lemma item_summary (vms vms' : pool) (vm : element) :
  (∀ key record, vms !! key = Some record → node_summary key record) →
  _list_nodes_item false vms vm = Ok vms' →
  ∀ key record, vms' !! key = Some record → node_summary key record.
Proof.
  intros Hvms. unfold _list_nodes_item, and_then.
  destruct (Lxml.find_elem vm "NAME") as [name_elem|]; [|done].
  destruct (Lxml.find_elem vm "TEMPLATE") as [template|]; [|done].
  destruct (Lxml.find_text template "CPU") as [cpu|]; [|done].
  destruct (Lxml.find_text template "MEMORY") as [memory|]; [|done].
  destruct (nic_ips (Lxml.findall template "NIC")) as [ips|]; [|done].
  destruct (Lxml.find_text vm "ID") as [id|]; [|done].
  destruct (Lxml.find_text template "TEMPLATE_ID") as [image|]; [|done].
  destruct (Lxml.find_text vm "STATE") as [state|]; [|done].
  intros [= <-] key record.
  destruct (decide (key = text name_elem)) as [->|Hkey].
  - rewrite lookup_insert_eq. intros [= <-].
    exists id, image, cpu, memory, state, ips.
    unfold Lxml.text_value. by destruct (text name_elem).
  - rewrite lookup_insert_ne by done. apply Hvms.
Qed.

Lemma loop_summary (items : list element) :
  ∀ vms vms' : pool,
    (∀ key record, vms !! key = Some record → node_summary key record) →
    _list_nodes_loop false items vms = Ok vms' →
    ∀ key record, vms' !! key = Some record → node_summary key record.
Proof.
  induction items as [|vm rest IH]; intros vms vms' Hvms; simpl.
  { by intros [= <-]. }
  unfold and_then.
  destruct (_list_nodes_item false vms vm) as [vms1|] eqn:Hitem; [|done].
  apply IH. by eapply item_summary.
Qed.

End SummaryFacts.

(** X26. Every record the summary listing [list_nodes] returns has exactly
    the seven fields [id], [image], [name], [size], [state], [private_ips]
    and [public_ips]: its [name] is the key it is listed under, its [size]
    holds [cpu] and [memory], its [private_ips] is a list, and its
    [public_ips] is always the empty list. *)
Theorem list_nodes_records (H : host) (call : option string)
    (t : list event) (nodes : pool) (name : option string)
    (record : pyval) :
  (list_nodes H call t).1 = Ok nodes →
  nodes !! name = Some record →
  node_summary name record.
Proof.
  unfold list_nodes. destruct (Py.call_is call "action"); [done|].
  unfold _list_nodes, bind, lift, rpc.
  destruct (_get_xml_rpc H) as [[[server user] password]|]; [|done].
  destruct (Py.join_colon user password) as [auth|]; [|done].
  destruct (xmlrpc H _ server _ _) as [response|]; [|done].
  simpl. unfold and_then.
  destruct (Py.getindex response 1) as [vm_pool|]; [|done].
  destruct (etree_XML H vm_pool) as [root|]; [|done].
  intros Hloop. revert name record.
  eapply SummaryFacts.loop_summary; [|exact Hloop].
  intros key record'. by rewrite lookup_empty.
Qed.

Lemma list_nodes_records_witness :
  ∃ record,
    (list_nodes (Samples.cloud "3" "3") None []).1
    = Ok {[Some "web1" := record]}
    ∧ node_summary (Some "web1") record.
Proof.
  eexists. split; [vm_compute; reflexivity|].
  eapply (list_nodes_records (Samples.cloud "3" "3") None []);
    vm_compute; reflexivity.
Defined.

(** ** Making an image persistent *)

Section ImagePersistent.

Context (H : host) (is_true : pyval → bool) (t : list event).
Context (server auth : string) (kwargs : gmap string pyval).
Context (image_id : pyval) (n : Z).
Context (Hconnected : connected H server auth).
Context (Hid : kwargs !! "image_id" = Some image_id).
Context (Hgiven : Py.truthy image_id = true).
Context (Hint : Py.int image_id = Ok n).

(** X27. Given an image identifier that reads as the integer [n],
    [image_persistent] refuses a [persist] that is missing or falsy, the
    boolean [False] included, with [SaltCloudSystemExit] and sends nothing:
    persistence cannot be switched off with the boolean.  For any other
    [persist] it sends its one request with [n] and the host's reading of
    [persist], and returns the three slots of the answer. *)
Theorem image_persistent_persist :
  (Py.truthy (Py.kwget kwargs "persist") = false →
   refused (image_persistent H is_true (Some "function") (Some kwargs)))
  ∧ (∀ flag answer_id error_code,
       Py.truthy (Py.kwget kwargs "persist") = true →
       xmlrpc H t server "one.image.persistent"
         [PStr auth; PInt n; PBool (is_true (Py.kwget kwargs "persist"))]
       = Ok (PList [flag; answer_id; error_code]) →
       image_persistent H is_true (Some "function") (Some kwargs) t
       = (Ok (PDict (<["action" := PStr "image.persistent"]>
                    (<["response" := flag]>
                    (<["image_id" := answer_id]>
                    (<["error_code" := error_code]> ∅))))),
          [Rpc server "one.image.persistent"
             [PStr auth; PInt n;
              PBool (is_true (Py.kwget kwargs "persist"))]])).
Proof.
  destruct Hconnected as (user & password & Hrpc & Hjoin).
  split.
  - intros Hpersist t'. eexists. unfold image_persistent. simpl.
    rewrite (RequestFacts.kwget_some _ _ _ Hid), Hgiven, andb_false_r.
    simpl. by rewrite Hpersist.
  - intros flag answer_id error_code Hpersist Hanswer.
    unfold image_persistent. simpl.
    rewrite (RequestFacts.kwget_some _ _ _ Hid), Hgiven, !andb_false_r.
    simpl. rewrite Hpersist. simpl.
    rewrite Hrpc, Run.bind_lift_ok; cbn beta iota.
    rewrite Hjoin, Run.bind_lift_ok, Run.bind_ret, Hint, Run.bind_lift_ok.
    by rewrite RequestFacts.request_record, Hanswer.
Qed.

End ImagePersistent.

Lemma image_persistent_persist_witness :
  refused (image_persistent Samples.empty_cloud (λ _, false)
             (Some "function")
             (Some (<["image_id" := PStr "7"]>
                    (<["persist" := PBool false]> ∅)))).
Proof.
  apply (image_persistent_persist Samples.empty_cloud (λ _, false) []
           Samples.endpoint Samples.credentials
           (<["image_id" := PStr "7"]> (<["persist" := PBool false]> ∅))
           (PStr "7") 7).
  - exists (PStr "oneadmin"), (PStr "secret"). split; reflexivity.
  - reflexivity.
  - reflexivity.
  - reflexivity.
  - reflexivity.
Defined.

(** ** Identifiers by name *)

(** X28. Called with the name [s], each of [get_image_id],
    [get_secgroup_id], [get_vm_id] and [get_vn_id] lists its pool once and
    sends nothing else; it returns the [id] of the record listed under
    [s], raises [KeyError] for [s] when the pool lists no such name, and
    raises [KeyError] for [id] when the record has no identifier. *)
Theorem id_lookup_by_name (H : host) (t : list event) (lister : M pool)
    (lookup : option (gmap string pyval) → option string → M pyval)
    (call : option string) (kwargs : gmap string pyval) (s : string)
    (listed : pool) (listing : list event) :
  (lister, lookup) ∈ id_lookups H →
  Py.call_is call "action" = false →
  kwargs !! "name" = Some (PStr s) →
  lister t = (Ok listed, listing) →
  (lookup (Some kwargs) call t).2 = listing
  ∧ (listed !! Some s = None →
     (lookup (Some kwargs) call t).1 = Raise (KeyError (PStr s)))
  ∧ (∀ record : gmap string pyval,
       listed !! Some s = Some (PDict record) →
       (lookup (Some kwargs) call t).1
       = match record !! "id" with
         | Some id => Ok id
         | None => Raise (KeyError (PStr "id"))
         end).
Proof.
  intros Hin Hcall Hname Hlist.
  assert (Hrun : lookup (Some kwargs) call t
                 = (let? record := Pool.getitem listed (PStr s) in
                    Py.getitem record "id", listing)).
  { unfold id_lookups in Hin.
    repeat (apply elem_of_cons in Hin as [[= -> ->]|Hin]);
      [..|by apply elem_of_nil in Hin];
      unfold get_image_id, get_secgroup_id, get_vm_id, get_vn_id;
      rewrite Hcall; simpl;
      rewrite (RequestFacts.kwget_some _ _ _ Hname);
      (eapply Run.bind_ok_quiet; [exact Hlist|done]). }
  rewrite Hrun. simpl. split_and!; [done|by intros ->|].
  intros record ->. simpl. by destruct (record !! "id").
Qed.

Lemma id_lookup_by_name_witness :
  get_vm_id (Samples.cloud "3" "3") (Some {["name" := PStr "web1"]}) None []
  = (Ok (PStr "42"),
     [Rpc Samples.endpoint "one.vmpool.info"
        (PStr Samples.credentials :: wildcard ++ [PInt 3])])
  ∧ get_vm_id (Samples.cloud "3" "3") (Some {["name" := PStr "web2"]}) None
      []
    = (Raise (KeyError (PStr "web2")),
       [Rpc Samples.endpoint "one.vmpool.info"
          (PStr Samples.credentials :: wildcard ++ [PInt 3])]).
Proof.
  assert (Hlist : _list_vms (Samples.cloud "3" "3") None PNone PNone []
                  = (Ok {[Some "web1" := PDict (_xml_to_dict web1_vm)]},
                     [Rpc Samples.endpoint "one.vmpool.info"
                        (PStr Samples.credentials :: wildcard ++ [PInt 3])])).
  { vm_compute. reflexivity. }
  split.
  - destruct (id_lookup_by_name (Samples.cloud "3" "3") []
                (_list_vms (Samples.cloud "3" "3") None PNone PNone)
                (get_vm_id (Samples.cloud "3" "3")) None
                {["name" := PStr "web1"]} "web1" _ _
                ltac:(set_solver) eq_refl eq_refl Hlist)
      as (Hevents & _ & Hfound).
    rewrite (Run.pair_eta (get_vm_id _ _ _ _)), Hevents,
      (Hfound (_xml_to_dict web1_vm)); [reflexivity|].
    vm_compute. reflexivity.
  - destruct (id_lookup_by_name (Samples.cloud "3" "3") []
                (_list_vms (Samples.cloud "3" "3") None PNone PNone)
                (get_vm_id (Samples.cloud "3" "3")) None
                {["name" := PStr "web2"]} "web2" _ _
                ltac:(set_solver) eq_refl eq_refl Hlist)
      as (Hevents & Hmissing & _).
    rewrite (Run.pair_eta (get_vm_id _ _ _ _)), Hevents, Hmissing;
      [reflexivity|].
    vm_compute. reflexivity.
Defined.
